(** * Belt monitor: the frame-analysis pipeline of [app/belt_analyzer.py]

    A shallow embedding of [SegmentMeasurement], [AnalysisResult] and
    [BeltAnalyzer], and the properties of the width validator, the edge
    locator and the segment assembler.  A further part covers what holds of
    every result of an analysis, its serialization by [to_dict], the
    handlers of [app/api.py] that keep the results, and the overlay of
    [get_visualization].

    Python numbers are kept as the interpreter has them: an [int] is a [Z],
    a [float] is an IEEE 754 binary64 value, given by the Standard Library's
    [spec_float] at precision 53 and maximal exponent 1024.  The OpenCV
    calls (decoding, colour conversion, thresholding, contour tracing, line
    detection) are parameters of the development: [OpenCV] gives what they
    return, [Faults] where they raise instead.  The analyzer is embedded
    first as the run in which every library call returns, then, in
    [Raising], with the exceptions of the library calls, which it never
    catches. *)

From Stdlib Require Import String Ascii DecimalString SpecFloat.
From Stdlib Require Import ZArith List Bool Lia Sorted Permutation.
Import ListNotations.
Open Scope Z_scope.

(** ** Python numbers *)

Module Py.

Definition prec : Z := 53.
Definition emax : Z := 1024.

(** An [int] or a [float]. *)
Inductive num : Type :=
| Int (z : Z)
| Float (f : spec_float).

(** [float(z)]: round to nearest, ties to even. *)
Definition float_of_Z (z : Z) : spec_float := binary_normalize prec emax z 0 false.

Definition to_float (x : num) : spec_float :=
  match x with
  | Int z => float_of_Z z
  | Float f => f
  end.

(** Float literals of the source, each the nearest binary64 value. *)
Definition f0_0 : spec_float := S754_zero false.
(* 1.1 = 0x1.199999999999ap+0 *)
Definition f1_1 : spec_float := S754_finite false 4953959590107546 (-52).
(* 0.3 = 0x1.3333333333333p-2 *)
Definition f0_3 : spec_float := S754_finite false 5404319552844595 (-54).

(** Comparison of an [int] with a [float]: CPython compares the exact
    values, without converting the integer. *)
Definition Zcompare_float (z : Z) (f : spec_float) : option comparison :=
  match f with
  | S754_nan => None
  | S754_infinity s => Some (if s then Gt else Lt)
  | S754_zero _ => Some (z ?= 0)
  | S754_finite s m e =>
      let sm := if s then Z.neg m else Z.pos m in
      Some (match e with
            | Z.neg k => (z * 2 ^ Z.pos k ?= sm)
            | _ => (z ?= sm * 2 ^ e)
            end)
  end.

Definition compare (x y : num) : option comparison :=
  match x, y with
  | Int a, Int b => Some (a ?= b)
  | Int a, Float g => Zcompare_float a g
  | Float f, Int b => option_map CompOpp (Zcompare_float b f)
  | Float f, Float g => SFcompare f g
  end.

(** [x < y], [x > y], [x <= y]: false when a NaN is involved. *)
Definition lt (x y : num) : bool :=
  match compare x y with Some Lt => true | _ => false end.
Definition gt (x y : num) : bool :=
  match compare x y with Some Gt => true | _ => false end.
Definition le (x y : num) : bool :=
  match compare x y with Some (Lt | Eq) => true | _ => false end.

(** Arithmetic: [int] with [int] stays exact, anything else is done in
    binary64 after converting the integer operand. *)
Definition add (x y : num) : num :=
  match x, y with
  | Int a, Int b => Int (a + b)
  | _, _ => Float (SFadd prec emax (to_float x) (to_float y))
  end.

Definition sub (x y : num) : num :=
  match x, y with
  | Int a, Int b => Int (a - b)
  | _, _ => Float (SFsub prec emax (to_float x) (to_float y))
  end.

Definition mul (x y : num) : num :=
  match x, y with
  | Int a, Int b => Int (a * b)
  | _, _ => Float (SFmul prec emax (to_float x) (to_float y))
  end.

(** The float nearest to [n / d] for positive integers, with sign [s]: the
    integers are divided exactly and the quotient is rounded once. *)
Definition int_quotient (s : bool) (n d : positive) : spec_float :=
  let '(q, e, l) := SFdiv_core_binary prec emax (Z.pos n) 0 (Z.pos d) 0 in
  binary_round_aux prec emax s q e l.

(** [x / y] for a non-zero [y] (a zero divisor raises ZeroDivisionError in
    Python; every division of the source is guarded by a non-empty list).
    True division always gives a float.  [int / int] divides the integers
    exactly and rounds the quotient once, without converting the operands;
    with a float operand the integer is converted and the floats are
    divided.  (Python raises OverflowError where an integer is too large
    for a float: far beyond any sum of widths.) *)
Definition truediv (x y : num) : num :=
  match x, y with
  | Int (Z.pos n), Int (Z.pos d) | Int (Z.neg n), Int (Z.neg d) =>
      Float (int_quotient false n d)
  | Int (Z.pos n), Int (Z.neg d) | Int (Z.neg n), Int (Z.pos d) =>
      Float (int_quotient true n d)
  | _, _ => Float (SFdiv prec emax (to_float x) (to_float y))
  end.

(** [x ** 2]. *)
Definition square (x : num) : num := mul x x.

(** Truth value of a number: zero is false. *)
Definition truthy (x : num) : bool :=
  match x with
  | Int z => negb (z =? 0)
  | Float (S754_zero _) => false
  | Float _ => true
  end.

(** [min(l)] and [max(l)] of a non-empty list: the first smallest (largest)
    item is kept. *)
Definition min_of (x : num) (l : list num) : num :=
  fold_left (fun m w => if lt w m then w else m) l x.
Definition max_of (x : num) (l : list num) : num :=
  fold_left (fun m w => if gt w m then w else m) l x.

(** [sum(l)]: starts from the integer 0 and adds from left to right.
    (Recent CPython versions compensate the rounding errors of a sum of
    floats; the two agree whenever the partial sums are exact.) *)
Definition sum (l : list num) : num := fold_left add l (Int 0).

(** [len(l)]. *)
Definition len {A} (l : list A) : num := Int (Z.of_nat (length l)).

(** [round(x, 2)], as the number of hundredths: the nearest multiple of 0.01
    to the exact value of [x], ties to even ([None] for NaN and infinities,
    which [round] hands back unchanged). *)
Definition round_half_even (n d : Z) : Z :=
  let q := n / d in
  let r := n mod d in
  match 2 * r ?= d with
  | Lt => q
  | Gt => q + 1
  | Eq => if Z.even q then q else q + 1
  end.

Definition hundredths (x : num) : option Z :=
  match x with
  | Int z => Some (100 * z)
  | Float (S754_zero _) => Some 0
  | Float (S754_finite s m e) =>
      let sm := if s then Z.neg m else Z.pos m in
      Some (match e with
            | Z.neg k => round_half_even (100 * sm) (2 ^ Z.pos k)
            | _ => 100 * sm * 2 ^ e
            end)
  | Float _ => None
  end.

(** [f"{z:.2f}"] for an integer [z] (exact below 2^53). *)
Definition format_2f (z : Z) : string :=
  (NilZero.string_of_int (Z.to_int z) ++ ".00")%string.

End Py.

(** ** Data model *)

(** [SegmentMeasurement]: the widths are kept in the order they were
    appended. *)
Record SegmentMeasurement : Type := {
  segment_id : Z;
  frame_start : Z;
  frame_end : Z;
  widths : list Py.num
}.

Definition min_width (s : SegmentMeasurement) : Py.num :=
  match widths s with
  | [] => Py.Float Py.f0_0
  | w :: ws => Py.min_of w ws
  end.

Definition max_width (s : SegmentMeasurement) : Py.num :=
  match widths s with
  | [] => Py.Float Py.f0_0
  | w :: ws => Py.max_of w ws
  end.

Definition avg_width (s : SegmentMeasurement) : Py.num :=
  match widths s with
  | [] => Py.Float Py.f0_0
  | _ :: _ => Py.truediv (Py.sum (widths s)) (Py.len (widths s))
  end.

Definition width_variance (s : SegmentMeasurement) : Py.num :=
  if (length (widths s) <? 2)%nat then Py.Float Py.f0_0
  else
    let avg := avg_width s in
    Py.truediv (Py.sum (map (fun w => Py.square (Py.sub w avg)) (widths s)))
               (Py.len (widths s)).

(** An alert dictionary; the key ["frame"] is only set in video mode. *)
Record Alert : Type := {
  alert_type : string;
  alert_frame : option Z;
  alert_message : string;
  alert_severity : string
}.

Record AnalysisResult : Type := {
  source_file : string;
  total_frames : Z;
  fps : Py.num;
  segments : list SegmentMeasurement;
  alerts : list Alert;
  created_at : string
}.

(** The constructor arguments of [BeltAnalyzer]. *)
Record BeltAnalyzer : Type := {
  min_width_threshold : Py.num;
  max_width_threshold : Py.num;
  seam_detection_threshold : Py.num;
  calibration : Py.num;
  roi : option (Z * Z * Z * Z)
}.

(** Exceptions the analyzer lets escape: its own [ValueError], the
    [ZeroDivisionError] of [%], and what a library call raises. *)
Inductive exn : Type :=
| ValueError (msg : string)
| ZeroDivisionError
| cv2_error (msg : string)
| TypeError (msg : string).

Inductive result (A : Type) : Type :=
| Ok (a : A)
| Raise (e : exn).
Arguments Ok {A} a.
Arguments Raise {A} e.

(** ** The image library *)

(** A binary mask: the rows of a single-channel [uint8] array. *)
Definition mask : Type := list (list Z).
Definition contour : Type := list (Z * Z).

(** An opened [cv2.VideoCapture]: two properties and the outcome of each
    successive [read()], [None] where [ret] is false.  Reads past the end of
    the list fail too. *)
Record Capture (frame : Type) : Type := {
  cap_fps : spec_float;
  cap_frame_count : Z;
  cap_reads : list (option frame)
}.
Arguments cap_fps {frame} c.
Arguments cap_frame_count {frame} c.
Arguments cap_reads {frame} c.

(** What the analyzer asks of OpenCV and NumPy. *)
Class OpenCV : Type := {
  ndarray : Type;
  (* frame[y:y+h, x:x+w] *)
  crop : Z * Z * Z * Z -> ndarray -> ndarray;
  (* cvtColor, GaussianBlur, adaptiveThreshold, morphologyEx (close, open) *)
  binarize : ndarray -> mask;
  findContours : mask -> list contour;
  contourArea : contour -> spec_float;
  boundingRect : contour -> Z * Z * Z * Z;
  (* Canny and HoughLinesP find a line with angle below 0.1 *)
  horizontal_line : ndarray -> bool;
  (* np.mean(cv2.absdiff(gray_curr, gray_prev)) *)
  mean_absdiff : ndarray -> ndarray -> spec_float;
  imread : string -> option ndarray;
  VideoCapture : string -> option (Capture ndarray)
}.


(** ** The analyzer *)

(** The functions of [BeltAnalyzer] in the run in which every library call
    returns; [Raising] below has the same functions with the exceptions of
    the library calls. *)
Section Analyzer.

Context {opencv : OpenCV}.

Definition preprocess_frame (self : BeltAnalyzer) (frame : ndarray) : mask :=
  let frame := match roi self with
               | Some r => crop r frame
               | None => frame
               end in
  binarize frame.

(** [np.sum(binary, axis=0) / 255]. *)
Definition column_sum (binary : mask) (c : nat) : Z :=
  fold_left Z.add (map (fun row => nth c row 0) binary) 0.

Definition shape0 (binary : mask) : nat := length binary.
Definition shape1 (binary : mask) : nat :=
  match binary with
  | [] => 0%nat
  | row :: _ => length row
  end.

Definition projection (binary : mask) : list spec_float :=
  map (fun c => SFdiv Py.prec Py.emax (Py.float_of_Z (column_sum binary c))
                      (Py.float_of_Z 255))
      (seq 0 (shape1 binary)).

Definition is_none {A} (o : option A) : bool :=
  match o with None => true | Some _ => false end.
Definition is_some {A} (o : option A) : bool := negb (is_none o).

(** The [for i in range(len(projection))] loop; [exceeds i] is
    [projection[i] > threshold] and [n] is [len(projection)]. *)
Fixpoint scan_loop (exceeds : nat -> bool) (n : nat) (range : list nat)
    (left_edge right_edge : option Z) : option Z * option Z :=
  match range with
  | [] => (left_edge, right_edge)
  | i :: range' =>
      let left_edge :=
        if exceeds i && is_none left_edge then Some (Z.of_nat i)
        else left_edge in
      let right_edge :=
        if exceeds (n - 1 - i)%nat && is_none right_edge
        then Some (Z.of_nat (n - 1 - i))
        else right_edge in
      if is_some left_edge && is_some right_edge then (left_edge, right_edge)
      else scan_loop exceeds n range' left_edge right_edge
  end.

(** [projection[i] > threshold]. *)
Definition exceeds (projection : list spec_float) (threshold : Py.num)
    (i : nat) : bool :=
  Py.gt (Py.Float (nth i projection S754_nan)) threshold.

(** Lines 141 to 158 of [detect_belt_edges]: the scan of the column
    projection. *)
Definition column_projection_scan (binary : mask) : option Z * option Z :=
  let height := shape0 binary in
  let projection := projection binary in
  let threshold := Py.mul (Py.Int (Z.of_nat height)) (Py.Float Py.f0_3) in
  let n := length projection in
  scan_loop (exceeds projection threshold) n (seq 0 n) None None.

(** [max(contours, key=cv2.contourArea)] on a non-empty list. *)
Definition largest (c : contour) (cs : list contour) : contour :=
  fold_left (fun best x =>
               if Py.gt (Py.Float (contourArea x)) (Py.Float (contourArea best))
               then x else best) cs c.

Definition detect_belt_edges (binary : mask) : option Z * option Z :=
  match findContours binary with
  | [] => (None, None)
  | c :: cs =>
      let largest_contour := largest c cs in
      let '(x, y, w, h) := boundingRect largest_contour in
      column_projection_scan binary
  end.

(** The second half of [measure_width]: the edge pair to a width. *)
Definition width_validator (self : BeltAnalyzer) (edges : option Z * option Z)
  : option Z :=
  match edges with
  | (Some left_edge, Some right_edge) =>
      let width := Z.abs (right_edge - left_edge) in
      if Py.lt (Py.Int width) (min_width_threshold self)
         || Py.gt (Py.Int width) (max_width_threshold self)
      then None
      else Some width
  | _ => None
  end.

Definition measure_width (self : BeltAnalyzer) (frame : ndarray) : option Z :=
  let binary := preprocess_frame self frame in
  width_validator self (detect_belt_edges binary).

Definition detect_seam (self : BeltAnalyzer) (frame : ndarray)
    (prev_frame : option ndarray) : bool :=
  match prev_frame with
  | None => false
  | Some prev =>
      if horizontal_line frame then true
      else Py.gt (Py.Float (mean_absdiff frame prev))
                 (Py.mul (seam_detection_threshold self) (Py.Int 255))
  end.

Definition width_message (width : Z) : string :=
  ("Belt width below threshold: " ++ Py.format_2f width ++ "px")%string.

Definition width_warning (frame_count : option Z) (width : Z) : Alert := {|
  alert_type := "width_warning";
  alert_frame := frame_count;
  alert_message := width_message width;
  alert_severity := "warning"
|}.

(** The variables of the [while] loop of [analyze_video]. *)
Record LoopState : Type := {
  st_segments : list SegmentMeasurement;
  st_current : SegmentMeasurement;
  st_alerts : list Alert;
  st_prev_frame : option ndarray;
  st_frame_count : Z
}.

Definition new_segment (id frame_count : Z) : SegmentMeasurement := {|
  segment_id := id;
  frame_start := frame_count;
  frame_end := frame_count;
  widths := []
|}.

Definition nonempty {A} (l : list A) : bool :=
  match l with [] => false | _ :: _ => true end.

(** Lines 261 to 272: the measurement is appended and the warning raised. *)
Definition record_width (self : BeltAnalyzer) (frame_count : Z)
    (width : option Z) (current : SegmentMeasurement) (alerts : list Alert)
  : SegmentMeasurement * list Alert :=
  match width with
  | Some w =>
      let current := {| segment_id := segment_id current;
                        frame_start := frame_start current;
                        frame_end := frame_count;
                        widths := widths current ++ [Py.Int w] |} in
      let alerts :=
        if Py.lt (Py.Int w) (Py.mul (min_width_threshold self) (Py.Float Py.f1_1))
        then alerts ++ [width_warning (Some frame_count) w]
        else alerts in
      (current, alerts)
  | None => (current, alerts)
  end.

(** Lines 274 to 286: a seam closes the open segment.  The object appended
    to [segments] is not written to again: [current_segment] is rebound to
    a fresh one. *)
Definition close_on_seam (seam : bool) (frame_count : Z)
    (segments : list SegmentMeasurement) (current : SegmentMeasurement)
  : list SegmentMeasurement * SegmentMeasurement :=
  if seam then
    let segments := if nonempty (widths current) then segments ++ [current]
                    else segments in
    (segments, new_segment (Z.of_nat (length segments) + 1) frame_count)
  else (segments, current).

(** The body of the loop for a sampled frame (lines 251 to 288);
    [frame_count] is already incremented. *)
Definition process_frame (self : BeltAnalyzer) (st : LoopState)
    (frame : ndarray) (frame_count : Z) : LoopState :=
  let roi_frame := match roi self with
                   | Some r => crop r frame
                   | None => frame
                   end in
  let width := measure_width self roi_frame in
  let '(current, alerts) :=
    record_width self frame_count width (st_current st) (st_alerts st) in
  let '(segments, current) :=
    close_on_seam (detect_seam self roi_frame (st_prev_frame st)) frame_count
                  (st_segments st) current in
  {| st_segments := segments;
     st_current := current;
     st_alerts := alerts;
     st_prev_frame := Some roi_frame;
     st_frame_count := frame_count |}.

(** The [while True] loop, over the outcomes of the successive reads. *)
Fixpoint video_loop (self : BeltAnalyzer) (sample_rate : Z)
    (reads : list (option ndarray)) (st : LoopState) : result LoopState :=
  match reads with
  | [] => Ok st
  | None :: _ => Ok st
  | Some frame :: reads' =>
      let frame_count := st_frame_count st + 1 in
      if sample_rate =? 0 then Raise ZeroDivisionError
      else if negb (frame_count mod sample_rate =? 0) then
        video_loop self sample_rate reads'
          {| st_segments := st_segments st;
             st_current := st_current st;
             st_alerts := st_alerts st;
             st_prev_frame := st_prev_frame st;
             st_frame_count := frame_count |}
      else
        video_loop self sample_rate reads' (process_frame self st frame frame_count)
  end.

Definition initial_state : LoopState := {|
  st_segments := [];
  st_current := new_segment 1 0;
  st_alerts := [];
  st_prev_frame := None;
  st_frame_count := 0
|}.

(** Lines 290 to 308: the last segment is appended and the result built. *)
Definition finish (now video_path : string) (cap : Capture ndarray)
    (st : LoopState) : AnalysisResult :=
  let current := st_current st in
  let segments := if nonempty (widths current) then st_segments st ++ [current]
                  else st_segments st in
  let segments := match segments with
                  | [] => if nonempty (widths current) then [current] else []
                  | _ :: _ => segments
                  end in
  {| source_file := video_path;
     total_frames := cap_frame_count cap;
     fps := Py.Float (cap_fps cap);
     segments := segments;
     alerts := st_alerts st;
     created_at := now |}.

(** [analyze_video] once the capture is open. *)
Definition analyze_capture (self : BeltAnalyzer) (now video_path : string)
    (cap : Capture ndarray) (sample_rate : Z) : result AnalysisResult :=
  match video_loop self sample_rate (cap_reads cap) initial_state with
  | Raise e => Raise e
  | Ok st => Ok (finish now video_path cap st)
  end.

(** [now] is the reading of [datetime.now().isoformat()]. *)
Definition analyze_video (self : BeltAnalyzer) (now video_path : string)
    (sample_rate : Z) : result AnalysisResult :=
  match VideoCapture video_path with
  | None => Raise (ValueError ("Cannot open video: " ++ video_path))
  | Some cap => analyze_capture self now video_path cap sample_rate
  end.

(** [if width] is false for [None] and for the integer 0. *)
Definition analyze_image (self : BeltAnalyzer) (now image_path : string)
  : result AnalysisResult :=
  match imread image_path with
  | None => Raise (ValueError ("Cannot read image: " ++ image_path))
  | Some frame =>
      let width := measure_width self frame in
      let segment := {| segment_id := 1;
                        frame_start := 0;
                        frame_end := 0;
                        widths := match width with
                                  | Some w => if Py.truthy (Py.Int w)
                                              then [Py.Int w] else []
                                  | None => []
                                  end |} in
      let alerts :=
        match width with
        | Some w =>
            if Py.truthy (Py.Int w)
               && Py.lt (Py.Int w)
                        (Py.mul (min_width_threshold self) (Py.Float Py.f1_1))
            then [width_warning None w]
            else []
        | None => []
        end in
      Ok {| source_file := image_path;
            total_frames := 1;
            fps := Py.Int 0;
            segments := if nonempty (widths segment) then [segment] else [];
            alerts := alerts;
            created_at := now |}
  end.

End Analyzer.


(** ** The spec's reading of the edge locator *)

(** The first column from the left and the first column from the right
    whose projection exceeds the threshold, found by two independent
    searches, with no contour pass. *)
Definition first_exceeding (exceeds : nat -> bool) (columns : list nat)
  : option Z :=
  option_map Z.of_nat (find exceeds columns).

Definition spec_edge_locator (binary : mask) : option Z * option Z :=
  let projection := projection binary in
  let threshold := Py.mul (Py.Int (Z.of_nat (shape0 binary))) (Py.Float Py.f0_3) in
  let columns := seq 0 (length projection) in
  (first_exceeding (exceeds projection threshold) columns,
   first_exceeding (exceeds projection threshold) (rev columns)).

(** ** The spec's reading of the warning limit *)

(** The spec's words: strictly below minWidthThreshold x 1.1, the product
    taken exactly (100 x 1.1 = 110); for a whole-number threshold that is
    10 w < 11 minWidthThreshold. *)
Definition spec_below_warning_limit (min_width_threshold w : Z) : bool :=
  10 * w <? 11 * min_width_threshold.

(** ** The spec's reading, in whole numbers *)

(** Every pixel is 0 or 255. *)
Definition binary_mask (binary : mask) : Prop :=
  forall row p, In row binary -> In p row -> p = 0 \/ p = 255.

(** The number of foreground pixels of a column. *)
Definition foreground_count (binary : mask) (c : nat) : Z :=
  Z.of_nat (length (filter (fun row => negb (nth c row 0 =? 0)) binary)).

(** The count is more than 30% of the height. *)
Definition count_exceeds (binary : mask) (c : nat) : bool :=
  3 * Z.of_nat (shape0 binary) <? 10 * foreground_count binary c.

Definition count_edge_locator (binary : mask) : option Z * option Z :=
  let columns := seq 0 (shape1 binary) in
  (first_exceeding (count_exceeds binary) columns,
   first_exceeding (count_exceeds binary) (rev columns)).

(** The masks the float test is checked on: up to 16384 rows. *)
Definition max_rows : Z := 16384.

(** The value of a positive normal float of exponent at least -60, in
    units of 2^-60. *)
Definition scaled (f : spec_float) : option Z :=
  match f with
  | S754_finite false m e =>
      if Pos.eqb (digits2_pos m) 53 && (-60 <=? e)
      then Some (Z.pos m * 2 ^ (e + 60)) else None
  | _ => None
  end.

(** The projection of a column of [k] foreground pixels and the threshold
    of a mask of [h] rows. *)
Definition projection_of_count (k : Z) : spec_float :=
  SFdiv Py.prec Py.emax (Py.float_of_Z (255 * k)) (Py.float_of_Z 255).

Definition threshold_of_height (h : Z) : spec_float :=
  SFmul Py.prec Py.emax (Py.float_of_Z h) Py.f0_3.

(** The projection of [k] pixels is the float [k]; the threshold of [h]
    rows lies between the whole numbers around 0.3 h. *)
Definition projection_ok (k : Z) : bool :=
  match scaled (projection_of_count k) with
  | Some v => v =? k * 2 ^ 60
  | None => false
  end.

Definition threshold_ok (h : Z) : bool :=
  match scaled (threshold_of_height h) with
  | Some v => (3 * h / 10 * 2 ^ 60 <=? v) && (v <? (3 * h / 10 + 1) * 2 ^ 60)
  | None => false
  end.

(** [f] holds from 1 to [n]. *)
Definition all_upto (f : Z -> bool) (n : positive) : bool :=
  fst (Pos.iter (fun s => (fst s && f (snd s), snd s + 1)) (true, 1) n).

Definition is_binary (binary : mask) : bool :=
  forallb (forallb (fun p => (p =? 0) || (p =? 255))) binary.

(** The columns seen from the left and from the right after [k] rounds of
    the loop over a projection of length [n]. *)
Definition seen_left (P : nat -> bool) (k : nat) : option Z :=
  first_exceeding P (seq 0 k).
Definition seen_right (P : nat -> bool) (n k : nat) : option Z :=
  first_exceeding P (rev (seq (n - k) k)).

(** A mask without foreground. *)
Definition all_pixels_zero (binary : mask) : Prop :=
  forall row p, In row binary -> In p row -> p = 0.

(** Floats with no minus sign. *)
Definition nonneg_shape (f : spec_float) : Prop :=
  match f with
  | S754_zero false | S754_infinity false | S754_finite false _ _ | S754_nan => True
  | _ => False
  end.

(** ** The run of the loop, seen from outside *)

Section Views.

Context {opencv : OpenCV}.

(** The frames read before the first failing read. *)
Fixpoint decoded (reads : list (option ndarray)) : list ndarray :=
  match reads with
  | Some frame :: reads' => frame :: decoded reads'
  | _ => []
  end.

Definition roi_frame_of (self : BeltAnalyzer) (frame : ndarray) : ndarray :=
  match roi self with
  | Some r => crop r frame
  | None => frame
  end.

(** The sampled frames, cropped, each with its 1-based frame number;
    [frame_count] is the number of frames read before. *)
Fixpoint sampled (self : BeltAnalyzer) (sample_rate frame_count : Z)
    (frames : list ndarray) : list (Z * ndarray) :=
  match frames with
  | [] => []
  | frame :: frames' =>
      let frame_count := frame_count + 1 in
      if frame_count mod sample_rate =? 0
      then (frame_count, roi_frame_of self frame)
             :: sampled self sample_rate frame_count frames'
      else sampled self sample_rate frame_count frames'
  end.

(** The seam signal at each sampled frame, against the sampled frame
    before it. *)
Fixpoint seam_signals (self : BeltAnalyzer) (prev : option ndarray)
    (samples : list (Z * ndarray)) : list bool :=
  match samples with
  | [] => []
  | (_, roi_frame) :: samples' =>
      detect_seam self roi_frame prev
        :: seam_signals self (Some roi_frame) samples'
  end.

(** The valid measurements, each with its frame number, in sampling
    order. *)
Definition valid_measurements (self : BeltAnalyzer)
    (samples : list (Z * ndarray)) : list (Z * Z) :=
  flat_map (fun s => match measure_width self (snd s) with
                     | Some w => [(fst s, w)]
                     | None => []
                     end) samples.

Definition below_warning_limit (self : BeltAnalyzer) (w : Z) : bool :=
  Py.lt (Py.Int w) (Py.mul (min_width_threshold self) (Py.Float Py.f1_1)).

(** The warning a sampled frame gives rise to, if any. *)
Definition warning_of (self : BeltAnalyzer) (s : Z * ndarray) : list Alert :=
  match measure_width self (snd s) with
  | Some w => if below_warning_limit self w
              then [width_warning (Some (fst s)) w] else []
  | None => []
  end.

Definition append_width (current : SegmentMeasurement) (frame_count w : Z)
  : SegmentMeasurement :=
  {| segment_id := segment_id current;
     frame_start := frame_start current;
     frame_end := frame_count;
     widths := widths current ++ [Py.Int w] |}.

(** The loop body on a frame that is already cropped. *)
Definition on_sample (self : BeltAnalyzer) (st : LoopState)
    (s : Z * ndarray) : LoopState :=
  let '(current, alerts) :=
    record_width self (fst s) (measure_width self (snd s))
                 (st_current st) (st_alerts st) in
  let '(segments, current) :=
    close_on_seam (detect_seam self (snd s) (st_prev_frame st)) (fst s)
                  (st_segments st) current in
  {| st_segments := segments;
     st_current := current;
     st_alerts := alerts;
     st_prev_frame := Some (snd s);
     st_frame_count := fst s |}.

(** The loop variables but the frame counter. *)
Definition assembly (st : LoopState) :=
  (st_segments st, st_current st, st_alerts st, st_prev_frame st).

(** The open segment once the frame's measurement, if any, is in. *)
Definition measured (self : BeltAnalyzer) (st : LoopState)
    (roi_frame : ndarray) (frame_count : Z) : SegmentMeasurement :=
  match measure_width self roi_frame with
  | Some w => append_width (st_current st) frame_count w
  | None => st_current st
  end.

End Views.

(** ** Library calls that raise *)

(** [binarize], [horizontal_line] and [mean_absdiff] give what the library
    calls return; the analyzer above is the run in which every call
    returns.  A call can raise instead, and the analyzer catches nothing:
    [cv2.cvtColor] raises [cv2.error] on an empty array, [cv2.absdiff] on
    frames of different sizes.  [Faults] says on which arrays the calls
    raise, and what. *)
Class Faults {opencv : OpenCV} : Type := {
  (* cvtColor, GaussianBlur, adaptiveThreshold or morphologyEx raises *)
  binarize_fault : ndarray -> option exn;
  (* cvtColor, absdiff, Canny, HoughLinesP, the unpacking of a line or
     np.mean raises, on the frame and the frame before *)
  seam_fault : ndarray -> ndarray -> option exn
}.

(** The analyzer again, with the exceptions of the library calls: each
    function returns what the one of the same name above returns, or
    raises. *)
Module Raising.

Section Analyzer.

Context {opencv : OpenCV} {faults : Faults}.

Definition preprocess_frame (self : BeltAnalyzer) (frame : ndarray)
  : result mask :=
  let frame := match roi self with
               | Some r => crop r frame
               | None => frame
               end in
  match binarize_fault frame with
  | Some e => Raise e
  | None => Ok (binarize frame)
  end.

Definition measure_width (self : BeltAnalyzer) (frame : ndarray)
  : result (option Z) :=
  match preprocess_frame self frame with
  | Raise e => Raise e
  | Ok binary => Ok (width_validator self (detect_belt_edges binary))
  end.

Definition detect_seam (self : BeltAnalyzer) (frame : ndarray)
    (prev_frame : option ndarray) : result bool :=
  match prev_frame with
  | None => Ok false
  | Some prev =>
      match seam_fault frame prev with
      | Some e => Raise e
      | None =>
          Ok (if horizontal_line frame then true
              else Py.gt (Py.Float (mean_absdiff frame prev))
                         (Py.mul (seam_detection_threshold self) (Py.Int 255)))
      end
  end.

(** The body of the loop for a sampled frame (lines 251 to 288): the frame
    is cropped here and again in [preprocess_frame]. *)
Definition process_frame (self : BeltAnalyzer) (st : LoopState)
    (frame : ndarray) (frame_count : Z) : result LoopState :=
  let roi_frame := match roi self with
                   | Some r => crop r frame
                   | None => frame
                   end in
  match measure_width self roi_frame with
  | Raise e => Raise e
  | Ok width =>
      let '(current, alerts) :=
        record_width self frame_count width (st_current st) (st_alerts st) in
      match detect_seam self roi_frame (st_prev_frame st) with
      | Raise e => Raise e
      | Ok seam =>
          let '(segments, current) :=
            close_on_seam seam frame_count (st_segments st) current in
          Ok {| st_segments := segments;
                st_current := current;
                st_alerts := alerts;
                st_prev_frame := Some roi_frame;
                st_frame_count := frame_count |}
      end
  end.

Fixpoint video_loop (self : BeltAnalyzer) (sample_rate : Z)
    (reads : list (option ndarray)) (st : LoopState) : result LoopState :=
  match reads with
  | [] => Ok st
  | None :: _ => Ok st
  | Some frame :: reads' =>
      let frame_count := st_frame_count st + 1 in
      if sample_rate =? 0 then Raise ZeroDivisionError
      else if negb (frame_count mod sample_rate =? 0) then
        video_loop self sample_rate reads'
          {| st_segments := st_segments st;
             st_current := st_current st;
             st_alerts := st_alerts st;
             st_prev_frame := st_prev_frame st;
             st_frame_count := frame_count |}
      else
        match process_frame self st frame frame_count with
        | Raise e => Raise e
        | Ok st' => video_loop self sample_rate reads' st'
        end
  end.

Definition analyze_capture (self : BeltAnalyzer) (now video_path : string)
    (cap : Capture ndarray) (sample_rate : Z) : result AnalysisResult :=
  match video_loop self sample_rate (cap_reads cap) initial_state with
  | Raise e => Raise e
  | Ok st => Ok (finish now video_path cap st)
  end.

Definition analyze_video (self : BeltAnalyzer) (now video_path : string)
    (sample_rate : Z) : result AnalysisResult :=
  match VideoCapture video_path with
  | None => Raise (ValueError ("Cannot open video: " ++ video_path))
  | Some cap => analyze_capture self now video_path cap sample_rate
  end.

Definition analyze_image (self : BeltAnalyzer) (now image_path : string)
  : result AnalysisResult :=
  match imread image_path with
  | None => Raise (ValueError ("Cannot read image: " ++ image_path))
  | Some frame =>
      match measure_width self frame with
      | Raise e => Raise e
      | Ok width =>
          let segment := {| segment_id := 1;
                            frame_start := 0;
                            frame_end := 0;
                            widths := match width with
                                      | Some w => if Py.truthy (Py.Int w)
                                                  then [Py.Int w] else []
                                      | None => []
                                      end |} in
          let alerts :=
            match width with
            | Some w =>
                if Py.truthy (Py.Int w)
                   && Py.lt (Py.Int w)
                            (Py.mul (min_width_threshold self) (Py.Float Py.f1_1))
                then [width_warning None w]
                else []
            | None => []
            end in
          Ok {| source_file := image_path;
                total_frames := 1;
                fps := Py.Int 0;
                segments := if nonempty (widths segment) then [segment] else [];
                alerts := alerts;
                created_at := now |}
      end
  end.

End Analyzer.

End Raising.

(** ** Where the library calls raise, seen from outside *)

Section Faulty.

Context {opencv : OpenCV} {faults : Faults}.

(** What the library raises on a sampled frame, already cropped:
    [measure_width] comes first and crops the frame once more. *)
Definition frame_fault (self : BeltAnalyzer) (roi_frame : ndarray)
    (prev : option ndarray) : option exn :=
  match binarize_fault (roi_frame_of self roi_frame) with
  | Some e => Some e
  | None =>
      match prev with
      | Some p => seam_fault roi_frame p
      | None => None
      end
  end.

(** The first exception the library raises along the sampled frames. *)
Fixpoint first_fault (self : BeltAnalyzer) (prev : option ndarray)
    (samples : list (Z * ndarray)) : option exn :=
  match samples with
  | [] => None
  | (_, roi_frame) :: samples' =>
      match frame_fault self roi_frame prev with
      | Some e => Some e
      | None => first_fault self (Some roi_frame) samples'
      end
  end.

End Faulty.

(** ** An image library to run the analyzer on *)

(** A stand-in for the image library, to run the analyzer on: a frame is
    its own mask, files are looked up in two tables, and a frame shows a
    seam when its first row starts with the value 7. *)
Module Toy.

Definition all_zero (m : mask) : bool :=
  forallb (fun row => forallb (Z.eqb 0) row) m.

Definition starts_with_7 (m : mask) : bool :=
  match m with
  | (7 :: _) :: _ => true
  | _ => false
  end.

(** A mask of [h] rows and [n] columns whose columns from [l] to [r] are
    foreground. *)
Definition belt (h n l r : nat) : mask :=
  repeat (map (fun c => if ((l <=? c) && (c <=? r))%nat then 255 else 0) (seq 0 n)) h.

Definition blank (h n : nat) : mask := repeat (repeat 0 n) h.

(** The same belt with a seam marker in the corner. *)
Definition seam_belt (n l r : nat) : mask :=
  (7 :: repeat 0 (n - 1)) :: belt 9 n l r.

Definition cv (images : list (string * mask))
    (videos : list (string * Capture mask)) : OpenCV := {|
  ndarray := mask;
  crop := fun _ f => f;
  binarize := fun f => f;
  findContours := fun m => if all_zero m then [] else [[(0, 0)]];
  contourArea := fun _ => Py.f0_0;
  boundingRect := fun _ => (0, 0, 0, 0);
  horizontal_line := starts_with_7;
  mean_absdiff := fun _ _ => Py.f0_0;
  imread := fun path =>
    option_map snd (find (fun e => String.eqb (fst e) path) images);
  VideoCapture := fun path =>
    option_map snd (find (fun e => String.eqb (fst e) path) videos)
|}.

(** An analyzer with the default seam threshold and calibration and no
    region of interest. *)
Definition analyzer (min max : Py.num) : BeltAnalyzer := {|
  min_width_threshold := min;
  max_width_threshold := max;
  seam_detection_threshold := Py.Float Py.f0_3;
  calibration := Py.Float (Py.float_of_Z 1);
  roi := None
|}.

(** [BeltAnalyzer()]. *)
Definition default : BeltAnalyzer :=
  analyzer (Py.Float (Py.float_of_Z 100)) (Py.Float (Py.float_of_Z 2000)).

Definition capture (reads : list (option mask)) : Capture mask := {|
  cap_fps := Py.float_of_Z 30;
  cap_frame_count := Z.of_nat (length reads);
  cap_reads := reads
|}.

(** Frames 200 columns wide: a belt 105 wide, no belt, a belt 150 wide
    under a seam, a belt 110 wide. *)
Definition belt_105 : mask := belt 1 200 50 155.
Definition no_belt : mask := blank 1 200.
Definition seam_150 : mask := seam_belt 200 20 170.
Definition belt_110 : mask := belt 1 200 40 150.
(** A frame whose only column above the threshold is column 3. *)
Definition narrow : mask := belt 1 8 3 3.

Definition quiet : Capture mask := capture [Some belt_105; Some no_belt].
Definition seamed : Capture mask :=
  capture [Some belt_105; Some no_belt; Some seam_150; Some belt_110].
Definition broken : Capture mask :=
  capture [Some belt_105; None; Some belt_110].

Definition disk : OpenCV :=
  cv [("belt.png", belt_105); ("narrow.png", narrow)]%string
     [("quiet.mp4", quiet); ("seamed.mp4", seamed); ("broken.mp4", broken);
      ("narrow.mp4", capture [Some narrow])]%string.

End Toy.

(** ** An image library that crops, and raises on empty arrays *)

(** The stand-in again, with the slicing of NumPy for [crop] and with the
    exceptions of [cv2]: an empty array and frames of different shapes are
    refused. *)
Module Roi.

(** [l[a:b]]: negative bounds count from the end, and both are clipped to
    the list. *)
Definition slice {A} (a b : Z) (l : list A) : list A :=
  let n := Z.of_nat (length l) in
  let clip i := if i <? 0 then Z.max (i + n) 0 else Z.min i n in
  firstn (Z.to_nat (clip b - clip a)) (skipn (Z.to_nat (clip a)) l).

(** [frame[y:y+h, x:x+w]]. *)
Definition crop (r : Z * Z * Z * Z) (m : mask) : mask :=
  let '(x, y, w, h) := r in
  map (slice x (x + w)) (slice y (y + h) m).

Definition empty (m : mask) : bool :=
  ((shape0 m =? 0) || (shape1 m =? 0))%nat.

Definition same_shape (a b : mask) : bool :=
  ((shape0 a =? shape0 b) && (shape1 a =? shape1 b))%nat.

Definition empty_text : string :=
  "(-215:Assertion failed) !_src.empty() in function 'cvtColor'".
Definition sizes_text : string :=
  "(-209:Sizes of input arguments do not match) in function 'arithm_op'".

Definition cv (images : list (string * mask))
    (videos : list (string * Capture mask)) : OpenCV :=
  let toy := Toy.cv images videos in
  Build_OpenCV mask crop (@binarize toy) (@findContours toy)
    (@contourArea toy) (@boundingRect toy) (@horizontal_line toy)
    (@mean_absdiff toy) (@imread toy) (@VideoCapture toy).

(** Frames of 12 rows and 200 columns showing a belt 105 wide. *)
Definition wide : mask := Toy.belt 12 200 50 155.

Definition two_frames : Capture mask := Toy.capture [Some wide; Some wide].
Definition cut : Capture mask := Toy.capture [Some wide; None; Some wide].

Definition disk : OpenCV :=
  cv [("belt.png", wide)]%string
     [("belt.mp4", two_frames); ("cut.mp4", cut)]%string.

(** [cvtColor] refuses an empty array; [absdiff] refuses arrays of
    different shapes. *)
Definition refuses (m : mask) : option exn :=
  if empty m then Some (cv2_error empty_text) else None.

Definition refuses_pair (a b : mask) : option exn :=
  if empty a || empty b then Some (cv2_error empty_text)
  else if same_shape a b then None
  else Some (cv2_error sizes_text).

Definition faults : @Faults disk := @Build_Faults disk refuses refuses_pair.

(** The default analyzer with a region of interest. *)
Definition analyzer (r : Z * Z * Z * Z) : BeltAnalyzer := {|
  min_width_threshold := Py.Float (Py.float_of_Z 100);
  max_width_threshold := Py.Float (Py.float_of_Z 2000);
  seam_detection_threshold := Py.Float Py.f0_3;
  calibration := Py.Float (Py.float_of_Z 1);
  roi := Some r
|}.

(** Columns 10 to 189: cropped twice, columns 20 to 189 are left. *)
Definition most : BeltAnalyzer := analyzer (10, 0, 180, 12).
(** Columns 160 to 199, within the frame: cropped twice, nothing is left. *)
Definition right_end : BeltAnalyzer := analyzer (160, 0, 40, 12).

End Roi.

(** * Results, their serialization, the REST layer and the overlay *)

(** ** What holds of a result *)

(** Frame ranges in order: each segment starts no earlier than [lo] and the
    segment before it ends, ends no earlier than it starts, and the last one
    ends no later than [hi]. *)
Fixpoint ranges_ordered (lo : Z) (l : list SegmentMeasurement) (hi : Z) : Prop :=
  match l with
  | [] => lo <= hi
  | s :: l' => lo <= frame_start s /\ frame_start s <= frame_end s
               /\ ranges_ordered (frame_end s) l' hi
  end.

(** Strictly increasing numbers above [lo]. *)
Fixpoint ascending (lo : Z) (l : list Z) : Prop :=
  match l with
  | [] => True
  | i :: l' => lo < i /\ ascending i l'
  end.

(** A width the validator lets through. *)
Definition accepted (self : BeltAnalyzer) (x : Py.num) : Prop :=
  exists w, x = Py.Int w /\ 0 <= w
            /\ Py.lt (Py.Int w) (min_width_threshold self) = false
            /\ Py.gt (Py.Int w) (max_width_threshold self) = false.

(** What a segment reports when it is not empty and holds accepted widths
    only. *)
Definition reports_within (self : BeltAnalyzer) (seg : SegmentMeasurement) : Prop :=
  exists m M,
    min_width seg = Py.Int m /\ max_width seg = Py.Int M
    /\ 0 <= m <= M
    /\ Py.lt (Py.Int m) (min_width_threshold self) = false
    /\ Py.gt (Py.Int M) (max_width_threshold self) = false
    /\ Forall (fun x => exists w, x = Py.Int w /\ m <= w <= M) (widths seg).

(** The frames read, each with its number: 1, 2, ... *)
Definition numbered {A} (frames : list A) : list (Z * A) :=
  combine (map Z.of_nat (seq 1 (length frames))) frames.

(** The segment covers frame [F] and holds the width [w]. *)
Definition holds (F w : Z) (seg : SegmentMeasurement) : Prop :=
  frame_start seg <= F <= frame_end seg /\ In (Py.Int w) (widths seg).

Section Loop.

Context {opencv : OpenCV}.

(** What the loop keeps true; [t] is the number of the last frame seen. *)
Record well_formed (self : BeltAnalyzer) (t : Z) (st : LoopState) : Prop := {
  wf_nonempty : Forall (fun s => widths s <> []) (st_segments st);
  wf_ids : map segment_id (st_segments st)
           = map Z.of_nat (seq 1 (length (st_segments st)));
  wf_current_id : segment_id (st_current st)
                  = Z.of_nat (length (st_segments st)) + 1;
  wf_ranges : ranges_ordered 0 (st_segments st ++ [st_current st]) t;
  wf_accepted : Forall (fun s => Forall (accepted self) (widths s))
                       (st_segments st ++ [st_current st])
}.

Definition recorded (st : LoopState) : list Py.num :=
  concat (map widths (st_segments st)) ++ widths (st_current st).

Definition located (st : LoopState) (v : Z * Z) : Prop :=
  Exists (holds (fst v) (snd v)) (st_segments st ++ [st_current st]).

End Loop.

(** ** Rounding and dictionaries *)

(** The float nearest to [n / d] for positive integers, with sign [s]. *)
Definition nearest_quotient (s : bool) (n d : positive) : spec_float :=
  let '(q, e, l) := SFdiv_core_binary Py.prec Py.emax (Z.pos n) 0 (Z.pos d) 0 in
  binary_round_aux Py.prec Py.emax s q e l.

(** [round(x, 2)]: an integer is returned as it is; a float goes to the
    nearest multiple of 0.01 of its exact value (ties to even) and from
    there to the nearest float; zeros, infinities and NaN are unchanged. *)
Definition round2 (x : Py.num) : Py.num :=
  match x with
  | Py.Int z => Py.Int z
  | Py.Float (S754_finite s m e) =>
      match Py.hundredths x with
      | Some (Z.pos n) => Py.Float (nearest_quotient false n 100)
      | Some (Z.neg n) => Py.Float (nearest_quotient true n 100)
      | _ => Py.Float (S754_zero s)
      end
  | Py.Float f => Py.Float f
  end.

(** The values a result is serialized to; a dictionary keeps its keys in
    insertion order. *)
#[warnings="-register-all"] Inductive pyval : Type :=
| VNone
| VNum (x : Py.num)
| VStr (s : string)
| VList (l : list pyval)
| VDict (d : list (string * pyval)).

Definition lookup {A} (key : string) (d : list (string * A)) : option A :=
  option_map snd (find (fun e => String.eqb (fst e) key) d).

(** [d[key] = v]: an existing key keeps its place. *)
Fixpoint dict_set {A} (key : string) (v : A) (d : list (string * A))
  : list (string * A) :=
  match d with
  | [] => [(key, v)]
  | (k, x) :: d' => if String.eqb k key then (k, v) :: d'
                    else (k, x) :: dict_set key v d'
  end.

(** [del d[key]]. *)
Definition dict_del {A} (key : string) (d : list (string * A))
  : list (string * A) :=
  filter (fun e => negb (String.eqb (fst e) key)) d.

(** The alert dictionaries of [analyze_video] (with ["frame"]) and of
    [analyze_image] (without). *)
Definition alert_dict (a : Alert) : list (string * pyval) :=
  [("type", VStr (alert_type a))]%string
  ++ match alert_frame a with
     | Some f => [("frame", VNum (Py.Int f))]%string
     | None => []
     end
  ++ [("message", VStr (alert_message a));
      ("severity", VStr (alert_severity a))]%string.

Definition segment_dict (s : SegmentMeasurement) : list (string * pyval) :=
  [("segment_id", VNum (Py.Int (segment_id s)));
   ("frame_start", VNum (Py.Int (frame_start s)));
   ("frame_end", VNum (Py.Int (frame_end s)));
   ("min_width_px", VNum (round2 (min_width s)));
   ("max_width_px", VNum (round2 (max_width s)));
   ("avg_width_px", VNum (round2 (avg_width s)));
   ("measurement_count", VNum (Py.len (widths s)))]%string.

(** [AnalysisResult.to_dict]. *)
Definition to_dict (self : AnalysisResult) : list (string * pyval) :=
  [("source_file", VStr (source_file self));
   ("total_frames", VNum (Py.Int (total_frames self)));
   ("fps", VNum (fps self));
   ("total_segments", VNum (Py.len (segments self)));
   ("segments", VList (map (fun s => VDict (segment_dict s)) (segments self)));
   ("alerts", VList (map (fun a => VDict (alert_dict a)) (alerts self)))]%string.

(** What a row of ["segments"] says about a segment of accepted widths. *)
Definition row_within (self : BeltAnalyzer) (row : pyval) : Prop :=
  exists d m M n,
    row = VDict d
    /\ lookup "min_width_px" d = Some (VNum (Py.Int m))
    /\ lookup "max_width_px" d = Some (VNum (Py.Int M))
    /\ lookup "measurement_count" d = Some (VNum (Py.Int n))
    /\ 0 <= m <= M /\ 1 <= n
    /\ Py.lt (Py.Int m) (min_width_threshold self) = false
    /\ Py.gt (Py.Int M) (max_width_threshold self) = false.

(** ** The REST layer of [app/api.py] *)

(** An endpoint returns its value or raises [HTTPException]. *)
Inductive http (A : Type) : Type :=
| Http_ok (a : A)
| HTTPException (status_code : Z) (detail : string).
Arguments Http_ok {A} a.
Arguments HTTPException {A} status_code detail.

(** The response models; a field declared [float] holds the float of the
    number it is given. *)
Record SegmentResponse : Type := {
  r_segment_id : Z;
  r_frame_start : Z;
  r_frame_end : Z;
  r_min_width_px : spec_float;
  r_max_width_px : spec_float;
  r_avg_width_px : spec_float;
  r_measurement_count : Z
}.

Record AlertResponse : Type := {
  r_type : string;
  r_frame : option Z;
  r_message : string;
  r_severity : string
}.

Record AnalysisResponse : Type := {
  r_analysis_id : string;
  r_source_file : string;
  r_total_frames : Z;
  r_fps : spec_float;
  r_total_segments : Z;
  r_segments : list SegmentResponse;
  r_alerts : list AlertResponse;
  r_created_at : string
}.

(** An entry of the listing of [list_results]. *)
Record ResultSummary : Type := {
  l_analysis_id : string;
  l_source_file : string;
  l_created_at : string;
  l_total_segments : Z;
  l_fps : Py.num
}.

(** [analysis_results]: analysis id to result, in insertion order. *)
Definition Store : Type := list (string * AnalysisResult).

Definition segment_response (s : SegmentMeasurement) : SegmentResponse := {|
  r_segment_id := segment_id s;
  r_frame_start := frame_start s;
  r_frame_end := frame_end s;
  r_min_width_px := Py.to_float (round2 (min_width s));
  r_max_width_px := Py.to_float (round2 (max_width s));
  r_avg_width_px := Py.to_float (round2 (avg_width s));
  r_measurement_count := Z.of_nat (length (widths s))
|}.

(** The keys ["type"], ["message"] and ["severity"] are always set, so the
    defaults of [a.get] are never used. *)
Definition alert_response (a : Alert) : AlertResponse := {|
  r_type := alert_type a;
  r_frame := alert_frame a;
  r_message := alert_message a;
  r_severity := alert_severity a
|}.

Definition analysis_response (analysis_id source : string)
    (result : AnalysisResult) (now : string) : AnalysisResponse := {|
  r_analysis_id := analysis_id;
  r_source_file := source;
  r_total_frames := total_frames result;
  r_fps := Py.to_float (fps result);
  r_total_segments := Z.of_nat (length (segments result));
  r_segments := map segment_response (segments result);
  r_alerts := map alert_response (alerts result);
  r_created_at := now
|}.

Definition not_found {A} : http A := HTTPException 404 "Analysis not found".

(** [get_result]; [now] is the clock reading. *)
Definition get_result (analysis_results : Store) (now analysis_id : string)
  : http AnalysisResponse :=
  match lookup analysis_id analysis_results with
  | None => not_found
  | Some result =>
      Http_ok (analysis_response analysis_id (source_file result) result now)
  end.

(** [delete_result]: the store afterwards and the answer. *)
Definition delete_result (analysis_results : Store) (analysis_id : string)
  : Store * http string :=
  match lookup analysis_id analysis_results with
  | None => (analysis_results, not_found)
  | Some _ =>
      (dict_del analysis_id analysis_results,
       Http_ok ("Analysis " ++ analysis_id ++ " deleted")%string)
  end.

(** [sorted(l, key=created_at, reverse=True)]: a stable sort, so each item
    goes before the items that are not greater than it. *)
Fixpoint insert_desc (x : ResultSummary) (l : list ResultSummary)
  : list ResultSummary :=
  match l with
  | [] => [x]
  | y :: l' =>
      if String.ltb (l_created_at x) (l_created_at y)
      then y :: insert_desc x l'
      else x :: l
  end.

Definition sorted_desc (l : list ResultSummary) : list ResultSummary :=
  fold_right insert_desc [] l.

Definition summary (entry : string * AnalysisResult) : ResultSummary := {|
  l_analysis_id := fst entry;
  l_source_file := source_file (snd entry);
  l_created_at := created_at (snd entry);
  l_total_segments := Z.of_nat (length (segments (snd entry)));
  l_fps := fps (snd entry)
|}.

(** [list_results]: the count and the listing. *)
Definition list_results (analysis_results : Store) : Z * list ResultSummary :=
  let results_list := map summary analysis_results in
  (Z.of_nat (length results_list), sorted_desc results_list).

Definition allowed_extensions : list string :=
  [".mp4"; ".avi"; ".mov"; ".mkv"; ".jpg"; ".jpeg"; ".png"; ".bmp"]%string.
Definition image_extensions : list string :=
  [".jpg"; ".jpeg"; ".png"; ".bmp"]%string.

Definition member (s : string) (l : list string) : bool :=
  existsb (String.eqb s) l.

Definition later_first (a b : ResultSummary) : Prop :=
  String.leb (l_created_at b) (l_created_at a) = true.

Section Rest.

Context {opencv : OpenCV}.

(** [Path(name).suffix.lower()], the text of [{allowed_extensions}] (a set,
    printed in hash order) and the text of a ZeroDivisionError. *)
Variable suffix_lower : string -> string.
Variable allowed_text : string.
Variable zero_division_text : string.

(** [str(e)]. *)
Definition str_exn (e : exn) : string :=
  match e with
  | ValueError msg => msg
  | ZeroDivisionError => zero_division_text
  | cv2_error msg => msg
  | TypeError msg => msg
  end.

(** [analyze_media]: the store afterwards and the answer.  [analysis_id]
    is the clock reading that names the upload, [created] the one stored in
    the result and [now] the one of the response.  The upload is saved
    under [file_path] before the analysis and removed after it; the image
    library reads it there. *)
Definition analyze_media (analysis_results : Store)
    (filename analysis_id created now : string)
    (min_width_threshold max_width_threshold seam_threshold : spec_float)
    (sample_rate : Z) (roi_x roi_y roi_w roi_h : option Z)
  : Store * http AnalysisResponse :=
  let file_ext := suffix_lower filename in
  if negb (member file_ext allowed_extensions) then
    (analysis_results,
     HTTPException 400 ("Unsupported file type. Allowed: " ++ allowed_text)%string)
  else
    let file_path := ("data/uploads/" ++ analysis_id ++ file_ext)%string in
    let roi := match roi_x, roi_y, roi_w, roi_h with
               | Some x, Some y, Some w, Some h => Some (x, y, w, h)
               | _, _, _, _ => None
               end in
    let analyzer :=
      Build_BeltAnalyzer (Py.Float min_width_threshold)
        (Py.Float max_width_threshold) (Py.Float seam_threshold)
        (Py.Float (Py.float_of_Z 1)) roi in
    let outcome :=
      if member file_ext image_extensions
      then analyze_image analyzer created file_path
      else analyze_video analyzer created file_path sample_rate in
    match outcome with
    | Raise e => (analysis_results, HTTPException 500 (str_exn e))
    | Ok result =>
        (dict_set analysis_id result analysis_results,
         Http_ok (analysis_response analysis_id filename result now))
    end.

End Rest.

(** ** The overlay of [get_visualization] *)

(** A call made on the copy of the frame; the font is always
    [FONT_HERSHEY_SIMPLEX]. *)
Inductive draw_call : Type :=
| line (pt1 pt2 : Z * Z) (color : Z * Z * Z) (thickness : Z)
| putText (text : string) (org : Z * Z) (fontScale : spec_float)
          (color : Z * Z * Z) (thickness : Z).

(* 0.7 = 0x1.6666666666666p-1 *)
Definition f0_7 : spec_float := S754_finite false 6305039478318694 (-53).

(** [f"{z}"] for an integer. *)
Definition str_int (z : Z) : string := NilZero.string_of_int (Z.to_int z).

Section Overlay.

Context {opencv : OpenCV}.

(** [frame.shape[0]]. *)
Variable frame_height : ndarray -> Z.

(** The calls [get_visualization] makes on [vis], in order. *)
Definition get_visualization (self : BeltAnalyzer) (frame : ndarray)
  : list draw_call :=
  let binary := preprocess_frame self frame in
  match detect_belt_edges binary with
  | (Some left_edge, Some right_edge) =>
      let height := frame_height frame in
      let mid_y := height / 2 in
      let width := right_edge - left_edge in
      [line (left_edge, 0) (left_edge, height) (0, 255, 0) 2;
       line (right_edge, 0) (right_edge, height) (0, 255, 0) 2;
       line (left_edge, mid_y) (right_edge, mid_y) (255, 0, 0) 2;
       putText ("Width: " ++ str_int width ++ "px")%string
               (left_edge, mid_y - 10) f0_7 (255, 0, 0) 2]
  | _ => []
  end.

End Overlay.

(** ** Uploads to run the REST layer on *)

Module Upload.

Definition lower (c : ascii) : ascii :=
  let n := nat_of_ascii c in
  if ((65 <=? n) && (n <=? 90))%nat then ascii_of_nat (n + 32) else c.

Fixpoint lowercase (s : string) : string :=
  match s with
  | EmptyString => EmptyString
  | String c s' => String (lower c) (lowercase s')
  end.

(** [name.rfind(".")]: [i] is the index of the first character. *)
Fixpoint rfind_dot (s : string) (i : nat) : option nat :=
  match s with
  | EmptyString => None
  | String c s' =>
      match rfind_dot s' (S i) with
      | Some j => Some j
      | None => if Ascii.eqb c "." then Some i else None
      end
  end.

(** The final component of a path: the text after the last slash. *)
Fixpoint final_component (s : string) : string :=
  match s with
  | EmptyString => EmptyString
  | String c s' =>
      if existsb (Ascii.eqb "/") (list_ascii_of_string s') then final_component s'
      else if Ascii.eqb c "/" then s' else s
  end.

(** [Path(name).suffix]: the text from the last dot of the final component
    on, unless that dot is its first or its last character. *)
Definition suffix (name : string) : string :=
  let name := final_component name in
  match rfind_dot name 0 with
  | Some i =>
      if ((0 <? i) && (i <? String.length name - 1))%nat
      then substring i (String.length name - i) name
      else EmptyString
  | None => EmptyString
  end.

(** A stand-in for [Path(name).suffix.lower()] on names in ASCII. *)
Definition suffix_lower (name : string) : string := lowercase (suffix name).

(** The upload directory holds an image and a video, under the names
    [analyze_media] saves them at. *)
Definition disk : OpenCV :=
  Toy.cv [("data/uploads/20240101_000000.png", Toy.belt_105)]%string
         [("data/uploads/20240101_000001.mp4", Toy.seamed)]%string.

Definition allowed_text : string :=
  "{'.mp4', '.avi', '.mov', '.mkv', '.jpg', '.jpeg', '.png', '.bmp'}".

Definition zero_division_text : string := "integer modulo by zero".

(** A store that already holds a result. *)
Definition earlier : Store :=
  [("20231231_235959",
    {| source_file := "data/uploads/20231231_235959.png"; total_frames := 1;
       fps := Py.Int 0; segments := []; alerts := [];
       created_at := "2023-12-31T23:59:59" |})]%string.

(** [frame.shape[0]] of a frame that is its own mask. *)
Definition frame_height (m : mask) : Z := Z.of_nat (length m).

End Upload.

(** * Properties *)

(** ** Searching a range of columns *)

Section Find.

Variable P : nat -> bool.

Lemma find_snoc (l : list nat) (x : nat) :
  find P (l ++ [x]) =
  match find P l with
  | Some y => Some y
  | None => if P x then Some x else None
  end.
Proof.
  induction l as [|a l IH]; simpl.
  - reflexivity.
  - destruct (P a); [reflexivity | exact IH].
Qed.

Lemma find_app_some (l l' : list nat) (a : nat) :
  find P l = Some a -> find P (l ++ l') = Some a.
Proof.
  induction l as [|b l IH]; simpl; [discriminate|].
  destruct (P b); [trivial | exact IH].
Qed.

Lemma find_none_all (l : list nat) :
  (forall i, In i l -> P i = false) -> find P l = None.
Proof.
  induction l as [|b l IH]; simpl; intros H; [reflexivity|].
  rewrite (H b (or_introl eq_refl)). apply IH. intros i Hi. apply H. now right.
Qed.

(** The first hit of an increasing range is the least one. *)
Lemma find_seq_least (k s a : nat) :
  find P (seq s k) = Some a ->
  (s <= a < s + k)%nat /\ P a = true /\
  (forall j, (s <= j < a)%nat -> P j = false).
Proof.
  revert s. induction k as [|k IH]; intros s; simpl; [discriminate|].
  destruct (P s) eqn:Ps.
  - intros [= <-]. repeat split; try lia. assumption.
  - intros H. destruct (IH _ H) as (Hr & Ha & Hl).
    repeat split; try lia; [assumption|].
    intros j Hj. destruct (Nat.eq_dec j s) as [-> | Hne]; [assumption|].
    apply Hl. lia.
Qed.

(** The first hit of a decreasing range is the greatest one. *)
Lemma find_rev_seq_greatest (k s b : nat) :
  find P (rev (seq s k)) = Some b ->
  (s <= b < s + k)%nat /\ P b = true /\
  (forall j, (b < j < s + k)%nat -> P j = false).
Proof.
  induction k as [|k IH]; [simpl; discriminate|].
  rewrite seq_S, rev_app_distr. simpl.
  destruct (P (s + k)%nat) eqn:Ps.
  - intros [= <-]. repeat split; try lia. assumption.
  - intros H. destruct (IH H) as (Hr & Hb & Hg).
    repeat split; try lia; [assumption|].
    intros j Hj. destruct (Nat.eq_dec j (s + k)) as [-> | Hne]; [assumption|].
    apply Hg. lia.
Qed.


Lemma seen_left_S (k : nat) :
  seen_left P (S k) =
  if P k && is_none (seen_left P k) then Some (Z.of_nat k) else seen_left P k.
Proof.
  unfold seen_left, first_exceeding. rewrite seq_S, find_snoc. simpl.
  destruct (find P (seq 0 k)); simpl.
  - now rewrite andb_false_r.
  - rewrite andb_true_r. now destruct (P k).
Qed.

Lemma seen_right_S (n k : nat) :
  (k < n)%nat ->
  seen_right P n (S k) =
  if P (n - 1 - k)%nat && is_none (seen_right P n k)
  then Some (Z.of_nat (n - 1 - k)) else seen_right P n k.
Proof.
  intros Hk. unfold seen_right, first_exceeding.
  replace (n - S k)%nat with (n - 1 - k)%nat by lia.
  simpl seq. replace (S (n - 1 - k)) with (n - k)%nat by lia.
  simpl rev. rewrite find_snoc.
  destruct (find P (rev (seq (n - k) k))); simpl.
  - now rewrite andb_false_r.
  - rewrite andb_true_r. now destruct (P (n - 1 - k)%nat).
Qed.

Lemma seen_left_stable (k n : nat) :
  (k <= n)%nat -> is_some (seen_left P k) = true -> seen_left P n = seen_left P k.
Proof.
  intros Hk. unfold seen_left, first_exceeding.
  destruct (find P (seq 0 k)) as [a|] eqn:E; [intros _|discriminate].
  replace n with (k + (n - k))%nat by lia.
  rewrite seq_app. now rewrite (find_app_some _ _ _ E).
Qed.

Lemma seen_right_stable (k n : nat) :
  (k <= n)%nat -> is_some (seen_right P n k) = true ->
  seen_right P n n = seen_right P n k.
Proof.
  intros Hk. unfold seen_right, first_exceeding.
  destruct (find P (rev (seq (n - k) k))) as [a|] eqn:E; [intros _|discriminate].
  replace (n - n)%nat with 0%nat by lia.
  replace (seq 0 n) with (seq 0 (n - k) ++ seq (n - k) k).
  - rewrite rev_app_distr. now rewrite (find_app_some _ _ _ E).
  - rewrite <- seq_app. f_equal. lia.
Qed.

(** The loop, entered at round [k] with what the first [k] rounds have
    seen, ends with what all [n] rounds see: the early exit loses
    nothing. *)
Lemma scan_loop_from (n m k : nat) :
  (k + m = n)%nat ->
  scan_loop P n (seq k m) (seen_left P k) (seen_right P n k)
  = (seen_left P n, seen_right P n n).
Proof.
  revert k. induction m as [|m IH]; intros k Hk; simpl.
  - replace k with n by lia. reflexivity.
  - rewrite <- seen_left_S, <- seen_right_S by lia.
    destruct (is_some (seen_left P (S k)) && is_some (seen_right P n (S k))) eqn:B.
    + apply andb_prop in B. destruct B as [Bl Br].
      rewrite (seen_left_stable (S k) n), (seen_right_stable (S k) n);
        trivial; lia.
    + apply IH. lia.
Qed.

Lemma scan_loop_spec (n : nat) :
  scan_loop P n (seq 0 n) None None
  = (first_exceeding P (seq 0 n), first_exceeding P (rev (seq 0 n))).
Proof.
  pose proof (scan_loop_from n n 0 eq_refl) as H.
  unfold seen_left, seen_right in H. simpl in H.
  replace (n - 0)%nat with n in H by lia.
  replace (n - n)%nat with 0%nat in H by lia.
  exact H.
Qed.

End Find.

(** ** Floats that are not negative *)

Lemma binary_round_aux_nonneg (m e : Z) (l : location) :
  nonneg_shape (binary_round_aux Py.prec Py.emax false m e l).
Proof.
  unfold binary_round_aux.
  destruct (shr_fexp Py.prec Py.emax m e l) as [mrs e'].
  destruct (shr_fexp Py.prec Py.emax _ e' loc_Exact) as [mrs' e''].
  destruct (shr_m mrs'); simpl; trivial.
  destruct (_ <=? _); exact I.
Qed.

Lemma float_of_Z_nonneg (z : Z) : 0 <= z -> nonneg_shape (Py.float_of_Z z).
Proof.
  intros Hz. unfold Py.float_of_Z, binary_normalize.
  destruct z as [|p|p]; [exact I| |lia].
  unfold binary_round. destruct (shl_align _ _ _). apply binary_round_aux_nonneg.
Qed.

Lemma SFmul_0_3_nonneg (x : spec_float) :
  nonneg_shape x -> nonneg_shape (SFmul Py.prec Py.emax x Py.f0_3).
Proof.
  destruct x as [[]|[]| |[] m e]; simpl; trivial; try contradiction.
  intros _. apply binary_round_aux_nonneg.
Qed.

Lemma zero_not_gt (t : spec_float) :
  nonneg_shape t -> Py.gt (Py.Float (S754_zero false)) (Py.Float t) = false.
Proof.
  destruct t as [[]|[]| |[] m e]; simpl; trivial; contradiction.
Qed.

Lemma nan_not_gt (t : Py.num) : Py.gt (Py.Float S754_nan) t = false.
Proof. destruct t as [z|f]; reflexivity. Qed.

(** ** The float test against the whole-number test *)

Lemma all_upto_iter (f : Z -> bool) (n : positive) :
  snd (Pos.iter (fun s => (fst s && f (snd s), snd s + 1)) (true, 1) n)
  = Z.pos n + 1
  /\ (fst (Pos.iter (fun s => (fst s && f (snd s), snd s + 1)) (true, 1) n) = true ->
      forall k, 1 <= k <= Z.pos n -> f k = true).
Proof.
  induction n as [|n IH] using Pos.peano_ind.
  - simpl. split; [reflexivity|]. intros H k Hk. replace k with 1 by lia. exact H.
  - rewrite Pos.iter_succ. destruct IH as [Hs Hf].
    destruct (Pos.iter _ _ n) as [ok next]. cbn [fst snd] in *. subst next.
    split; [lia|]. intros H k Hk. apply andb_prop in H. destruct H as [Hok Hn].
    destruct (Z.eq_dec k (Z.pos n + 1)) as [-> | Hne]; [exact Hn|].
    apply Hf; [exact Hok | lia].
Qed.

Lemma all_upto_spec (f : Z -> bool) (n : positive) :
  all_upto f n = true -> forall k, 1 <= k <= Z.pos n -> f k = true.
Proof. apply all_upto_iter. Qed.

Lemma digits_53 (m : positive) :
  digits2_pos m = 53%positive -> 2 ^ 52 <= Z.pos m < 2 ^ 53.
Proof.
  assert (E : forall p, digits2_pos p = Pos.size p).
  { induction p; simpl; congruence. }
  rewrite E. intros H.
  pose proof (Pos.size_gt m) as Hgt. pose proof (Pos.size_le m) as Hle.
  rewrite H in Hgt, Hle. clear H E.
  change (2 ^ 53)%positive with 9007199254740992%positive in Hgt, Hle.
  change (2 ^ 52) with 4503599627370496. change (2 ^ 53) with 9007199254740992.
  apply Pos2Z.pos_lt_pos in Hgt. apply Pos2Z.pos_le_pos in Hle.
  rewrite Pos2Z.inj_xO in Hle. lia.
Qed.

Lemma scaled_inv (f : spec_float) (v : Z) :
  scaled f = Some v ->
  exists m e, f = S754_finite false m e /\ 2 ^ 52 <= Z.pos m < 2 ^ 53
              /\ -60 <= e /\ v = Z.pos m * 2 ^ (e + 60).
Proof.
  destruct f as [s|s| |[] m e]; try discriminate. unfold scaled.
  destruct (Pos.eqb (digits2_pos m) 53) eqn:Hd; [|discriminate].
  destruct (-60 <=? e) eqn:He; [|discriminate].
  intros [= <-]. exists m, e. apply Pos.eqb_eq in Hd. apply Z.leb_le in He.
  repeat split; try apply digits_53; trivial.
Qed.

Lemma scale_lt (a b A B : Z) :
  0 < A -> 2 <= B -> a < 9007199254740992 -> 4503599627370496 <= b ->
  a * A < b * (A * B).
Proof.
  intros HA HB Ha Hb.
  assert (H1 : a * A < 9007199254740992 * A)
    by (apply Z.mul_lt_mono_pos_r; lia).
  assert (H2 : 9007199254740992 <= b * B) by nia.
  assert (H3 : 9007199254740992 * A <= b * B * A)
    by (apply Z.mul_le_mono_nonneg_r; lia).
  replace (b * (A * B)) with (b * B * A) by ring. lia.
Qed.

Lemma SFcompare_scaled (f g : spec_float) (vf vg : Z) :
  scaled f = Some vf -> scaled g = Some vg ->
  SFcompare f g = Some (vf ?= vg).
Proof.
  intros Hf Hg.
  apply scaled_inv in Hf. destruct Hf as (m1 & e1 & -> & Hm1 & He1 & ->).
  apply scaled_inv in Hg. destruct Hg as (m2 & e2 & -> & Hm2 & He2 & ->).
  cbn [SFcompare]. f_equal.
  destruct (Z.compare_spec e1 e2) as [<- | Hlt | Hgt].
  - rewrite <- Zmult_compare_compat_r; [reflexivity|].
    apply Z.lt_gt, Z.pow_pos_nonneg; lia.
  - symmetry. apply Z.compare_lt_iff.
    replace (e2 + 60) with ((e1 + 60) + (e2 - e1)) by lia.
    rewrite (Z.pow_add_r 2 (e1 + 60) (e2 - e1)) by lia.
    assert (0 < 2 ^ (e1 + 60)) by (apply Z.pow_pos_nonneg; lia).
    assert (2 ^ 1 <= 2 ^ (e2 - e1)) by (apply Z.pow_le_mono_r; lia).
    change (2 ^ 52) with 4503599627370496 in *.
    change (2 ^ 53) with 9007199254740992 in *. change (2 ^ 1) with 2 in *.
    apply scale_lt; lia.
  - symmetry. apply Z.compare_gt_iff.
    replace (e1 + 60) with ((e2 + 60) + (e1 - e2)) by lia.
    rewrite (Z.pow_add_r 2 (e2 + 60) (e1 - e2)) by lia.
    assert (0 < 2 ^ (e2 + 60)) by (apply Z.pow_pos_nonneg; lia).
    assert (2 ^ 1 <= 2 ^ (e1 - e2)) by (apply Z.pow_le_mono_r; lia).
    change (2 ^ 52) with 4503599627370496 in *.
    change (2 ^ 53) with 9007199254740992 in *. change (2 ^ 1) with 2 in *.
    apply scale_lt; lia.
Qed.

Lemma checks_upto_max_rows :
  all_upto projection_ok 16384 = true /\ all_upto threshold_ok 16384 = true.
Proof. split; vm_compute; reflexivity. Qed.

(** The float test is the whole-number test. *)
Lemma float_test_exact (h k : Z) :
  1 <= h <= max_rows -> 0 <= k <= h ->
  Py.gt (Py.Float (projection_of_count k))
        (Py.mul (Py.Int h) (Py.Float Py.f0_3))
  = (3 * h <? 10 * k).
Proof.
  intros Hh Hk. destruct checks_upto_max_rows as [Hp Ht].
  pose proof (all_upto_spec _ _ Ht h Hh) as Hth. unfold threshold_ok in Hth.
  destruct (scaled (threshold_of_height h)) as [v|] eqn:Hv; [|discriminate].
  apply andb_prop in Hth. destruct Hth as [Hlo Hhi].
  apply Z.leb_le in Hlo. apply Z.ltb_lt in Hhi.
  change (Py.mul (Py.Int h) (Py.Float Py.f0_3))
    with (Py.Float (threshold_of_height h)).
  unfold Py.gt. cbn [Py.compare].
  assert (Hdiv : 10 * (3 * h / 10) <= 3 * h < 10 * (3 * h / 10 + 1)).
  { pose proof (Z.div_mod (3 * h) 10 ltac:(lia)).
    pose proof (Z.mod_pos_bound (3 * h) 10 ltac:(lia)). lia. }
  assert (H60 : 0 < 2 ^ 60) by reflexivity.
  destruct (Z.eq_dec k 0) as [-> | Hk0].
  - change (projection_of_count 0) with (S754_zero false).
    apply scaled_inv in Hv. destruct Hv as (m & e & -> & _).
    cbn [SFcompare]. symmetry. apply Z.ltb_ge. lia.
  - assert (Hk1 : 1 <= k <= max_rows) by (unfold max_rows in *; lia).
    pose proof (all_upto_spec _ _ Hp k Hk1) as Hpk. unfold projection_ok in Hpk.
    destruct (scaled (projection_of_count k)) as [u|] eqn:Hu; [|discriminate].
    apply Z.eqb_eq in Hpk. subst u.
    rewrite (SFcompare_scaled _ _ _ _ Hu Hv).
    destruct (Z.compare_spec (k * 2 ^ 60) v) as [E | L | G];
      symmetry; [apply Z.ltb_ge | apply Z.ltb_ge | apply Z.ltb_lt]; nia.
Qed.

Lemma fold_left_add_acc (l : list Z) (a : Z) :
  fold_left Z.add l a = a + fold_left Z.add l 0.
Proof.
  revert a. induction l as [|x l IH]; intros a; simpl; [lia|].
  rewrite (IH (a + x)), (IH x). lia.
Qed.

Lemma column_sum_count (binary : mask) (c : nat) :
  binary_mask binary -> column_sum binary c = 255 * foreground_count binary c.
Proof.
  unfold column_sum, foreground_count, binary_mask.
  induction binary as [|row rows IH]; intros H; [reflexivity|].
  cbn [map fold_left filter]. rewrite fold_left_add_acc, IH.
  - assert (Hp : nth c row 0 = 0 \/ nth c row 0 = 255).
    { destruct (nth_in_or_default c row 0) as [Hin | ->]; [|now left].
      apply (H row); [now left | assumption]. }
    destruct Hp as [-> | ->]; cbn [Z.eqb negb length]; lia.
  - intros r p Hr Hp. apply (H r p); [now right | assumption].
Qed.

Lemma foreground_count_bounds (binary : mask) (c : nat) :
  0 <= foreground_count binary c <= Z.of_nat (shape0 binary).
Proof.
  unfold foreground_count, shape0.
  pose proof (filter_length_le (fun row => negb (nth c row 0 =? 0)) binary).
  lia.
Qed.

Lemma projection_nth (binary : mask) (i : nat) :
  (i < shape1 binary)%nat ->
  nth i (projection binary) S754_nan
  = SFdiv Py.prec Py.emax (Py.float_of_Z (column_sum binary i))
          (Py.float_of_Z 255).
Proof.
  intros Hi. unfold projection.
  rewrite (nth_indep _ S754_nan
             (SFdiv Py.prec Py.emax (Py.float_of_Z (column_sum binary 0))
                    (Py.float_of_Z 255)))
    by now rewrite length_map, length_seq.
  rewrite (map_nth (fun c => SFdiv Py.prec Py.emax
                               (Py.float_of_Z (column_sum binary c))
                               (Py.float_of_Z 255))).
  now rewrite seq_nth.
Qed.

Lemma exceeds_count_exceeds (binary : mask) (i : nat) :
  binary_mask binary -> Z.of_nat (shape0 binary) <= max_rows ->
  (i < shape1 binary)%nat ->
  exceeds (projection binary)
          (Py.mul (Py.Int (Z.of_nat (shape0 binary))) (Py.Float Py.f0_3)) i
  = count_exceeds binary i.
Proof.
  intros Hbin Hrows Hi. unfold exceeds, count_exceeds.
  rewrite (projection_nth _ _ Hi), (column_sum_count _ _ Hbin).
  pose proof (foreground_count_bounds binary i) as Hc.
  apply float_test_exact; [|exact Hc].
  destruct binary as [|row rows]; [simpl in Hi; lia|].
  unfold shape0 in *. cbn [length] in *. lia.
Qed.

Lemma find_ext_in (P Q : nat -> bool) (l : list nat) :
  (forall x, In x l -> P x = Q x) -> find P l = find Q l.
Proof.
  induction l as [|a l IH]; intros H; [reflexivity|]. simpl.
  rewrite (H a (or_introl eq_refl)), IH; [reflexivity|].
  intros x Hx. apply H. now right.
Qed.

Lemma spec_edge_locator_counts (binary : mask) :
  binary_mask binary -> Z.of_nat (shape0 binary) <= max_rows ->
  spec_edge_locator binary = count_edge_locator binary.
Proof.
  intros Hbin Hrows. unfold spec_edge_locator, count_edge_locator, first_exceeding.
  assert (Hn : length (projection binary) = shape1 binary).
  { unfold projection. now rewrite length_map, length_seq. }
  rewrite Hn.
  f_equal; f_equal; apply find_ext_in; intros x Hx.
  - apply in_seq in Hx. apply exceeds_count_exceeds; trivial; lia.
  - apply in_rev, in_seq in Hx. apply exceeds_count_exceeds; trivial; lia.
Qed.

Lemma is_binary_spec (binary : mask) :
  is_binary binary = true -> binary_mask binary.
Proof.
  unfold is_binary, binary_mask. intros H row p Hrow Hp.
  rewrite forallb_forall in H. specialize (H row Hrow).
  rewrite forallb_forall in H. specialize (H p Hp).
  apply orb_prop in H. destruct H as [H|H]; apply Z.eqb_eq in H; auto.
Qed.

(** ** The edge locator *)

Section EdgeLocator.

Context {opencv : OpenCV}.


Lemma column_sum_zero (binary : mask) (c : nat) :
  all_pixels_zero binary -> column_sum binary c = 0.
Proof.
  unfold column_sum, all_pixels_zero.
  induction binary as [|row rows IH]; intros H; simpl; [reflexivity|].
  replace (nth c row 0) with 0.
  - apply IH. intros r p Hr Hp. apply (H r p); [now right | assumption].
  - destruct (nth_in_or_default c row 0) as [Hin | ->]; [|reflexivity].
    symmetry. apply (H row); [now left | assumption].
Qed.

Lemma blank_never_exceeds (binary : mask) (i : nat) :
  all_pixels_zero binary ->
  exceeds (projection binary)
          (Py.mul (Py.Int (Z.of_nat (shape0 binary))) (Py.Float Py.f0_3)) i
  = false.
Proof.
  intros H. unfold exceeds.
  generalize (nth_in_or_default i (projection binary) S754_nan).
  generalize (nth i (projection binary) S754_nan). intros v [Hin | ->].
  - unfold projection in Hin. apply in_map_iff in Hin.
    destruct Hin as (c & <- & _). rewrite (column_sum_zero _ _ H).
    change (SFdiv Py.prec Py.emax (Py.float_of_Z 0) (Py.float_of_Z 255))
      with (S754_zero false).
    apply zero_not_gt. simpl Py.to_float.
    apply SFmul_0_3_nonneg, float_of_Z_nonneg. lia.
  - apply nan_not_gt.
Qed.

(** The loop of the source finds what two independent searches find. *)
Lemma column_projection_scan_spec (binary : mask) :
  column_projection_scan binary = spec_edge_locator binary.
Proof.
  unfold column_projection_scan, spec_edge_locator. apply scan_loop_spec.
Qed.

Lemma blank_scan (binary : mask) :
  all_pixels_zero binary -> column_projection_scan binary = (None, None).
Proof.
  intros H. rewrite column_projection_scan_spec.
  unfold spec_edge_locator, first_exceeding.
  rewrite !find_none_all; trivial; intros i _; now apply blank_never_exceeds.
Qed.

(** C7. Whenever a mask without contours has no foreground pixel (the
    contract of [cv2.findContours]), the edge pair [detect_belt_edges]
    returns is the one the column-projection scan alone returns, which is
    the first column from the left and the first from the right whose
    projection exceeds the threshold; the contour and largest-blob pass,
    early return included, never changes it.  On a binary mask of up to
    16384 rows these are the first columns from either side whose count of
    foreground pixels is more than 30% of the height. *)
Theorem contour_pass_is_inert (binary : mask) :
  (findContours binary = [] -> all_pixels_zero binary) ->
  detect_belt_edges binary = column_projection_scan binary
  /\ detect_belt_edges binary = spec_edge_locator binary
  /\ (binary_mask binary -> Z.of_nat (shape0 binary) <= max_rows ->
      detect_belt_edges binary = count_edge_locator binary).
Proof.
  intros Hcontract.
  assert (E : detect_belt_edges binary = column_projection_scan binary).
  { unfold detect_belt_edges.
    destruct (findContours binary) as [|c cs] eqn:Hc.
    - symmetry. apply blank_scan. now apply Hcontract.
    - destruct (boundingRect (largest c cs)) as [[[x y] w] h]. reflexivity. }
  split; [exact E|]. rewrite E.
  split; [apply column_projection_scan_spec|].
  intros Hbin Hrows. rewrite column_projection_scan_spec.
  now apply spec_edge_locator_counts.
Qed.

(** C10. When both edges are found, the left one is the least column whose
    projection exceeds the threshold, the right one is the greatest, and
    the left edge is not to the right of the right edge. *)
Theorem edges_ordered (binary : mask) (l r : Z) :
  detect_belt_edges binary = (Some l, Some r) ->
  l <= r
  /\ exists a b : nat,
      l = Z.of_nat a /\ r = Z.of_nat b
      /\ (a < shape1 binary)%nat /\ (b < shape1 binary)%nat
      /\ let over :=
           exceeds (projection binary)
                   (Py.mul (Py.Int (Z.of_nat (shape0 binary))) (Py.Float Py.f0_3)) in
         over a = true /\ over b = true
         /\ (forall j, (j < a)%nat -> over j = false)
         /\ (forall j, (b < j < shape1 binary)%nat -> over j = false).
Proof.
  unfold detect_belt_edges.
  destruct (findContours binary) as [|c cs]; [discriminate|].
  destruct (boundingRect (largest c cs)) as [[[x y] w] h].
  rewrite column_projection_scan_spec. unfold spec_edge_locator, first_exceeding.
  assert (Hn : length (projection binary) = shape1 binary).
  { unfold projection. now rewrite length_map, length_seq. }
  rewrite Hn.
  set (over := exceeds _ _).
  destruct (find over (seq 0 (shape1 binary))) as [a|] eqn:Ea; [|discriminate].
  destruct (find over (rev (seq 0 (shape1 binary)))) as [b|] eqn:Eb; [|discriminate].
  simpl. intros [= <- <-].
  apply find_seq_least in Ea. destruct Ea as (Ha & Pa & La).
  apply find_rev_seq_greatest in Eb. destruct Eb as (Hb & Pb & Gb).
  assert (Hab : (a <= b)%nat).
  { destruct (Nat.le_gt_cases a b) as [|Hlt]; [assumption|].
    rewrite (La b) in Pb by lia. discriminate. }
  split; [lia|].
  exists a, b. repeat split; try lia; try assumption.
  all: intros j Hj; first [apply La | apply Gb]; lia.
Qed.

End EdgeLocator.

(** ** The width validator *)

Lemma compare_int_r (y : Py.num) (w : Z) :
  Py.compare y (Py.Int w) = option_map CompOpp (Py.compare (Py.Int w) y).
Proof.
  destruct y as [b|f]; simpl.
  - now rewrite Z.compare_antisym.
  - reflexivity.
Qed.

Lemma le_int_not_lt (y : Py.num) (w : Z) :
  Py.le y (Py.Int w) = true -> Py.lt (Py.Int w) y = false.
Proof.
  unfold Py.le, Py.lt. rewrite compare_int_r.
  now destruct (Py.compare (Py.Int w) y) as [[]|].
Qed.

Lemma int_le_not_gt (y : Py.num) (w : Z) :
  Py.le (Py.Int w) y = true -> Py.gt (Py.Int w) y = false.
Proof.
  unfold Py.le, Py.gt. now destruct (Py.compare (Py.Int w) y) as [[]|].
Qed.

Lemma lt_int_gt (y : Py.num) (w : Z) :
  Py.lt y (Py.Int w) = Py.gt (Py.Int w) y.
Proof.
  unfold Py.lt, Py.gt. rewrite compare_int_r.
  now destruct (Py.compare (Py.Int w) y) as [[]|].
Qed.

(** C1. With an edge undetected the validator returns nothing; with both
    edges it returns the width |right - left| when it lies in the closed
    interval of the two thresholds, both bounds included, and nothing when
    it is strictly below the minimum or strictly above the maximum. *)
Theorem width_validator_spec (self : BeltAnalyzer) :
  (forall r, width_validator self (None, r) = None)
  /\ (forall l, width_validator self (l, None) = None)
  /\ forall l r : Z,
      let w := Z.abs (r - l) in
      (Py.le (min_width_threshold self) (Py.Int w) = true ->
       Py.le (Py.Int w) (max_width_threshold self) = true ->
       width_validator self (Some l, Some r) = Some w)
      /\ (Py.lt (Py.Int w) (min_width_threshold self) = true
          \/ Py.lt (max_width_threshold self) (Py.Int w) = true ->
          width_validator self (Some l, Some r) = None).
Proof.
  split; [reflexivity|]. split; [intros [l|]; reflexivity|].
  intros l r w. unfold width_validator. fold w. split.
  - intros Hmin Hmax.
    now rewrite (le_int_not_lt _ _ Hmin), (int_le_not_gt _ _ Hmax).
  - rewrite lt_int_gt. intros [H|H]; rewrite H; [reflexivity|].
    now rewrite orb_true_r.
Qed.

(** ** Segment statistics *)

(** C4. Over the widths 100.0, 150.0, 200.0 the minimum is 100.0, the
    maximum 200.0, the mean 150.0 and the population variance rounds to
    1666.67 at two decimals; over no widths all four are 0.0. *)
Theorem segment_statistics (id first last : Z) :
  let seg := {| segment_id := id; frame_start := first; frame_end := last;
                widths := [Py.Float (Py.float_of_Z 100);
                           Py.Float (Py.float_of_Z 150);
                           Py.Float (Py.float_of_Z 200)] |} in
  let empty := {| segment_id := id; frame_start := first; frame_end := last;
                  widths := [] |} in
  min_width seg = Py.Float (Py.float_of_Z 100)
  /\ max_width seg = Py.Float (Py.float_of_Z 200)
  /\ avg_width seg = Py.Float (Py.float_of_Z 150)
  /\ Py.hundredths (width_variance seg) = Some 166667
  /\ min_width empty = Py.Float Py.f0_0
  /\ max_width empty = Py.Float Py.f0_0
  /\ avg_width empty = Py.Float Py.f0_0
  /\ width_variance empty = Py.Float Py.f0_0.
Proof.
  intros seg empty. repeat split; vm_compute; reflexivity.
Qed.

(** ** The run of the loop, seen as a fold over the sampled frames *)

Section Samples.

Context {opencv : OpenCV}.


Lemma process_frame_on_sample (self : BeltAnalyzer) (st : LoopState)
    (frame : ndarray) (frame_count : Z) :
  process_frame self st frame frame_count
  = on_sample self st (frame_count, roi_frame_of self frame).
Proof. reflexivity. Qed.

Lemma on_sample_assembly (self : BeltAnalyzer) (st st' : LoopState)
    (s : Z * ndarray) :
  assembly st = assembly st' -> on_sample self st s = on_sample self st' s.
Proof.
  unfold assembly, on_sample. intros [= -> -> -> ->]. reflexivity.
Qed.

Lemma fold_on_sample_assembly (self : BeltAnalyzer)
    (samples : list (Z * ndarray)) (st st' : LoopState) :
  assembly st = assembly st' ->
  assembly (fold_left (on_sample self) samples st)
  = assembly (fold_left (on_sample self) samples st').
Proof.
  destruct samples as [|s samples]; simpl; [trivial|].
  intros H. now rewrite (on_sample_assembly self st st' s H).
Qed.

(** A failing read ends the loop as the end of the stream does. *)
Lemma video_loop_decoded (self : BeltAnalyzer) (sample_rate : Z)
    (reads : list (option ndarray)) (st : LoopState) :
  video_loop self sample_rate reads st
  = video_loop self sample_rate (map Some (decoded reads)) st.
Proof.
  revert st. induction reads as [|[frame|] reads IH]; intros st; simpl;
    try reflexivity.
  destruct (sample_rate =? 0); [reflexivity|].
  destruct (negb _); apply IH.
Qed.

(** With a non-zero sample rate the loop ends normally, in the state the
    fold over the sampled frames reaches. *)
Lemma video_loop_fold (self : BeltAnalyzer) (sample_rate : Z)
    (frames : list ndarray) (st : LoopState) :
  sample_rate <> 0 ->
  exists st',
    video_loop self sample_rate (map Some frames) st = Ok st'
    /\ st_frame_count st' = st_frame_count st + Z.of_nat (length frames)
    /\ assembly st'
       = assembly (fold_left (on_sample self)
                     (sampled self sample_rate (st_frame_count st) frames) st).
Proof.
  intros Hrate. apply Z.eqb_neq in Hrate.
  revert st. induction frames as [|frame frames IH]; intros st.
  - exists st. simpl. repeat split. lia.
  - cbn [map video_loop sampled]. rewrite Hrate.
    destruct ((st_frame_count st + 1) mod sample_rate =? 0) eqn:Hs; cbn [negb].
    + destruct (IH (process_frame self st frame (st_frame_count st + 1)))
        as (st' & Hrun & Hcount & Hasm).
      exists st'. split; [exact Hrun|]. split.
      * rewrite Hcount. cbn [process_frame st_frame_count]. 
        rewrite process_frame_on_sample. unfold on_sample.
        destruct (record_width _ _ _ _ _), (close_on_seam _ _ _ _).
        cbn [st_frame_count fst]. rewrite length_cons. lia.
      * rewrite Hasm. cbn [fold_left]. rewrite process_frame_on_sample.
        f_equal. f_equal. unfold on_sample.
        destruct (record_width _ _ _ _ _), (close_on_seam _ _ _ _).
        reflexivity.
    + destruct (IH {| st_segments := st_segments st;
                      st_current := st_current st;
                      st_alerts := st_alerts st;
                      st_prev_frame := st_prev_frame st;
                      st_frame_count := st_frame_count st + 1 |})
        as (st' & Hrun & Hcount & Hasm).
      exists st'. split; [exact Hrun|]. split.
      * rewrite Hcount. cbn [st_frame_count]. rewrite length_cons. lia.
      * rewrite Hasm. cbn [st_frame_count]. now apply fold_on_sample_assembly.
Qed.

Lemma finish_segments (now video_path : string) (cap : Capture ndarray)
    (st : LoopState) :
  segments (finish now video_path cap st)
  = st_segments st
    ++ (if nonempty (widths (st_current st)) then [st_current st] else []).
Proof.
  unfold finish. cbn [segments].
  destruct (nonempty (widths (st_current st))).
  - destruct (st_segments st); reflexivity.
  - rewrite app_nil_r. destruct (st_segments st); reflexivity.
Qed.

Lemma finish_assembly (now video_path : string) (cap : Capture ndarray)
    (st st' : LoopState) :
  assembly st = assembly st' ->
  finish now video_path cap st = finish now video_path cap st'.
Proof.
  unfold assembly, finish. intros [= -> -> -> _]. reflexivity.
Qed.

(** [analyze_video] on an open capture is the fold over the sampled
    frames, finished. *)
Lemma analyze_capture_fold (self : BeltAnalyzer) (now video_path : string)
    (cap : Capture ndarray) (sample_rate : Z) :
  sample_rate <> 0 ->
  analyze_capture self now video_path cap sample_rate
  = Ok (finish now video_path cap
          (fold_left (on_sample self)
             (sampled self sample_rate 0 (decoded (cap_reads cap)))
             initial_state)).
Proof.
  intros Hrate. unfold analyze_capture. rewrite video_loop_decoded.
  destruct (video_loop_fold self sample_rate (decoded (cap_reads cap))
              initial_state Hrate) as (st' & -> & _ & Hasm).
  f_equal. now apply finish_assembly.
Qed.

End Samples.

(** ** The segment assembler *)

Section Assembler.

Context {opencv : OpenCV}.


Lemma on_sample_alerts (self : BeltAnalyzer) (st : LoopState)
    (s : Z * ndarray) :
  st_alerts (on_sample self st s) = st_alerts st ++ warning_of self s.
Proof.
  unfold on_sample, warning_of, record_width, below_warning_limit.
  destruct (measure_width self (snd s)) as [w|].
  - destruct (Py.lt _ _); destruct (close_on_seam _ _ _ _);
      cbn [st_alerts]; [reflexivity | now rewrite app_nil_r].
  - destruct (close_on_seam _ _ _ _). cbn [st_alerts]. now rewrite app_nil_r.
Qed.

Lemma on_sample_segments (self : BeltAnalyzer) (st : LoopState)
    (s : Z * ndarray) :
  (st_segments (on_sample self st s), st_current (on_sample self st s))
  = close_on_seam (detect_seam self (snd s) (st_prev_frame st)) (fst s)
      (st_segments st) (measured self st (snd s) (fst s)).
Proof.
  unfold on_sample, measured, record_width, append_width.
  destruct (measure_width self (snd s)) as [w|].
  - destruct (Py.lt _ _); destruct (close_on_seam _ _ _ _); reflexivity.
  - destruct (close_on_seam _ _ _ _); reflexivity.
Qed.

Lemma on_sample_prev (self : BeltAnalyzer) (st : LoopState) (s : Z * ndarray) :
  st_prev_frame (on_sample self st s) = Some (snd s).
Proof.
  unfold on_sample.
  destruct (record_width _ _ _ _ _), (close_on_seam _ _ _ _). reflexivity.
Qed.

Lemma fold_alerts (self : BeltAnalyzer) (samples : list (Z * ndarray))
    (st : LoopState) :
  st_alerts (fold_left (on_sample self) samples st)
  = st_alerts st ++ flat_map (warning_of self) samples.
Proof.
  revert st. induction samples as [|s samples IH]; intros st; simpl.
  - now rewrite app_nil_r.
  - now rewrite IH, on_sample_alerts, <- app_assoc.
Qed.

Lemma snoc_not_self {A} (l : list A) (a : A) : l <> l ++ [a].
Proof.
  intros H. apply (f_equal (@length A)) in H.
  rewrite length_app in H. simpl in H. lia.
Qed.

(** C5, amended. At a sampled frame one alert is appended exactly when the
    measurement is present and strictly below the float product
    [min_width_threshold * 1.1] as the code computes it, and nothing is
    appended otherwise, in particular for an absent measurement; the alert
    has the type ["width_warning"], the number of the frame, the message
    with the width to two decimals and the severity ["warning"]; a present
    measurement is appended to the widths of the open segment whether or
    not it warns; a width of 105 under a minimum of 100 appends exactly one
    warning for that frame; and the alerts of a whole run are the warnings
    of its sampled frames, in order. *)
Theorem width_warning_iff (self : BeltAnalyzer) (st : LoopState)
    (frame : ndarray) (frame_count : Z) :
  let roi_frame := roi_frame_of self frame in
  let st' := process_frame self st frame frame_count in
  let limit := Py.mul (min_width_threshold self) (Py.Float Py.f1_1) in
  let warning (F w : Z) :=
    {| alert_type := "width_warning";
       alert_frame := Some F;
       alert_message := "Belt width below threshold: " ++ Py.format_2f w ++ "px";
       alert_severity := "warning" |} in
  ((exists a, st_alerts st' = st_alerts st ++ [a])
   <-> exists w, measure_width self roi_frame = Some w
                 /\ Py.lt (Py.Int w) limit = true)
  /\ (forall w, measure_width self roi_frame = Some w ->
                Py.lt (Py.Int w) limit = true ->
                st_alerts st' = st_alerts st ++ [warning frame_count w])
  /\ (forall w, measure_width self roi_frame = Some w ->
                Py.lt (Py.Int w) limit = false ->
                st_alerts st' = st_alerts st)
  /\ (measure_width self roi_frame = None ->
      st_alerts st' = st_alerts st /\ measured self st roi_frame frame_count = st_current st)
  /\ (forall w, measure_width self roi_frame = Some w ->
        widths (measured self st roi_frame frame_count)
        = widths (st_current st) ++ [Py.Int w]
        /\ (st_segments st', st_current st')
           = close_on_seam (detect_seam self roi_frame (st_prev_frame st))
               frame_count (st_segments st)
               (measured self st roi_frame frame_count))
  /\ (min_width_threshold self = Py.Int 100
      \/ min_width_threshold self = Py.Float (Py.float_of_Z 100) ->
      measure_width self roi_frame = Some 105 ->
      st_alerts st'
      = st_alerts st
        ++ [ {| alert_type := "width_warning";
                alert_frame := Some frame_count;
                alert_message := "Belt width below threshold: 105.00px";
                alert_severity := "warning" |} ])
  /\ forall (now video_path : string) (cap : Capture ndarray) (sample_rate : Z),
      sample_rate <> 0 ->
      VideoCapture video_path = Some cap ->
      exists r,
        analyze_video self now video_path sample_rate = Ok r
        /\ alerts r
           = flat_map (fun s =>
                         match measure_width self (snd s) with
                         | Some w => if Py.lt (Py.Int w) limit
                                     then [warning (fst s) w] else []
                         | None => []
                         end)
               (sampled self sample_rate 0 (decoded (cap_reads cap))).
Proof.
  intros roi_frame st' limit warning.
  assert (Ha : st_alerts st' = st_alerts st ++ warning_of self (frame_count, roi_frame)).
  { unfold st'. rewrite process_frame_on_sample. apply on_sample_alerts. }
  assert (Hs : (st_segments st', st_current st')
               = close_on_seam (detect_seam self roi_frame (st_prev_frame st))
                   frame_count (st_segments st)
                   (measured self st roi_frame frame_count)).
  { unfold st'. rewrite process_frame_on_sample. apply on_sample_segments. }
  unfold warning_of, below_warning_limit in Ha. cbn [fst snd] in Ha. fold limit in Ha.
  assert (Hyes : forall w, measure_width self roi_frame = Some w ->
                   Py.lt (Py.Int w) limit = true ->
                   st_alerts st' = st_alerts st ++ [warning frame_count w]).
  { intros w Hw Hlt. now rewrite Ha, Hw, Hlt. }
  assert (Hno : forall w, measure_width self roi_frame = Some w ->
                   Py.lt (Py.Int w) limit = false ->
                   st_alerts st' = st_alerts st).
  { intros w Hw Hlt. now rewrite Ha, Hw, Hlt, app_nil_r. }
  assert (Hnone : measure_width self roi_frame = None ->
                   st_alerts st' = st_alerts st).
  { intros Hw. now rewrite Ha, Hw, app_nil_r. }
  refine (conj _ (conj Hyes (conj Hno (conj _ (conj _ (conj _ _)))))).
  - split.
    + intros [a Hadd].
      destruct (measure_width self roi_frame) as [w|] eqn:Hw.
      * exists w. split; [reflexivity|].
        destruct (Py.lt (Py.Int w) limit) eqn:Hlt; [reflexivity|].
        rewrite Ha, app_nil_r in Hadd. now apply snoc_not_self in Hadd.
      * rewrite Ha, app_nil_r in Hadd. now apply snoc_not_self in Hadd.
    + intros (w & Hw & Hlt). eexists. apply (Hyes w Hw Hlt).
  - intros Hw. split; [now apply Hnone|]. unfold measured. now rewrite Hw.
  - intros w Hw. split; [|exact Hs]. unfold measured. now rewrite Hw.
  - intros Hmin Hw.
    assert (Hlt : Py.lt (Py.Int 105) limit = true).
    { unfold limit. destruct Hmin as [-> | ->]; vm_compute; reflexivity. }
    rewrite (Hyes 105 Hw Hlt). reflexivity.
  - intros now video_path cap sample_rate Hrate Hcap.
    unfold analyze_video. rewrite Hcap, (analyze_capture_fold _ _ _ _ _ Hrate).
    eexists. split; [reflexivity|].
    unfold finish. cbn [alerts]. now rewrite fold_alerts.
Qed.

Lemma last_frame (valid : list (Z * Z)) (v d : Z * Z) :
  fst (last (v :: valid) d) = fst (last valid (fst v, 0)).
Proof.
  revert v d. induction valid as [|a valid IH]; intros v d; [reflexivity|].
  change (last (v :: a :: valid) d) with (last (a :: valid) d).
  now rewrite (IH a d), (IH a (fst v, 0)).
Qed.

(** Appending a run of valid measurements to a segment. *)
Lemma append_widths_shape (valid : list (Z * Z)) (current : SegmentMeasurement) :
  fold_left (fun seg v => append_width seg (fst v) (snd v)) valid current
  = {| segment_id := segment_id current;
       frame_start := frame_start current;
       frame_end := fst (last valid (frame_end current, 0));
       widths := widths current ++ map (fun v => Py.Int (snd v)) valid |}.
Proof.
  revert current. induction valid as [|v valid IH]; intros current.
  - simpl. rewrite app_nil_r. now destruct current.
  - cbn [fold_left]. rewrite IH. unfold append_width at 1 2 3 4.
    cbn [segment_id frame_start frame_end widths map].
    rewrite <- app_assoc. f_equal. symmetry. apply last_frame.
Qed.

(** Without a seam the loop only ever extends the open segment. *)
Lemma fold_no_seam (self : BeltAnalyzer) (samples : list (Z * ndarray))
    (st : LoopState) :
  Forall (eq false) (seam_signals self (st_prev_frame st) samples) ->
  st_segments (fold_left (on_sample self) samples st) = st_segments st
  /\ st_current (fold_left (on_sample self) samples st)
     = fold_left (fun seg v => append_width seg (fst v) (snd v))
         (valid_measurements self samples) (st_current st).
Proof.
  revert st. induction samples as [|[i f] samples IH]; intros st H.
  - split; reflexivity.
  - cbn [seam_signals] in H. inversion H as [|b bs Hseam Hrest]; subst.
    cbn [fold_left]. 
    pose proof (on_sample_segments self st (i, f)) as Hs.
    cbn [fst snd] in Hs. rewrite <- Hseam in Hs. cbn [close_on_seam] in Hs.
    injection Hs as Hsegs Hcur.
    destruct (IH (on_sample self st (i, f))) as [IHs IHc].
    { now rewrite on_sample_prev. }
    rewrite IHs, IHc, Hsegs, Hcur. split; [reflexivity|].
    unfold valid_measurements, measured. cbn [flat_map fst snd].
    destruct (measure_width self f); reflexivity.
Qed.

(** C2, amended. In a run where no sampled frame shows a seam and at least
    one measurement is valid, the result has exactly one segment: its id is
    1, it starts at frame 0, it ends at the last sampled frame that gave a
    valid measurement, and its widths are the valid measurements in
    sampling order. *)
Theorem no_seam_single_segment (self : BeltAnalyzer) (now video_path : string)
    (sample_rate : Z) (cap : Capture ndarray) :
  sample_rate <> 0 ->
  VideoCapture video_path = Some cap ->
  let samples := sampled self sample_rate 0 (decoded (cap_reads cap)) in
  let valid := valid_measurements self samples in
  Forall (eq false) (seam_signals self None samples) ->
  valid <> [] ->
  exists r,
    analyze_video self now video_path sample_rate = Ok r
    /\ segments r
       = [ {| segment_id := 1;
              frame_start := 0;
              frame_end := fst (last valid (0, 0));
              widths := map (fun v => Py.Int (snd v)) valid |} ].
Proof.
  intros Hrate Hcap samples valid Hseam Hvalid.
  unfold analyze_video. rewrite Hcap, (analyze_capture_fold _ _ _ _ _ Hrate).
  eexists. split; [reflexivity|].
  rewrite finish_segments. fold samples.
  destruct (fold_no_seam self samples initial_state Hseam) as [-> ->].
  fold valid. rewrite append_widths_shape.
  cbn [initial_state st_segments st_current new_segment segment_id
       frame_start frame_end widths app].
  destruct valid as [|v valid']; [contradiction|]. reflexivity.
Qed.

(** The loop over a run of decodable frames can be cut anywhere. *)
Lemma video_loop_app (self : BeltAnalyzer) (sample_rate : Z)
    (pre post : list ndarray) (st : LoopState) :
  video_loop self sample_rate (map Some (pre ++ post)) st
  = match video_loop self sample_rate (map Some pre) st with
    | Ok st1 => video_loop self sample_rate (map Some post) st1
    | Raise e => Raise e
    end.
Proof.
  revert st. induction pre as [|frame pre IH]; intros st; [reflexivity|].
  cbn [app map video_loop].
  destruct (sample_rate =? 0); [reflexivity|].
  destruct (negb _); apply IH.
Qed.

Lemma process_frame_segments_grow (self : BeltAnalyzer) (st : LoopState)
    (frame : ndarray) (frame_count : Z) :
  exists tail,
    st_segments (process_frame self st frame frame_count) = st_segments st ++ tail.
Proof.
  pose proof (on_sample_segments self st (frame_count, roi_frame_of self frame)) as Hs.
  rewrite <- process_frame_on_sample in Hs. unfold close_on_seam in Hs.
  destruct (detect_seam _ _ _).
  - destruct (nonempty _); injection Hs as -> _;
      [eexists; reflexivity | exists []; now rewrite app_nil_r].
  - injection Hs as -> _. exists []. now rewrite app_nil_r.
Qed.

(** Segments are only ever appended. *)
Lemma video_loop_segments_grow (self : BeltAnalyzer) (sample_rate : Z)
    (reads : list (option ndarray)) (st st' : LoopState) :
  video_loop self sample_rate reads st = Ok st' ->
  exists tail, st_segments st' = st_segments st ++ tail.
Proof.
  revert st. induction reads as [|[frame|] reads IH]; intros st; cbn [video_loop].
  - intros [= <-]. exists []. now rewrite app_nil_r.
  - destruct (sample_rate =? 0); [discriminate|].
    destruct (negb _).
    + intros H. apply IH in H. exact H.
    + intros H. apply IH in H. destruct H as [tail ->].
      destruct (process_frame_segments_grow self st frame (st_frame_count st + 1))
        as [tail' ->].
      exists (tail' ++ tail). now rewrite app_assoc.
  - intros [= <-]. exists []. now rewrite app_nil_r.
Qed.

(** C3. When the sampled frame numbered F shows a seam, the segment that
    was open, with the measurement of F itself appended if there is one, is
    closed: it is appended to the segment list exactly when its widths are
    not empty; the new open segment has for id one more than the number of
    segments appended so far, starts and ends at F and has no widths; and
    the segments appended so far stay at the front of the result. *)
Theorem seam_closes_segment (self : BeltAnalyzer) (now video_path : string)
    (sample_rate : Z) (cap : Capture ndarray)
    (pre post : list ndarray) (frame : ndarray) (st : LoopState) :
  sample_rate <> 0 ->
  decoded (cap_reads cap) = pre ++ frame :: post ->
  video_loop self sample_rate (map Some pre) initial_state = Ok st ->
  let F := Z.of_nat (length pre) + 1 in
  F mod sample_rate = 0 ->
  let roi_frame := roi_frame_of self frame in
  detect_seam self roi_frame (st_prev_frame st) = true ->
  let closed := measured self st roi_frame F in
  let appended := if nonempty (widths closed) then st_segments st ++ [closed]
                  else st_segments st in
  (forall w, measure_width self roi_frame = Some w ->
             widths closed = widths (st_current st) ++ [Py.Int w]
             /\ appended = st_segments st ++ [closed])
  /\ (measure_width self roi_frame = None -> closed = st_current st)
  /\ exists st',
      video_loop self sample_rate (map Some (pre ++ [frame])) initial_state = Ok st'
      /\ st_segments st' = appended
      /\ st_current st'
         = {| segment_id := Z.of_nat (length appended) + 1;
              frame_start := F; frame_end := F; widths := [] |}
      /\ exists r tail,
          analyze_capture self now video_path cap sample_rate = Ok r
          /\ segments r = appended ++ tail.
Proof.
  intros Hrate Hdec Hpre F HF roi_frame Hseam closed appended.
  assert (Hcount : st_frame_count st + 1 = F).
  { destruct (video_loop_fold self sample_rate pre initial_state Hrate)
      as (st0 & Hrun & Hc & _).
    rewrite Hpre in Hrun. injection Hrun as <-. rewrite Hc. reflexivity. }
  split; [|split].
  - intros w Hw. unfold appended, closed, measured. rewrite Hw.
    cbn [append_width widths]. split; [reflexivity|].
    now destruct (widths (st_current st)).
  - intros Hw. unfold closed, measured. now rewrite Hw.
  - exists (process_frame self st frame F).
    assert (Hstep : video_loop self sample_rate (map Some (pre ++ [frame]))
                      initial_state = Ok (process_frame self st frame F)).
    { rewrite video_loop_app, Hpre. cbn [map video_loop].
      apply Z.eqb_neq in Hrate. rewrite Hrate, Hcount, HF. reflexivity. }
    pose proof (on_sample_segments self st (F, roi_frame)) as Hs.
    cbn [fst snd] in Hs. rewrite Hseam in Hs. cbn [close_on_seam] in Hs.
    fold closed in Hs. fold appended in Hs. injection Hs as Hsegs Hcur.
    split; [exact Hstep|]. split; [exact Hsegs|]. split; [exact Hcur|].
    unfold analyze_capture. rewrite video_loop_decoded, Hdec.
    change (pre ++ frame :: post) with (pre ++ [frame] ++ post).
    rewrite app_assoc, video_loop_app, Hstep.
    destruct (video_loop_fold self sample_rate post
                (process_frame self st frame F) Hrate) as (st2 & Hrun & _ & _).
    rewrite Hrun.
    destruct (video_loop_segments_grow _ _ _ _ _ Hrun) as [tail Htail].
    eexists. eexists. split; [reflexivity|].
    rewrite finish_segments, Htail.
    change (st_segments (process_frame self st frame F)) with
      (st_segments (on_sample self st (F, roi_frame))).
    rewrite Hsegs, <- app_assoc. reflexivity.
Qed.

(** ** Failures *)

Lemma decoded_app (pre : list ndarray) (reads : list (option ndarray)) :
  decoded (map Some pre ++ reads) = pre ++ decoded reads.
Proof.
  induction pre as [|f pre IH]; [reflexivity|]. simpl. now rewrite IH.
Qed.

(** ** The calibration factor *)

Lemma video_loop_calibration (a b c cal1 cal2 : Py.num)
    (r : option (Z * Z * Z * Z)) (sample_rate : Z)
    (reads : list (option ndarray)) (st : LoopState) :
  video_loop {| min_width_threshold := a; max_width_threshold := b;
                seam_detection_threshold := c; calibration := cal1;
                roi := r |} sample_rate reads st
  = video_loop {| min_width_threshold := a; max_width_threshold := b;
                  seam_detection_threshold := c; calibration := cal2;
                  roi := r |} sample_rate reads st.
Proof.
  revert st. induction reads as [|[frame|] reads IH]; intros st;
    cbn [video_loop]; try reflexivity.
  destruct (sample_rate =? 0); [reflexivity|].
  destruct (negb _); [apply IH|].
  rewrite <- IH. reflexivity.
Qed.

(** C9. Two runs on the same source whose configurations differ only in
    the calibration factor (and whose clocks may differ) either both raise
    the same exception or return results with the same segments and the
    same alerts, in video mode and in image mode. *)
Theorem calibration_unused (a b c cal1 cal2 : Py.num)
    (r : option (Z * Z * Z * Z)) (now1 now2 path : string) (sample_rate : Z) :
  let self1 := {| min_width_threshold := a; max_width_threshold := b;
                  seam_detection_threshold := c; calibration := cal1;
                  roi := r |} in
  let self2 := {| min_width_threshold := a; max_width_threshold := b;
                  seam_detection_threshold := c; calibration := cal2;
                  roi := r |} in
  let same (x y : result AnalysisResult) :=
    match x, y with
    | Ok r1, Ok r2 => segments r1 = segments r2 /\ alerts r1 = alerts r2
                      /\ total_frames r1 = total_frames r2 /\ fps r1 = fps r2
    | Raise e1, Raise e2 => e1 = e2
    | _, _ => False
    end in
  same (analyze_video self1 now1 path sample_rate)
       (analyze_video self2 now2 path sample_rate)
  /\ same (analyze_image self1 now1 path) (analyze_image self2 now2 path).
Proof.
  intros self1 self2 same. split.
  - unfold analyze_video. destruct (VideoCapture path) as [cap|]; [|reflexivity].
    unfold analyze_capture, self1, self2.
    rewrite (video_loop_calibration a b c cal1 cal2).
    destruct (video_loop _ _ _ _); [|reflexivity].
    cbn. repeat split.
  - unfold analyze_image. destruct (imread path) as [frame|]; [|reflexivity].
    cbn. repeat split.
Qed.

(** ** Image mode *)

(** What [analyze_image] returns for a decodable image: one segment for a
    non-zero width, none otherwise, and at most one alert. *)
Lemma analyze_image_spec (self : BeltAnalyzer) (now path : string)
    (frame : ndarray) :
  imread path = Some frame ->
  exists r,
    analyze_image self now path = Ok r
    /\ segments r
       = match measure_width self frame with
         | Some w => if w =? 0 then []
                     else [ {| segment_id := 1; frame_start := 0;
                               frame_end := 0; widths := [Py.Int w] |} ]
         | None => []
         end
    /\ (length (alerts r) <= 1)%nat
    /\ (measure_width self frame = None -> alerts r = []).
Proof.
  intros Him. unfold analyze_image. rewrite Him. eexists.
  split; [reflexivity|]. cbn [segments alerts widths].
  destruct (measure_width self frame) as [w|]; cbn [Py.truthy].
  - destruct (w =? 0); cbn [negb andb nonempty];
      (split; [reflexivity|]); (split; [|discriminate]).
    + simpl. lia.
    + destruct (Py.lt _ _); simpl; lia.
  - split; [reflexivity|]. split; [simpl; lia | reflexivity].
Qed.

(** With the default minimum of 100.0 a frame whose edges are 90 apart
    gives no segment and no alert. *)
Lemma analyze_image_width_90 (self : BeltAnalyzer) (now path : string)
    (frame : ndarray) (l r : Z) :
  imread path = Some frame ->
  min_width_threshold self = Py.Float (Py.float_of_Z 100) ->
  detect_belt_edges (preprocess_frame self frame) = (Some l, Some r) ->
  Z.abs (r - l) = 90 ->
  exists res,
    analyze_image self now path = Ok res
    /\ segments res = [] /\ alerts res = [].
Proof.
  intros Him Hmin Hedges Hw.
  assert (Hnone : measure_width self frame = None).
  { unfold measure_width. rewrite Hedges. unfold width_validator.
    rewrite Hw, Hmin. reflexivity. }
  destruct (analyze_image_spec self now path frame Him)
    as (res & Hres & Hsegs & _ & Hal).
  exists res. rewrite Hnone in Hsegs. auto.
Qed.

End Assembler.

(** ** The exceptions of the library calls *)

Section Failures.

Context {opencv : OpenCV} {faults : Faults}.

(** The loop body raises what the library raises on the frame, and else
    returns what the body above returns. *)
Lemma raising_process_frame (self : BeltAnalyzer) (st : LoopState)
    (frame : ndarray) (frame_count : Z) :
  Raising.process_frame self st frame frame_count
  = match frame_fault self (roi_frame_of self frame) (st_prev_frame st) with
    | Some e => Raise e
    | None => Ok (process_frame self st frame frame_count)
    end.
Proof.
  unfold Raising.process_frame, Raising.measure_width, Raising.preprocess_frame,
    Raising.detect_seam, frame_fault, process_frame, measure_width,
    preprocess_frame, detect_seam.
  fold (roi_frame_of self frame).
  fold (roi_frame_of self (roi_frame_of self frame)).
  destruct (binarize_fault _); [reflexivity|].
  destruct (record_width _ _ _ _ _) as [current alerts].
  destruct (st_prev_frame st) as [prev|].
  - destruct (seam_fault _ _); [reflexivity|].
    now destruct (close_on_seam _ _ _ _).
  - now destruct (close_on_seam _ _ _ _).
Qed.

Lemma raising_video_loop (self : BeltAnalyzer) (sample_rate : Z)
    (reads : list (option ndarray)) (st : LoopState) :
  sample_rate <> 0 ->
  Raising.video_loop self sample_rate reads st
  = match first_fault self (st_prev_frame st)
            (sampled self sample_rate (st_frame_count st) (decoded reads)) with
    | Some e => Raise e
    | None => video_loop self sample_rate reads st
    end.
Proof.
  intros Hrate. apply Z.eqb_neq in Hrate.
  revert st. induction reads as [|[frame|] reads IH]; intros st;
    cbn [Raising.video_loop video_loop decoded sampled first_fault];
    try reflexivity.
  rewrite Hrate.
  destruct ((st_frame_count st + 1) mod sample_rate =? 0) eqn:Hs; cbn [negb].
  - cbn [first_fault]. rewrite raising_process_frame.
    destruct (frame_fault _ _ _); [reflexivity|].
    rewrite IH. rewrite process_frame_on_sample, on_sample_prev. cbn [snd].
    replace (st_frame_count (on_sample self st
               (st_frame_count st + 1, roi_frame_of self frame)))
      with (st_frame_count st + 1); [reflexivity|].
    unfold on_sample.
    destruct (record_width _ _ _ _ _), (close_on_seam _ _ _ _). reflexivity.
  - now rewrite IH.
Qed.

Lemma raising_zero_rate (self : BeltAnalyzer) (reads : list (option ndarray))
    (st : LoopState) :
  Raising.video_loop self 0 reads st = video_loop self 0 reads st.
Proof. now destruct reads as [|[frame|] reads]. Qed.

Lemma raising_analyze_capture (self : BeltAnalyzer) (now video_path : string)
    (cap : Capture ndarray) (sample_rate : Z) :
  sample_rate <> 0 ->
  Raising.analyze_capture self now video_path cap sample_rate
  = match first_fault self None
            (sampled self sample_rate 0 (decoded (cap_reads cap))) with
    | Some e => Raise e
    | None => analyze_capture self now video_path cap sample_rate
    end.
Proof.
  intros Hrate. unfold Raising.analyze_capture, analyze_capture.
  rewrite (raising_video_loop _ _ _ _ Hrate). cbn [initial_state st_prev_frame
    st_frame_count]. now destruct (first_fault _ _ _).
Qed.

Lemma raising_analyze_image (self : BeltAnalyzer) (now image_path : string) :
  Raising.analyze_image self now image_path
  = match imread image_path with
    | None => Raise (ValueError ("Cannot read image: " ++ image_path))
    | Some frame =>
        match binarize_fault (roi_frame_of self frame) with
        | Some e => Raise e
        | None => analyze_image self now image_path
        end
    end.
Proof.
  unfold Raising.analyze_image, analyze_image, Raising.measure_width,
    Raising.preprocess_frame, measure_width, preprocess_frame.
  destruct (imread image_path) as [frame|]; [|reflexivity].
  fold (roi_frame_of self frame). now destruct (binarize_fault _).
Qed.

(** What the runs that return have returned is what the analyzer above
    returns: its properties are theirs. *)
Lemma raising_returns (self : BeltAnalyzer) (now path : string)
    (sample_rate : Z) (r : AnalysisResult) :
  (Raising.analyze_video self now path sample_rate = Ok r ->
   analyze_video self now path sample_rate = Ok r)
  /\ (Raising.analyze_image self now path = Ok r ->
      analyze_image self now path = Ok r).
Proof.
  split.
  - unfold Raising.analyze_video, analyze_video.
    destruct (VideoCapture path) as [cap|]; [|discriminate].
    destruct (Z.eq_dec sample_rate 0) as [-> | Hrate].
    + unfold Raising.analyze_capture, analyze_capture.
      now rewrite raising_zero_rate.
    + rewrite (raising_analyze_capture _ _ _ _ _ Hrate).
      now destruct (first_fault _ _ _).
  - rewrite raising_analyze_image.
    destruct (imread path) as [frame|] eqn:Hframe; [|discriminate].
    destruct (binarize_fault _); [discriminate | trivial].
Qed.


End Failures.

(** ** What holds of a result *)

Section Results.

Context {opencv : OpenCV}.

Lemma ranges_ordered_snoc (l : list SegmentMeasurement) (s : SegmentMeasurement)
    (lo hi : Z) :
  ranges_ordered lo (l ++ [s]) hi
  <-> ranges_ordered lo l (frame_start s)
      /\ frame_start s <= frame_end s /\ frame_end s <= hi.
Proof.
  revert lo. induction l as [|a l IH]; intros lo; simpl.
  - tauto.
  - rewrite IH. tauto.
Qed.

Lemma ranges_ordered_weaken (l : list SegmentMeasurement) (lo hi hi' : Z) :
  hi <= hi' -> ranges_ordered lo l hi -> ranges_ordered lo l hi'.
Proof.
  intros Hh. revert lo. induction l as [|a l IH]; intros lo; simpl.
  - lia.
  - intros (H1 & H2 & H3). auto.
Qed.

Lemma measure_width_accepted (self : BeltAnalyzer) (frame : ndarray) (w : Z) :
  measure_width self frame = Some w -> accepted self (Py.Int w).
Proof.
  unfold measure_width, width_validator.
  destruct (detect_belt_edges _) as [[l|] [r|]]; try discriminate.
  destruct (Py.lt _ _) eqn:Hlt; [discriminate|].
  destruct (Py.gt _ _) eqn:Hgt; [discriminate|].
  intros [= <-]. exists (Z.abs (r - l)). repeat split; trivial. lia.
Qed.

Lemma seq_snoc_ids (n : nat) :
  map Z.of_nat (seq 1 (S n)) = map Z.of_nat (seq 1 n) ++ [Z.of_nat n + 1].
Proof.
  rewrite seq_S, map_app. simpl. f_equal. f_equal. lia.
Qed.

Lemma on_sample_well_formed (self : BeltAnalyzer) (st : LoopState)
    (t i : Z) (f : ndarray) :
  t <= i -> well_formed self t st -> well_formed self i (on_sample self st (i, f)).
Proof.
  intros Hti [Hne Hids Hcur Hr Hacc].
  pose proof (on_sample_segments self st (i, f)) as Hs. cbn [fst snd] in Hs.
  set (m := measured self st f i) in Hs.
  assert (Hm_id : segment_id m = segment_id (st_current st)).
  { unfold m, measured. now destruct (measure_width self f). }
  assert (Hm_r : ranges_ordered 0 (st_segments st ++ [m]) i).
  { apply ranges_ordered_snoc in Hr. destruct Hr as (H1 & H2 & H3).
    apply ranges_ordered_snoc. unfold m, measured.
    destruct (measure_width self f); cbn [append_width frame_start frame_end];
      repeat split; trivial; lia. }
  assert (Hm_acc : Forall (fun s => Forall (accepted self) (widths s))
                     (st_segments st ++ [m])).
  { apply Forall_app in Hacc. destruct Hacc as [Ha Hc]. apply Forall_app.
    split; [exact Ha|]. constructor; [|constructor].
    inversion Hc as [|? ? Hcw _]; subst. unfold m, measured.
    destruct (measure_width self f) as [w|] eqn:Hw; [|exact Hcw].
    cbn [append_width widths]. apply Forall_app. split; [exact Hcw|].
    constructor; [|constructor]. now apply (measure_width_accepted self f). }
  unfold close_on_seam in Hs.
  destruct (detect_seam self f (st_prev_frame st)).
  - destruct (nonempty (widths m)) eqn:Hnm; injection Hs as Hsegs Hcurr.
    + constructor; rewrite ?Hsegs, ?Hcurr.
      * apply Forall_app. split; [exact Hne|]. constructor; [|constructor].
        now destruct (widths m).
      * rewrite map_app, length_app, Hids. cbn [map length].
        rewrite Nat.add_1_r, seq_snoc_ids. now rewrite Hm_id, Hcur.
      * reflexivity.
      * apply ranges_ordered_snoc. cbn [new_segment frame_start frame_end].
        split; [|lia]. apply ranges_ordered_snoc in Hm_r.
        apply ranges_ordered_snoc. tauto.
      * apply Forall_app. split; [exact Hm_acc|].
        constructor; [constructor|constructor].
    + constructor; rewrite ?Hsegs, ?Hcurr; trivial.
      * apply ranges_ordered_snoc. cbn [new_segment frame_start frame_end].
        split; [|lia]. apply ranges_ordered_snoc in Hm_r.
        destruct Hm_r as (H1 & H2 & H3).
        apply (ranges_ordered_weaken _ _ (frame_start m)); [lia | exact H1].
      * apply Forall_app in Hm_acc. destruct Hm_acc as [Ha _].
        apply Forall_app. split; [exact Ha|].
        constructor; [constructor|constructor].
  - injection Hs as Hsegs Hcurr.
    constructor; rewrite ?Hsegs, ?Hcurr; trivial. now rewrite Hm_id.
Qed.

Lemma last_cons {A} (l : list A) (a d : A) : last (a :: l) d = last l a.
Proof.
  revert a d. induction l as [|b l IH]; intros a d; [reflexivity|].
  change (last (a :: b :: l) d) with (last (b :: l) d).
  now rewrite (IH b d), (IH b a).
Qed.

Lemma fold_well_formed (self : BeltAnalyzer) (samples : list (Z * ndarray))
    (st : LoopState) (t : Z) :
  ascending t (map fst samples) -> well_formed self t st ->
  well_formed self (last (map fst samples) t)
    (fold_left (on_sample self) samples st).
Proof.
  revert st t. induction samples as [|[i f] samples IH]; intros st t Hasc Hwf.
  - exact Hwf.
  - cbn [map fst ascending] in Hasc. destruct Hasc as [Hlt Hasc].
    cbn [fold_left map fst]. rewrite last_cons.
    apply IH; [exact Hasc|]. apply (on_sample_well_formed self st t); [lia|exact Hwf].
Qed.

Lemma sampled_ascending (self : BeltAnalyzer) (sample_rate : Z)
    (frames : list ndarray) (fc : Z) :
  ascending fc (map fst (sampled self sample_rate fc frames))
  /\ last (map fst (sampled self sample_rate fc frames)) fc
     <= fc + Z.of_nat (length frames).
Proof.
  revert fc. induction frames as [|f frames IH]; intros fc.
  - simpl. split; [exact I|lia].
  - cbn [sampled]. destruct (IH (fc + 1)) as [Ha Hl].
    rewrite length_cons.
    destruct ((fc + 1) mod sample_rate =? 0).
    + cbn [map fst ascending]. split; [split; [lia|exact Ha]|].
      rewrite last_cons. lia.
    + revert Ha Hl.
      generalize (map fst (sampled self sample_rate (fc + 1) frames)).
      intros l. destruct l as [|z l]; [simpl; split; [trivial|lia]|].
      rewrite !last_cons. cbn [ascending]. intros [H1 H2] Hl.
      split; [split; [lia|trivial]|lia].
Qed.

Lemma initial_well_formed (self : BeltAnalyzer) :
  well_formed self 0 initial_state.
Proof.
  constructor; cbn; try reflexivity; try constructor; try lia; constructor.
Qed.

(** Whatever [analyze_video] returns on an open capture is the fold over
    the sampled frames, finished; with a sample rate of 0 it only returns
    when no frame could be read. *)
Lemma analyze_capture_ok (self : BeltAnalyzer) (now video_path : string)
    (cap : Capture ndarray) (sample_rate : Z) (r : AnalysisResult) :
  analyze_capture self now video_path cap sample_rate = Ok r ->
  r = finish now video_path cap
        (fold_left (on_sample self)
           (sampled self sample_rate 0 (decoded (cap_reads cap)))
           initial_state).
Proof.
  destruct (Z.eq_dec sample_rate 0) as [-> | Hrate].
  - unfold analyze_capture. rewrite video_loop_decoded.
    destruct (decoded (cap_reads cap)) as [|f fs]; cbn; [|discriminate].
    now intros [= <-].
  - rewrite (analyze_capture_fold _ _ _ _ _ Hrate). now intros [= <-].
Qed.

Lemma analyze_capture_well_formed (self : BeltAnalyzer) (now video_path : string)
    (cap : Capture ndarray) (sample_rate : Z) (r : AnalysisResult) :
  analyze_capture self now video_path cap sample_rate = Ok r ->
  exists st t,
    r = finish now video_path cap st
    /\ well_formed self t st
    /\ t <= Z.of_nat (length (decoded (cap_reads cap))).
Proof.
  intros H. apply analyze_capture_ok in H.
  destruct (sampled_ascending self sample_rate (decoded (cap_reads cap)) 0)
    as [Hasc Hlast].
  eexists. eexists. split; [exact H|]. split.
  - apply fold_well_formed; [exact Hasc | apply initial_well_formed].
  - exact Hlast.
Qed.

Lemma analyze_video_capture (self : BeltAnalyzer) (now video_path : string)
    (sample_rate : Z) (r : AnalysisResult) :
  analyze_video self now video_path sample_rate = Ok r ->
  exists cap, VideoCapture video_path = Some cap
              /\ analyze_capture self now video_path cap sample_rate = Ok r.
Proof.
  unfold analyze_video. destruct (VideoCapture video_path) as [cap|]; [|discriminate].
  intros H. now exists cap.
Qed.

Lemma analyze_image_segments (self : BeltAnalyzer) (now path : string)
    (r : AnalysisResult) :
  analyze_image self now path = Ok r ->
  exists frame, imread path = Some frame
    /\ segments r
       = match measure_width self frame with
         | Some w => if w =? 0 then []
                     else [ {| segment_id := 1; frame_start := 0;
                               frame_end := 0; widths := [Py.Int w] |} ]
         | None => []
         end.
Proof.
  unfold analyze_image. destruct (imread path) as [frame|]; [|discriminate].
  intros [= <-]. exists frame. split; [reflexivity|]. cbn [segments widths].
  destruct (measure_width self frame) as [w|]; [|reflexivity].
  cbn [Py.truthy]. now destruct (w =? 0).
Qed.

(** X1: no segment of a result, of a video or of an image, is empty. *)
Theorem no_empty_segment (self : BeltAnalyzer) (now path : string)
    (sample_rate : Z) (r : AnalysisResult) :
  analyze_video self now path sample_rate = Ok r
  \/ analyze_image self now path = Ok r ->
  Forall (fun s => widths s <> []) (segments r).
Proof.
  intros [H | H].
  - apply analyze_video_capture in H. destruct H as (cap & _ & H).
    apply analyze_capture_well_formed in H.
    destruct H as (st & t & -> & Hwf & _). rewrite finish_segments.
    apply Forall_app. split; [apply (wf_nonempty _ _ _ Hwf)|].
    destruct (widths (st_current st)) eqn:E; cbn [nonempty]; constructor;
      [congruence | constructor].
  - apply analyze_image_segments in H. destruct H as (frame & _ & ->).
    destruct (measure_width self frame) as [w|]; [|constructor].
    destruct (w =? 0); constructor; [discriminate | constructor].
Qed.

(** X2: the segments of a video result are numbered 1, 2, ..., in
    order, with no gap. *)
Theorem segment_ids_sequential (self : BeltAnalyzer) (now path : string)
    (sample_rate : Z) (r : AnalysisResult) :
  analyze_video self now path sample_rate = Ok r ->
  map segment_id (segments r)
  = map Z.of_nat (seq 1 (length (segments r))).
Proof.
  intros H. apply analyze_video_capture in H. destruct H as (cap & _ & H).
  apply analyze_capture_well_formed in H.
  destruct H as (st & t & -> & Hwf & _). rewrite finish_segments.
  destruct (nonempty (widths (st_current st))).
  - rewrite map_app, length_app. cbn [map length].
    rewrite Nat.add_1_r, seq_snoc_ids.
    now rewrite (wf_ids _ _ _ Hwf), (wf_current_id _ _ _ Hwf).
  - rewrite app_nil_r. apply (wf_ids _ _ _ Hwf).
Qed.

(** X3: the frame ranges of the segments of a video result are in
    order: each starts at frame 0 or later and no earlier than the one
    before it ends, ends no earlier than it starts, and the last one ends
    within the frames read. *)
Theorem segment_ranges_ordered (self : BeltAnalyzer) (now path : string)
    (sample_rate : Z) (r : AnalysisResult) :
  analyze_video self now path sample_rate = Ok r ->
  exists cap,
    VideoCapture path = Some cap
    /\ ranges_ordered 0 (segments r)
         (Z.of_nat (length (decoded (cap_reads cap)))).
Proof.
  intros H. apply analyze_video_capture in H. destruct H as (cap & Hcap & H).
  exists cap. split; [exact Hcap|].
  apply analyze_capture_well_formed in H.
  destruct H as (st & t & -> & Hwf & Ht). rewrite finish_segments.
  pose proof (wf_ranges _ _ _ Hwf) as Hr.
  destruct (nonempty (widths (st_current st))).
  - apply (ranges_ordered_weaken _ _ t); assumption.
  - rewrite app_nil_r. apply ranges_ordered_snoc in Hr.
    destruct Hr as (H1 & H2 & H3).
    apply (ranges_ordered_weaken _ _ (frame_start (st_current st))); [lia|exact H1].
Qed.

(** ** Minimum and maximum of accepted widths *)

Lemma lt_ints (a b : Z) : Py.lt (Py.Int a) (Py.Int b) = (a <? b).
Proof. unfold Py.lt, Z.ltb. cbn. now destruct (a ?= b). Qed.

Lemma gt_ints (a b : Z) : Py.gt (Py.Int a) (Py.Int b) = (b <? a).
Proof.
  unfold Py.gt, Z.ltb. cbn. rewrite (Z.compare_antisym a b).
  now destruct (a ?= b).
Qed.

Lemma min_of_accepted (self : BeltAnalyzer) (l : list Py.num) (x : Py.num) :
  accepted self x -> Forall (accepted self) l ->
  exists m, Py.min_of x l = Py.Int m /\ accepted self (Py.Int m)
            /\ Forall (fun y => exists w, y = Py.Int w /\ m <= w) (x :: l).
Proof.
  unfold Py.min_of. revert x. induction l as [|y l IH]; intros x Hx Hl.
  - destruct Hx as (w & -> & Hw). exists w. split; [reflexivity|].
    split; [now exists w|]. constructor; [|constructor]. exists w. split; [reflexivity|lia].
  - inversion Hl as [|? ? Hy Hl']; subst. cbn [fold_left].
    pose proof Hx as (a & -> & Ha). pose proof Hy as (b & -> & Hb).
    rewrite lt_ints.
    destruct (b <? a) eqn:E.
    + apply Z.ltb_lt in E. destruct (IH _ Hy Hl') as (m & Hm & Hacc & Hall).
      exists m. split; [exact Hm|]. split; [exact Hacc|].
      inversion Hall as [|? ? (w & Hw & Hle) Hrest]; subst.
      injection Hw as <-.
      constructor; [exists a; split; [reflexivity|lia]|].
      constructor; [exists b; split; [reflexivity|lia]|exact Hrest].
    + apply Z.ltb_ge in E. destruct (IH _ Hx Hl') as (m & Hm & Hacc & Hall).
      exists m. split; [exact Hm|]. split; [exact Hacc|].
      inversion Hall as [|? ? (w & Hw & Hle) Hrest]; subst.
      injection Hw as <-.
      constructor; [exists a; split; [reflexivity|lia]|].
      constructor; [exists b; split; [reflexivity|lia]|exact Hrest].
Qed.

Lemma max_of_accepted (self : BeltAnalyzer) (l : list Py.num) (x : Py.num) :
  accepted self x -> Forall (accepted self) l ->
  exists m, Py.max_of x l = Py.Int m /\ accepted self (Py.Int m)
            /\ Forall (fun y => exists w, y = Py.Int w /\ w <= m) (x :: l).
Proof.
  unfold Py.max_of. revert x. induction l as [|y l IH]; intros x Hx Hl.
  - destruct Hx as (w & -> & Hw). exists w. split; [reflexivity|].
    split; [now exists w|]. constructor; [|constructor]. exists w. split; [reflexivity|lia].
  - inversion Hl as [|? ? Hy Hl']; subst. cbn [fold_left].
    pose proof Hx as (a & -> & Ha). pose proof Hy as (b & -> & Hb).
    rewrite gt_ints.
    destruct (a <? b) eqn:E.
    + apply Z.ltb_lt in E. destruct (IH _ Hy Hl') as (m & Hm & Hacc & Hall).
      exists m. split; [exact Hm|]. split; [exact Hacc|].
      inversion Hall as [|? ? (w & Hw & Hle) Hrest]; subst.
      injection Hw as <-.
      constructor; [exists a; split; [reflexivity|lia]|].
      constructor; [exists b; split; [reflexivity|lia]|exact Hrest].
    + apply Z.ltb_ge in E. destruct (IH _ Hx Hl') as (m & Hm & Hacc & Hall).
      exists m. split; [exact Hm|]. split; [exact Hacc|].
      inversion Hall as [|? ? (w & Hw & Hle) Hrest]; subst.
      injection Hw as <-.
      constructor; [exists a; split; [reflexivity|lia]|].
      constructor; [exists b; split; [reflexivity|lia]|exact Hrest].
Qed.

Lemma accepted_reports_within (self : BeltAnalyzer) (seg : SegmentMeasurement) :
  widths seg <> [] -> Forall (accepted self) (widths seg) ->
  reports_within self seg.
Proof.
  unfold reports_within, min_width, max_width.
  destruct (widths seg) as [|x l]; [congruence|]. intros _ H.
  inversion H as [|? ? Hx Hl]; subst.
  destruct (min_of_accepted self l x Hx Hl) as (m & -> & (m' & Em & Hm0 & Hmlt & _) & Hmin).
  destruct (max_of_accepted self l x Hx Hl) as (M & -> & (M' & EM & _ & _ & HMgt) & Hmax).
  injection Em as <-. injection EM as <-.
  exists m, M. split; [reflexivity|]. split; [reflexivity|].
  assert (Hall : Forall (fun y => exists w, y = Py.Int w /\ m <= w <= M) (x :: l)).
  { rewrite Forall_forall in *. intros y Hy.
    destruct (Hmin y Hy) as (w & -> & H1). destruct (Hmax _ Hy) as (w' & E & H2).
    injection E as <-. exists w. split; [reflexivity|lia]. }
  split; [|auto].
  inversion Hall as [|? ? (w & _ & Hw) _]. lia.
Qed.

(** X4: every segment of a video result reports whole-number minimum
    and maximum widths, with 0 <= minimum <= maximum, neither below the
    minimum threshold nor above the maximum threshold, and every width of
    the segment lies between them. *)
Theorem reported_widths_within_thresholds (self : BeltAnalyzer)
    (now path : string) (sample_rate : Z) (r : AnalysisResult) :
  analyze_video self now path sample_rate = Ok r ->
  Forall (reports_within self) (segments r).
Proof.
  intros H. apply analyze_video_capture in H. destruct H as (cap & _ & H).
  apply analyze_capture_well_formed in H.
  destruct H as (st & t & -> & Hwf & _). rewrite finish_segments.
  pose proof (wf_accepted _ _ _ Hwf) as Hacc.
  pose proof (wf_nonempty _ _ _ Hwf) as Hne.
  apply Forall_app in Hacc. destruct Hacc as [Ha Hc].
  apply Forall_app. split.
  - rewrite Forall_forall in *. intros seg Hseg.
    apply accepted_reports_within; auto.
  - inversion Hc as [|? ? Hcw _]; subst.
    destruct (widths (st_current st)) eqn:E; cbn [nonempty]; constructor;
      [|constructor].
    apply accepted_reports_within; rewrite E; [discriminate | exact Hcw].
Qed.

(** ** No measurement is lost *)

Lemma on_sample_recorded (self : BeltAnalyzer) (st : LoopState)
    (s : Z * ndarray) :
  recorded (on_sample self st s)
  = recorded st ++ match measure_width self (snd s) with
                   | Some w => [Py.Int w]
                   | None => []
                   end.
Proof.
  unfold recorded.
  pose proof (on_sample_segments self st s) as Hs.
  assert (Hm : widths (measured self st (snd s) (fst s))
               = widths (st_current st)
                 ++ match measure_width self (snd s) with
                    | Some w => [Py.Int w]
                    | None => []
                    end).
  { unfold measured. destruct (measure_width self (snd s)); cbn;
      [reflexivity | now rewrite app_nil_r]. }
  unfold close_on_seam in Hs.
  destruct (detect_seam self (snd s) (st_prev_frame st)).
  - destruct (nonempty (widths (measured self st (snd s) (fst s)))) eqn:Hn;
      injection Hs as -> ->; cbn [new_segment widths]; rewrite app_nil_r.
    + rewrite map_app, concat_app. cbn [map concat]. rewrite app_nil_r, Hm.
      now rewrite app_assoc.
    + rewrite <- app_assoc, <- Hm.
      destruct (widths (measured self st (snd s) (fst s))); [|discriminate].
      now rewrite app_nil_r.
  - injection Hs as -> ->. now rewrite Hm, app_assoc.
Qed.

Lemma fold_recorded (self : BeltAnalyzer) (samples : list (Z * ndarray))
    (st : LoopState) :
  recorded (fold_left (on_sample self) samples st)
  = recorded st
    ++ map (fun v => Py.Int (snd v)) (valid_measurements self samples).
Proof.
  revert st. induction samples as [|s samples IH]; intros st.
  - cbn. now rewrite app_nil_r.
  - cbn [fold_left]. rewrite IH, on_sample_recorded, <- app_assoc. f_equal.
    unfold valid_measurements. cbn [flat_map]. rewrite map_app.
    f_equal. now destruct (measure_width self (snd s)).
Qed.

(** X5: no measurement is lost or invented: the widths of the
    segments of a video result, read in order, are the valid measurements
    of the sampled frames, in frame order. *)
Theorem widths_conserved (self : BeltAnalyzer) (now path : string)
    (sample_rate : Z) (r : AnalysisResult) :
  analyze_video self now path sample_rate = Ok r ->
  exists cap,
    VideoCapture path = Some cap
    /\ concat (map widths (segments r))
       = map (fun v => Py.Int (snd v))
           (valid_measurements self
              (sampled self sample_rate 0 (decoded (cap_reads cap)))).
Proof.
  intros H. apply analyze_video_capture in H. destruct H as (cap & Hcap & H).
  exists cap. split; [exact Hcap|]. apply analyze_capture_ok in H. subst r.
  rewrite finish_segments, <- (app_nil_l (map _ (valid_measurements _ _))).
  change (@nil Py.num) with (recorded initial_state).
  rewrite <- fold_recorded. unfold recorded.
  rewrite map_app, concat_app.
  destruct (widths (st_current _)) eqn:E; cbn [nonempty map concat].
  - reflexivity.
  - now rewrite E, app_nil_r.
Qed.

(** ** Where a measurement ends up *)

Lemma on_sample_located (self : BeltAnalyzer) (st : LoopState) (t i : Z)
    (f : ndarray) (V : list (Z * Z)) :
  t <= i -> well_formed self t st ->
  Forall (located st) V ->
  Forall (located (on_sample self st (i, f)))
         (V ++ match measure_width self f with
               | Some w => [(i, w)]
               | None => []
               end).
Proof.
  intros Hti Hwf HV.
  pose proof (wf_ranges _ _ _ Hwf) as Hr. apply ranges_ordered_snoc in Hr.
  destruct Hr as (_ & Hse & Het).
  pose proof (on_sample_segments self st (i, f)) as Hs. cbn [fst snd] in Hs.
  set (m := measured self st f i) in Hs.
  assert (Hcm : forall F w, holds F w (st_current st) -> holds F w m).
  { intros F w [HF Hin]. unfold m, measured.
    destruct (measure_width self f) as [w'|]; [|now split].
    split; cbn [append_width frame_start frame_end widths];
      [lia | apply in_or_app; now left]. }
  assert (Hnew : forall w, measure_width self f = Some w -> holds i w m).
  { intros w Hw. unfold m, measured. rewrite Hw.
    split; cbn [append_width frame_start frame_end widths];
      [lia | apply in_or_app; right; now left]. }
  assert (Hkeep : forall F w,
             Exists (holds F w) (st_segments st ++ [m]) ->
             Exists (holds F w)
               (st_segments (on_sample self st (i, f))
                  ++ [st_current (on_sample self st (i, f))])).
  { intros F w Hex. unfold close_on_seam in Hs.
    destruct (detect_seam self f (st_prev_frame st)).
    - destruct (nonempty (widths m)) eqn:Hn; injection Hs as -> ->.
      + apply Exists_app. now left.
      + apply Exists_app in Hex. destruct Hex as [Hex | Hex].
        * apply Exists_app. now left.
        * inversion Hex as [? ? [_ Hin]|? ? Hnil]; subst; [|inversion Hnil].
          destruct (widths m); [contradiction | discriminate].
    - injection Hs as -> ->. exact Hex. }
  apply Forall_app. split.
  - rewrite Forall_forall in *. intros v Hv. apply Hkeep.
    specialize (HV v Hv). unfold located in HV.
    apply Exists_app in HV. apply Exists_app. destruct HV as [HV | HV]; [now left|].
    right. inversion HV as [? ? Hh|? ? Hnil]; subst; [|inversion Hnil].
    constructor. now apply Hcm.
  - destruct (measure_width self f) as [w|] eqn:Hw; constructor; [|constructor].
    apply Hkeep. apply Exists_app. right. constructor. now apply Hnew.
Qed.

Lemma fold_located (self : BeltAnalyzer) (samples : list (Z * ndarray))
    (st : LoopState) (t : Z) (V : list (Z * Z)) :
  ascending t (map fst samples) -> well_formed self t st ->
  Forall (located st) V ->
  Forall (located (fold_left (on_sample self) samples st))
         (V ++ valid_measurements self samples).
Proof.
  revert st t V. induction samples as [|[i f] samples IH]; intros st t V Hasc Hwf HV.
  - cbn. now rewrite app_nil_r.
  - cbn [map fst ascending] in Hasc. destruct Hasc as [Hlt Hasc].
    cbn [fold_left]. unfold valid_measurements. cbn [flat_map fst snd].
    rewrite app_assoc. apply (IH _ i); [exact Hasc| |].
    + apply (on_sample_well_formed self st t); [lia | exact Hwf].
    + apply (on_sample_located self st t); [lia | exact Hwf | exact HV].
Qed.

Lemma located_in_result (now video_path : string) (cap : Capture ndarray)
    (st : LoopState) (v : Z * Z) :
  located st v ->
  Exists (holds (fst v) (snd v)) (segments (finish now video_path cap st)).
Proof.
  unfold located. rewrite finish_segments. intros H.
  apply Exists_app in H. apply Exists_app. destruct H as [H | H]; [now left|].
  right. inversion H as [? ? Hh|? ? Hnil]; subst; [|inversion Hnil].
  destruct Hh as [HF Hin].
  destruct (widths (st_current st)) eqn:E; [contradiction|].
  cbn [nonempty]. constructor. split; [exact HF|]. now rewrite E.
Qed.

(** X6: every alert of a video result is a width warning for a frame
    and a width below the warning limit, and some segment of the result
    covers that frame and holds that width. *)
Theorem alerts_located (self : BeltAnalyzer) (now path : string)
    (sample_rate : Z) (r : AnalysisResult) :
  analyze_video self now path sample_rate = Ok r ->
  Forall (fun a =>
            exists F w,
              a = width_warning (Some F) w
              /\ below_warning_limit self w = true
              /\ Exists (holds F w) (segments r))
         (alerts r).
Proof.
  intros H. apply analyze_video_capture in H. destruct H as (cap & _ & H).
  apply analyze_capture_ok in H. subst r.
  set (samples := sampled self sample_rate 0 (decoded (cap_reads cap))).
  destruct (sampled_ascending self sample_rate (decoded (cap_reads cap)) 0)
    as [Hasc _].
  pose proof (fold_located self samples initial_state 0 [] Hasc
                (initial_well_formed self) (Forall_nil _)) as Hloc.
  cbn [app] in Hloc. rewrite Forall_forall in Hloc.
  unfold finish at 2. cbn [alerts]. rewrite fold_alerts. cbn [initial_state st_alerts app].
  apply Forall_forall. intros a Ha. apply in_flat_map in Ha.
  destruct Ha as (s & Hs & Ha). unfold warning_of in Ha.
  destruct (measure_width self (snd s)) as [w|] eqn:Hw; [|contradiction].
  destruct (below_warning_limit self w) eqn:Hb; [|contradiction].
  destruct Ha as [<- | []]. exists (fst s), w.
  split; [reflexivity|]. split; [exact Hb|].
  apply (located_in_result now path cap _ (fst s, w)). apply Hloc.
  unfold valid_measurements. apply in_flat_map. exists s. split; [exact Hs|].
  rewrite Hw. now left.
Qed.

(** ** The order of the alerts *)

Lemma ascending_weaken (lo lo' : Z) (l : list Z) :
  lo' <= lo -> ascending lo l -> ascending lo' l.
Proof. destruct l; simpl; [trivial|]. intros ? [? ?]. split; [lia|trivial]. Qed.

Lemma warning_frames (self : BeltAnalyzer) (samples : list (Z * ndarray))
    (lo : Z) :
  ascending lo (map fst samples) ->
  exists Fs,
    map alert_frame (flat_map (warning_of self) samples) = map Some Fs
    /\ ascending lo Fs
    /\ Forall (fun F => In F (map fst samples)) Fs.
Proof.
  revert lo. induction samples as [|[i f] samples IH]; intros lo Hasc.
  - exists []. repeat split; constructor.
  - cbn [map fst ascending] in Hasc. destruct Hasc as [Hlt Hasc].
    destruct (IH i Hasc) as (Fs & Hmap & HFs & Hin).
    assert (Hin' : Forall (fun F => In F (map fst ((i, f) :: samples))) Fs).
    { rewrite Forall_forall in *. intros F HF. right. now apply Hin. }
    cbn [flat_map]. rewrite map_app, Hmap. unfold warning_of. cbn [fst snd].
    destruct (measure_width self f) as [w|];
      [destruct (below_warning_limit self w)|].
    + exists (i :: Fs). cbn. repeat split; trivial.
      constructor; [now left | exact Hin'].
    + exists Fs. cbn. repeat split; trivial.
      apply (ascending_weaken i); [lia | exact HFs].
    + exists Fs. cbn. repeat split; trivial.
      apply (ascending_weaken i); [lia | exact HFs].
Qed.

Lemma sampled_numbers (self : BeltAnalyzer) (sample_rate : Z)
    (frames : list ndarray) (fc : Z) :
  Forall (fun F => (F mod sample_rate =? 0) = true
                   /\ fc < F <= fc + Z.of_nat (length frames))
         (map fst (sampled self sample_rate fc frames)).
Proof.
  revert fc. induction frames as [|f frames IH]; intros fc; [constructor|].
  cbn [sampled]. rewrite length_cons.
  assert (Hrest : Forall (fun F => (F mod sample_rate =? 0) = true
                     /\ fc < F <= fc + Z.of_nat (S (length frames)))
                    (map fst (sampled self sample_rate (fc + 1) frames))).
  { specialize (IH (fc + 1)). rewrite Forall_forall in *.
    intros F HF. destruct (IH F HF) as [H1 H2]. split; [exact H1|lia]. }
  destruct ((fc + 1) mod sample_rate =? 0) eqn:E; [|exact Hrest].
  cbn [map fst]. constructor; [|exact Hrest]. split; [exact E|lia].
Qed.

(** X7: the alerts of a video result come in strictly increasing
    frame order, at most one for a frame, each for a sampled frame within
    the frames read. *)
Theorem alerts_in_frame_order (self : BeltAnalyzer) (now path : string)
    (sample_rate : Z) (r : AnalysisResult) :
  analyze_video self now path sample_rate = Ok r ->
  exists cap Fs,
    VideoCapture path = Some cap
    /\ map alert_frame (alerts r) = map Some Fs
    /\ ascending 0 Fs
    /\ Forall (fun F => (F mod sample_rate =? 0) = true
                        /\ 0 < F <= Z.of_nat (length (decoded (cap_reads cap))))
              Fs.
Proof.
  intros H. apply analyze_video_capture in H. destruct H as (cap & Hcap & H).
  apply analyze_capture_ok in H. subst r.
  destruct (sampled_ascending self sample_rate (decoded (cap_reads cap)) 0)
    as [Hasc _].
  destruct (warning_frames self _ 0 Hasc) as (Fs & Hmap & HFs & Hin).
  exists cap, Fs. split; [exact Hcap|].
  unfold finish. cbn [alerts]. rewrite fold_alerts. cbn [initial_state st_alerts app].
  split; [exact Hmap|]. split; [exact HFs|].
  pose proof (sampled_numbers self sample_rate (decoded (cap_reads cap)) 0) as Hn.
  rewrite Forall_forall in *. intros F HF. apply Hn, Hin, HF.
Qed.

(** ** Which frames are analysed *)

Lemma sampled_app (self : BeltAnalyzer) (sample_rate fc : Z)
    (a b : list ndarray) :
  sampled self sample_rate fc (a ++ b)
  = sampled self sample_rate fc a
    ++ sampled self sample_rate (fc + Z.of_nat (length a)) b.
Proof.
  revert fc. induction a as [|f a IH]; intros fc.
  - cbn. now rewrite Z.add_0_r.
  - cbn [app sampled]. rewrite length_cons, IH.
    replace (fc + 1 + Z.of_nat (length a)) with (fc + Z.of_nat (S (length a))) by lia.
    now destruct ((fc + 1) mod sample_rate =? 0).
Qed.

Lemma div_succ (n r : Z) :
  0 <= n -> 0 < r ->
  if (n + 1) mod r =? 0
  then (n + 1) / r = n / r + 1 /\ (n / r + 1) * r = n + 1
  else (n + 1) / r = n / r.
Proof.
  intros Hn Hr.
  pose proof (Z.div_mod (n + 1) r ltac:(lia)) as E1.
  pose proof (Z.mod_pos_bound (n + 1) r Hr) as B1.
  pose proof (Z.div_mod n r ltac:(lia)) as E0.
  pose proof (Z.mod_pos_bound n r Hr) as B0.
  destruct ((n + 1) mod r =? 0) eqn:E.
  - apply Z.eqb_eq in E. assert ((n + 1) / r = n / r + 1) by nia. split; nia.
  - apply Z.eqb_neq in E. nia.
Qed.

Lemma sampled_numbered (self : BeltAnalyzer) (sample_rate : Z)
    (frames : list ndarray) (n : nat) :
  sampled self sample_rate (Z.of_nat n) frames
  = map (fun s => (fst s, roi_frame_of self (snd s)))
        (filter (fun s => fst s mod sample_rate =? 0)
                (combine (map Z.of_nat (seq (S n) (length frames))) frames)).
Proof.
  revert n. induction frames as [|f frames IH]; intros n; [reflexivity|].
  cbn [sampled length seq map combine filter fst].
  replace (Z.of_nat n + 1) with (Z.of_nat (S n)) by lia.
  rewrite IH. now destruct (Z.of_nat (S n) mod sample_rate =? 0).
Qed.

Lemma fold_process_frame (self : BeltAnalyzer) (l : list (Z * ndarray))
    (st : LoopState) :
  fold_left (on_sample self)
    (map (fun s => (fst s, roi_frame_of self (snd s))) l) st
  = fold_left (fun st s => process_frame self st (snd s) (fst s)) l st.
Proof.
  revert st. induction l as [|s l IH]; intros st; [reflexivity|].
  cbn [map fold_left]. now rewrite IH, process_frame_on_sample.
Qed.

Lemma sampled_multiples (self : BeltAnalyzer) (sample_rate : Z)
    (frames : list ndarray) :
  0 < sample_rate ->
  map fst (sampled self sample_rate 0 frames)
  = map (fun k => Z.of_nat k * sample_rate)
        (seq 1 (Z.to_nat (Z.of_nat (length frames) / sample_rate))).
Proof.
  intros Hr. induction frames as [|f frames IH] using rev_ind.
  - reflexivity.
  - rewrite sampled_app, map_app, IH, length_app. cbn [length sampled].
    rewrite Nat2Z.inj_add. cbn [Z.of_nat Pos.of_succ_nat]. 
    set (n := Z.of_nat (length frames)).
    pose proof (div_succ n sample_rate ltac:(lia) Hr) as Hd.
    assert (Hq : 0 <= n / sample_rate) by (apply Z.div_pos; lia).
    replace (0 + n + 1) with (n + 1) by lia.
    destruct ((n + 1) mod sample_rate =? 0).
    + destruct Hd as [-> Hm].
      rewrite Z2Nat.inj_add by lia. change (Z.to_nat 1) with 1%nat.
      rewrite Nat.add_1_r, seq_S, map_app. cbn [map fst]. f_equal. f_equal.
      rewrite <- Hm. f_equal. lia.
    + rewrite Hd. cbn [map]. now rewrite app_nil_r.
Qed.

(** X8: with a positive sample rate N, the result of [analyze_video] is
    that of the loop body run, in order, on the frames whose number is a
    multiple of N and on no other, and their numbers are N, 2N, ..., as
    many as N fits in the number of frames read; frame 1 is analysed only
    when N is 1. *)
Theorem sampled_frame_numbers (self : BeltAnalyzer) (now path : string)
    (sample_rate : Z) (cap : Capture ndarray) :
  0 < sample_rate ->
  VideoCapture path = Some cap ->
  let frames := decoded (cap_reads cap) in
  let analysed :=
    filter (fun s => fst s mod sample_rate =? 0) (numbered frames) in
  analyze_video self now path sample_rate
  = Ok (finish now path cap
          (fold_left (fun st s => process_frame self st (snd s) (fst s))
                     analysed initial_state))
  /\ map fst analysed
     = map (fun k => Z.of_nat k * sample_rate)
           (seq 1 (Z.to_nat (Z.of_nat (length frames) / sample_rate))).
Proof.
  intros Hr Hcap frames analysed.
  assert (Hrate : sample_rate <> 0) by lia.
  pose proof (sampled_numbered self sample_rate frames 0) as Hs.
  change (Z.of_nat 0) with 0 in Hs. fold (numbered frames) in Hs.
  fold analysed in Hs. split.
  - unfold analyze_video. rewrite Hcap.
    rewrite (analyze_capture_fold _ _ _ _ _ Hrate).
    fold frames. now rewrite Hs, fold_process_frame.
  - rewrite <- (sampled_multiples self sample_rate frames Hr), Hs, map_map.
    reflexivity.
Qed.

(** ** Odd sample rates *)

Lemma mod_opp_zero (a b : Z) : (a mod - b =? 0) = (a mod b =? 0).
Proof.
  destruct (Z.eq_dec b 0) as [-> | Hb]; [reflexivity|].
  destruct (a mod b =? 0) eqn:E.
  - apply Z.eqb_eq in E. apply Z.eqb_eq.
    apply Z.mod_divide in E; [|exact Hb]. apply Z.mod_divide; [lia|].
    exact (proj2 (Z.divide_opp_l b a) E).
  - apply Z.eqb_neq in E. apply Z.eqb_neq. intros E'. apply E.
    apply Z.mod_divide in E'; [|lia]. apply Z.mod_divide; [exact Hb|].
    exact (proj1 (Z.divide_opp_l b a) E').
Qed.

Lemma video_loop_opp (self : BeltAnalyzer) (sample_rate : Z)
    (reads : list (option ndarray)) (st : LoopState) :
  video_loop self (- sample_rate) reads st
  = video_loop self sample_rate reads st.
Proof.
  revert st. induction reads as [|[frame|] reads IH]; intros st;
    cbn [video_loop]; try reflexivity.
  replace (- sample_rate =? 0) with (sample_rate =? 0)
    by (destruct (Z.eqb_spec sample_rate 0), (Z.eqb_spec (- sample_rate) 0); lia).
  rewrite mod_opp_zero. destruct (sample_rate =? 0); [reflexivity|].
  destruct (negb _); apply IH.
Qed.

(** X9: a negative sample rate is accepted and samples the frames its
    absolute value does. *)
Theorem negative_sample_rate (self : BeltAnalyzer) (now path : string)
    (sample_rate : Z) :
  analyze_video self now path (- sample_rate)
  = analyze_video self now path sample_rate.
Proof.
  unfold analyze_video, analyze_capture.
  destruct (VideoCapture path) as [cap|]; [|reflexivity].
  now rewrite video_loop_opp.
Qed.

Lemma sampled_none (self : BeltAnalyzer) (sample_rate fc : Z)
    (frames : list ndarray) :
  0 <= fc -> fc + Z.of_nat (length frames) < Z.abs sample_rate ->
  sampled self sample_rate fc frames = [].
Proof.
  revert fc. induction frames as [|f frames IH]; intros fc Hfc Hlen; [reflexivity|].
  cbn [sampled]. rewrite length_cons in Hlen.
  destruct ((fc + 1) mod sample_rate =? 0) eqn:E.
  - exfalso. apply Z.eqb_eq in E. apply Z.mod_divide in E; [|lia].
    apply Z.divide_abs_l in E. apply Z.divide_pos_le in E; lia.
  - apply IH; lia.
Qed.

(** X10: a run that samples no frame returns the empty result, with
    the frame count and rate of the capture: when no frame can be read,
    whatever the sample rate, 0 included, and when the sample rate is
    larger in absolute value than the number of frames read. *)
Theorem no_sampled_frame (self : BeltAnalyzer) (now path : string)
    (sample_rate : Z) (cap : Capture ndarray) :
  VideoCapture path = Some cap ->
  decoded (cap_reads cap) = []
  \/ Z.of_nat (length (decoded (cap_reads cap))) < Z.abs sample_rate ->
  analyze_video self now path sample_rate
  = Ok {| source_file := path;
          total_frames := cap_frame_count cap;
          fps := Py.Float (cap_fps cap);
          segments := [];
          alerts := [];
          created_at := now |}.
Proof.
  intros Hcap H. unfold analyze_video. rewrite Hcap.
  destruct H as [H | H].
  - unfold analyze_capture. rewrite video_loop_decoded, H. reflexivity.
  - assert (Hrate : sample_rate <> 0) by lia.
    rewrite (analyze_capture_fold _ _ _ _ _ Hrate), sampled_none by lia.
    reflexivity.
Qed.

(** ** The edge pair *)

Lemma find_rev_none (P : nat -> bool) (l : list nat) :
  is_none (find P l) = is_none (find P (rev l)).
Proof.
  destruct (find P l) as [a|] eqn:E, (find P (rev l)) as [b|] eqn:E';
    try reflexivity; exfalso.
  - apply find_some in E. destruct E as [Hin Hp].
    rewrite (find_none _ _ E' a) in Hp; [discriminate | now apply in_rev in Hin].
  - apply find_some in E'. destruct E' as [Hin Hp].
    rewrite (find_none _ _ E b) in Hp; [discriminate | now apply in_rev].
Qed.

Lemma edges_pair_shape (binary : mask) :
  is_none (fst (detect_belt_edges binary))
  = is_none (snd (detect_belt_edges binary)).
Proof.
  unfold detect_belt_edges. destruct (findContours binary); [reflexivity|].
  destruct (boundingRect _) as [[[x y] w] h].
  rewrite column_projection_scan_spec. unfold spec_edge_locator, first_exceeding.
  cbn [fst snd].
  pose proof (find_rev_none
                (exceeds (projection binary)
                   (Py.mul (Py.Int (Z.of_nat (shape0 binary))) (Py.Float Py.f0_3)))
                (seq 0 (length (projection binary)))) as H.
  destruct (find _ (seq 0 _)), (find _ (rev _)); cbn in *; congruence.
Qed.

(** X11: [detect_belt_edges] finds both edges or neither. *)
Theorem edges_both_or_neither (binary : mask) :
  is_none (fst (detect_belt_edges binary))
  = is_none (snd (detect_belt_edges binary)).
Proof.
  unfold detect_belt_edges. destruct (findContours binary); [reflexivity|].
  destruct (boundingRect _) as [[[x y] w] h].
  rewrite column_projection_scan_spec. unfold spec_edge_locator, first_exceeding.
  cbn [fst snd].
  pose proof (find_rev_none
                (exceeds (projection binary)
                   (Py.mul (Py.Int (Z.of_nat (shape0 binary))) (Py.Float Py.f0_3)))
                (seq 0 (length (projection binary)))) as H.
  destruct (find _ (seq 0 _)), (find _ (rev _)); cbn in *; congruence.
Qed.

Lemma detected_edges_range (binary : mask) (l r : Z) :
  detect_belt_edges binary = (Some l, Some r) ->
  0 <= l <= r /\ r < Z.of_nat (shape1 binary).
Proof.
  unfold detect_belt_edges. destruct (findContours binary); [discriminate|].
  destruct (boundingRect _) as [[[x y] w] h].
  rewrite column_projection_scan_spec. unfold spec_edge_locator, first_exceeding.
  assert (Hn : length (projection binary) = shape1 binary).
  { unfold projection. now rewrite length_map, length_seq. }
  rewrite Hn. set (over := exceeds _ _).
  destruct (find over (seq 0 (shape1 binary))) as [a|] eqn:Ea; [|discriminate].
  destruct (find over (rev (seq 0 (shape1 binary)))) as [b|] eqn:Eb; [|discriminate].
  cbn. intros [= <- <-].
  apply find_seq_least in Ea. destruct Ea as (Ha & Pa & La).
  apply find_rev_seq_greatest in Eb. destruct Eb as (Hb & Pb & Gb).
  assert (a <= b)%nat.
  { destruct (Nat.le_gt_cases a b) as [|Hlt]; [assumption|].
    rewrite (La b) in Pb by lia. discriminate. }
  lia.
Qed.

(** X12: a measured width is the distance right - left of two edges in
    order, it is not negative, it is less than the number of columns of
    the mask, and neither threshold test rejects it. *)
Theorem measured_width_bounds (self : BeltAnalyzer) (frame : ndarray) (w : Z) :
  measure_width self frame = Some w ->
  0 <= w < Z.of_nat (shape1 (preprocess_frame self frame))
  /\ Py.lt (Py.Int w) (min_width_threshold self) = false
  /\ Py.gt (Py.Int w) (max_width_threshold self) = false
  /\ exists l r, detect_belt_edges (preprocess_frame self frame) = (Some l, Some r)
                 /\ 0 <= l <= r /\ w = r - l.
Proof.
  unfold measure_width, width_validator.
  destruct (detect_belt_edges _) as [[l|] [r|]] eqn:E; try discriminate.
  destruct (Py.lt _ _) eqn:Hlt; [discriminate|].
  destruct (Py.gt _ _) eqn:Hgt; [discriminate|].
  cbn [orb]. intros [= <-]. apply detected_edges_range in E.
  split; [lia|]. split; [exact Hlt|]. split; [exact Hgt|].
  exists l, r. split; [reflexivity|]. lia.
Qed.

(** X13: in image mode an alert comes with the segment that holds the
    warned width: a result has no alert, or one alert and one segment, of
    that width alone. *)
Theorem image_alert_has_segment (self : BeltAnalyzer) (now path : string)
    (r : AnalysisResult) :
  analyze_image self now path = Ok r ->
  alerts r = []
  \/ exists w,
       alerts r = [width_warning None w]
       /\ segments r = [ {| segment_id := 1; frame_start := 0; frame_end := 0;
                            widths := [Py.Int w] |} ]
       /\ below_warning_limit self w = true.
Proof.
  unfold analyze_image. destruct (imread path) as [frame|]; [|discriminate].
  intros [= <-]. cbn [alerts segments widths]. unfold below_warning_limit.
  destruct (measure_width self frame) as [w|]; [|now left].
  cbn [Py.truthy]. destruct (w =? 0); cbn [negb andb nonempty]; [now left|].
  destruct (Py.lt (Py.Int w) _) eqn:Hlt; [|now left].
  right. exists w. split; [reflexivity|]. split; [reflexivity | exact Hlt].
Qed.

(** ** The serialized result *)

Lemma video_segments_accepted (self : BeltAnalyzer) (now path : string)
    (sample_rate : Z) (r : AnalysisResult) :
  analyze_video self now path sample_rate = Ok r ->
  Forall (fun s => widths s <> [] /\ Forall (accepted self) (widths s))
         (segments r).
Proof.
  intros H. apply analyze_video_capture in H. destruct H as (cap & _ & H).
  apply analyze_capture_well_formed in H.
  destruct H as (st & t & -> & Hwf & _). rewrite finish_segments.
  pose proof (wf_accepted _ _ _ Hwf) as Hacc.
  pose proof (wf_nonempty _ _ _ Hwf) as Hne.
  apply Forall_app in Hacc. destruct Hacc as [Ha Hc].
  apply Forall_app. split.
  - rewrite Forall_forall in *. intros seg Hseg. auto.
  - inversion Hc as [|? ? Hcw _]; subst.
    destruct (widths (st_current st)) eqn:E; cbn [nonempty]; constructor;
      [|constructor].
    rewrite E. split; [discriminate | exact Hcw].
Qed.

(** X14: the serialized result of a video run: the count of segments
    is the number of rows, every row reports whole-number extremes within
    the thresholds and at least one measurement, and the creation time is
    not serialized. *)
Theorem to_dict_of_video (self : BeltAnalyzer) (now path : string)
    (sample_rate : Z) (r : AnalysisResult) :
  analyze_video self now path sample_rate = Ok r ->
  exists rows,
    lookup "segments" (to_dict r) = Some (VList rows)
    /\ lookup "total_segments" (to_dict r)
       = Some (VNum (Py.Int (Z.of_nat (length rows))))
    /\ lookup "created_at" (to_dict r) = None
    /\ Forall (row_within self) rows.
Proof.
  intros H. apply video_segments_accepted in H.
  eexists. split; [reflexivity|]. split; [cbn; now rewrite length_map|].
  split; [reflexivity|].
  apply Forall_map. rewrite Forall_forall in *. intros seg Hseg.
  destruct (H seg Hseg) as [Hne Hacc].
  destruct (accepted_reports_within self seg Hne Hacc)
    as (m & M & Hmin & Hmax & HmM & Hlo & Hhi & _).
  exists (segment_dict seg), m, M, (Z.of_nat (length (widths seg))).
  split; [reflexivity|]. unfold segment_dict. rewrite Hmin, Hmax.
  repeat split; try lia; trivial.
  destruct (widths seg); [congruence | cbn; lia].
Qed.

End Results.

(** ** The REST layer *)

Section RestProperties.

Context {opencv : OpenCV}.
Variable suffix_lower : string -> string.
Variable allowed_text : string.
Variable zero_division_text : string.

Lemma lookup_dict_set_same {A} (key : string) (v : A) (d : list (string * A)) :
  lookup key (dict_set key v d) = Some v.
Proof.
  unfold lookup. induction d as [|[k x] d IH]; cbn.
  - now rewrite String.eqb_refl.
  - destruct (String.eqb k key) eqn:E; cbn; rewrite E; [reflexivity | exact IH].
Qed.

Lemma lookup_dict_del_same {A} (key : string) (d : list (string * A)) :
  lookup key (dict_del key d) = None.
Proof.
  unfold lookup, dict_del. induction d as [|[k x] d IH]; cbn; [reflexivity|].
  destruct (String.eqb k key) eqn:E; cbn; [exact IH|]. now rewrite E.
Qed.

Lemma lookup_dict_del_other {A} (key other : string) (d : list (string * A)) :
  other <> key -> lookup other (dict_del key d) = lookup other d.
Proof.
  intros Hne. unfold lookup, dict_del.
  induction d as [|[k x] d IH]; cbn; [reflexivity|].
  destruct (String.eqb k key) eqn:E; cbn.
  - apply String.eqb_eq in E. subst k.
    destruct (String.eqb key other) eqn:E'; [|exact IH].
    apply String.eqb_eq in E'. congruence.
  - destruct (String.eqb k other); [reflexivity | exact IH].
Qed.

Lemma analyze_image_source (self : BeltAnalyzer) (now path : string)
    (r : AnalysisResult) :
  analyze_image self now path = Ok r -> source_file r = path.
Proof.
  unfold analyze_image. destruct (imread path); [|discriminate].
  now intros [= <-].
Qed.

Lemma analyze_video_source (self : BeltAnalyzer) (now path : string)
    (sample_rate : Z) (r : AnalysisResult) :
  analyze_video self now path sample_rate = Ok r -> source_file r = path.
Proof.
  unfold analyze_video, analyze_capture. destruct (VideoCapture path); [|discriminate].
  destruct (video_loop _ _ _ _); [|discriminate]. now intros [= <-].
Qed.

(** X15: an analysis that succeeds can be fetched under its id, with
    the same segments, alerts and counts; the response of the upload names
    the uploaded file, the fetched one the path the upload was saved at. *)
Theorem analyze_then_get (analysis_results store' : Store)
    (filename analysis_id created now now' : string)
    (min_width max_width seam_threshold : spec_float)
    (sample_rate : Z) (roi_x roi_y roi_w roi_h : option Z)
    (response : AnalysisResponse) :
  analyze_media suffix_lower allowed_text zero_division_text
    analysis_results filename analysis_id created now
    min_width max_width seam_threshold sample_rate roi_x roi_y roi_w roi_h
  = (store', Http_ok response) ->
  r_source_file response = filename
  /\ exists fetched,
      get_result store' now' analysis_id = Http_ok fetched
      /\ r_source_file fetched
         = ("data/uploads/" ++ analysis_id ++ suffix_lower filename)%string
      /\ r_analysis_id fetched = r_analysis_id response
      /\ r_segments fetched = r_segments response
      /\ r_alerts fetched = r_alerts response
      /\ r_total_segments fetched = r_total_segments response
      /\ r_total_frames fetched = r_total_frames response
      /\ r_fps fetched = r_fps response.
Proof.
  unfold analyze_media.
  destruct (negb (member (suffix_lower filename) allowed_extensions));
    [discriminate|].
  set (analyzer := Build_BeltAnalyzer _ _ _ _ _).
  set (file_path := ("data/uploads/" ++ analysis_id ++ suffix_lower filename)%string).
  destruct (if member (suffix_lower filename) image_extensions
            then analyze_image analyzer created file_path
            else analyze_video analyzer created file_path sample_rate)
    as [result|e] eqn:Hrun; [|discriminate].
  intros [= <- <-]. split; [reflexivity|].
  unfold get_result. rewrite lookup_dict_set_same. eexists.
  split; [reflexivity|]. cbn [analysis_response r_source_file r_analysis_id
    r_segments r_alerts r_total_segments r_total_frames r_fps].
  repeat split.
  destruct (member (suffix_lower filename) image_extensions).
  - now apply analyze_image_source in Hrun.
  - now apply analyze_video_source in Hrun.
Qed.

(** X16: a failed upload leaves the store as it was; the status is 400
    for an extension that is not allowed and 500 for an analysis that
    raised. *)
Theorem analyze_media_failure (analysis_results store' : Store)
    (filename analysis_id created now : string)
    (min_width max_width seam_threshold : spec_float)
    (sample_rate : Z) (roi_x roi_y roi_w roi_h : option Z)
    (status_code : Z) (detail : string) :
  analyze_media suffix_lower allowed_text zero_division_text
    analysis_results filename analysis_id created now
    min_width max_width seam_threshold sample_rate roi_x roi_y roi_w roi_h
  = (store', HTTPException status_code detail) ->
  store' = analysis_results
  /\ status_code = (if member (suffix_lower filename) allowed_extensions
                    then 500 else 400).
Proof.
  unfold analyze_media.
  destruct (member (suffix_lower filename) allowed_extensions); cbn [negb].
  - destruct (if member _ image_extensions then _ else _); [discriminate|].
    now intros [= <- <- _].
  - now intros [= <- <- _].
Qed.

(** X17: after [delete_result] the id is gone and every other id is
    answered as before; deleting an id that is not stored answers 404 and
    changes nothing. *)
Theorem delete_then_get (analysis_results : Store) (now analysis_id : string) :
  let store' := fst (delete_result analysis_results analysis_id) in
  get_result store' now analysis_id = not_found
  /\ (forall other, other <> analysis_id ->
        get_result store' now other = get_result analysis_results now other)
  /\ (lookup analysis_id analysis_results = None ->
      delete_result analysis_results analysis_id = (analysis_results, not_found))
  /\ (forall result, lookup analysis_id analysis_results = Some result ->
        snd (delete_result analysis_results analysis_id)
        = Http_ok ("Analysis " ++ analysis_id ++ " deleted")%string).
Proof.
  unfold delete_result, get_result.
  destruct (lookup analysis_id analysis_results) as [result|] eqn:E; cbn [fst snd].
  - rewrite lookup_dict_del_same. split; [reflexivity|]. split.
    + intros other Hne. now rewrite lookup_dict_del_other.
    + split; [discriminate | reflexivity].
  - rewrite E. split; [reflexivity|]. split; [reflexivity|].
    split; [reflexivity | discriminate].
Qed.

(** ** The listing *)

Lemma ltb_leb (x y : string) : String.ltb x y = true -> String.leb x y = true.
Proof.
  unfold String.ltb, String.leb. now destruct (String.compare x y).
Qed.

Lemma not_ltb_leb (x y : string) : String.ltb x y = false -> String.leb y x = true.
Proof.
  unfold String.ltb, String.leb. rewrite (String.compare_antisym y x).
  now destruct (String.compare x y).
Qed.

Lemma insert_desc_perm (x : ResultSummary) (l : list ResultSummary) :
  Permutation (x :: l) (insert_desc x l).
Proof.
  induction l as [|y l IH]; cbn; [reflexivity|].
  destruct (String.ltb _ _); [|reflexivity].
  rewrite perm_swap. now constructor.
Qed.

Lemma insert_desc_sorted (x : ResultSummary) (l : list ResultSummary) :
  Sorted later_first l -> Sorted later_first (insert_desc x l).
Proof.
  induction l as [|y l IH]; cbn; intros Hs.
  - repeat constructor.
  - destruct (String.ltb (l_created_at x) (l_created_at y)) eqn:E.
    + inversion Hs as [|? ? Hl Hhd]; subst. constructor; [now apply IH|].
      destruct l as [|z l]; cbn.
      * constructor. now apply ltb_leb.
      * destruct (String.ltb (l_created_at x) (l_created_at z));
          constructor; [now inversion Hhd | now apply ltb_leb].
    + constructor; [exact Hs|]. constructor. now apply not_ltb_leb.
Qed.

(** X18: the listing counts every stored analysis, holds one entry for
    each and is ordered by creation time, latest first. *)
Theorem list_results_sorted (analysis_results : Store) :
  let '(count, analyses) := list_results analysis_results in
  count = Z.of_nat (length analysis_results)
  /\ count = Z.of_nat (length analyses)
  /\ Permutation (map summary analysis_results) analyses
  /\ Sorted later_first analyses.
Proof.
  unfold list_results.
  assert (Hp : forall l, Permutation l (sorted_desc l)).
  { induction l as [|x l IH]; cbn; [reflexivity|].
    rewrite <- insert_desc_perm. now constructor. }
  assert (Hs : forall l, Sorted later_first (sorted_desc l)).
  { induction l as [|x l IH]; cbn; [constructor|]. now apply insert_desc_sorted. }
  split; [now rewrite length_map|]. split.
  - now rewrite <- (Permutation_length (Hp _)).
  - split; [apply Hp | apply Hs].
Qed.

End RestProperties.

(** ** The overlay *)

Section OverlayProperties.

Context {opencv : OpenCV}.
Variable frame_height : ndarray -> Z.

(** X19: nothing is drawn exactly when no left edge is found; whenever
    a width is measured, the label shows that width, between two edges in
    order. *)
Theorem visualization_label (self : BeltAnalyzer) (frame : ndarray) :
  (get_visualization frame_height self frame = []
   <-> fst (detect_belt_edges (preprocess_frame self frame)) = None)
  /\ forall w,
      measure_width self frame = Some w ->
      exists l r,
        0 <= l <= r /\ w = r - l
        /\ get_visualization frame_height self frame
           = [line (l, 0) (l, frame_height frame) (0, 255, 0) 2;
              line (r, 0) (r, frame_height frame) (0, 255, 0) 2;
              line (l, frame_height frame / 2) (r, frame_height frame / 2)
                   (255, 0, 0) 2;
              putText ("Width: " ++ str_int w ++ "px")%string
                      (l, frame_height frame / 2 - 10) f0_7 (255, 0, 0) 2].
Proof.
  split.
  - unfold get_visualization.
    pose proof (edges_pair_shape (preprocess_frame self frame)) as Hb.
    destruct (detect_belt_edges _) as [[l|] [r|]]; cbn in *;
      split; intros H; try discriminate; try reflexivity.
  - intros w Hw. unfold measure_width, width_validator in Hw.
    unfold get_visualization.
    destruct (detect_belt_edges _) as [[l|] [r|]] eqn:E; try discriminate.
    apply detected_edges_range in E.
    destruct (_ || _); [discriminate|]. injection Hw as <-.
    exists l, r. split; [lia|]. split; [lia|].
    replace (Z.abs (r - l)) with (r - l) by lia. reflexivity.
Qed.

End OverlayProperties.

(** * The properties at work on concrete inputs *)

(** The warning limit under the default minimum: 100.0 * 1.1 is the
    float just above 110, so a width of 110 is still below it. *)
Example warning_limit_default :
  Py.mul (min_width_threshold Toy.default) (Py.Float Py.f1_1)
  = Py.Float (S754_finite false (110 * 2 ^ 46 + 1) (-46))
  /\ below_warning_limit Toy.default 105 = true
  /\ below_warning_limit Toy.default 110 = true
  /\ below_warning_limit Toy.default 111 = false.
Proof. repeat split. Qed.

Lemma width_validator_witness :
  width_validator Toy.default (Some 50, Some 155) = Some 105
  /\ width_validator Toy.default (Some 0, Some 100) = Some 100
  /\ width_validator Toy.default (Some 2000, Some 0) = Some 2000
  /\ width_validator Toy.default (Some 50, Some 149) = None
  /\ width_validator Toy.default (Some 0, Some 2001) = None.
Proof.
  destruct (width_validator_spec Toy.default) as (_ & _ & H).
  refine (conj _ (conj _ (conj _ (conj _ _)))).
  - apply (proj1 (H 50 155)); reflexivity.
  - apply (proj1 (H 0 100)); reflexivity.
  - apply (proj1 (H 2000 0)); reflexivity.
  - apply (proj2 (H 50 149)). left. reflexivity.
  - apply (proj2 (H 0 2001)). right. reflexivity.
Defined.

Lemma contour_pass_witness :
  @detect_belt_edges Toy.disk Toy.no_belt = (None, None)
  /\ @detect_belt_edges Toy.disk Toy.no_belt = spec_edge_locator Toy.no_belt
  /\ @detect_belt_edges Toy.disk Toy.belt_105 = (Some 50, Some 155)
  /\ @detect_belt_edges Toy.disk Toy.belt_105 = spec_edge_locator Toy.belt_105
  /\ @detect_belt_edges Toy.disk Toy.belt_105 = count_edge_locator Toy.belt_105.
Proof.
  assert (H0 : @findContours Toy.disk Toy.no_belt = [] ->
               all_pixels_zero Toy.no_belt).
  { intros _ row p Hrow Hp. apply repeat_spec in Hrow. subst row.
    now apply repeat_spec in Hp. }
  assert (H1 : @findContours Toy.disk Toy.belt_105 = [] ->
               all_pixels_zero Toy.belt_105).
  { vm_compute. discriminate. }
  destruct (@contour_pass_is_inert Toy.disk Toy.no_belt H0) as (_ & E0 & _).
  destruct (@contour_pass_is_inert Toy.disk Toy.belt_105 H1) as (_ & E1 & C1).
  refine (conj _ (conj E0 (conj _ (conj E1 _)))).
  - vm_compute. reflexivity.
  - vm_compute. reflexivity.
  - apply C1.
    + apply is_binary_spec. vm_compute. reflexivity.
    + vm_compute. discriminate.
Defined.

Lemma edges_ordered_witness :
  @detect_belt_edges Toy.disk Toy.belt_105 = (Some 50, Some 155)
  /\ 50 <= 155.
Proof.
  assert (H : @detect_belt_edges Toy.disk Toy.belt_105 = (Some 50, Some 155))
    by (vm_compute; reflexivity).
  split; [exact H|].
  exact (proj1 (@edges_ordered Toy.disk Toy.belt_105 50 155 H)).
Defined.

Lemma width_warning_witness :
  st_alerts (@process_frame Toy.disk Toy.default initial_state Toy.belt_105 1)
  = [ {| alert_type := "width_warning"; alert_frame := Some 1;
         alert_message := "Belt width below threshold: 105.00px";
         alert_severity := "warning" |} ]
  /\ st_alerts (@process_frame Toy.disk Toy.default initial_state Toy.no_belt 1)
     = [].
Proof.
  destruct (@width_warning_iff Toy.disk Toy.default initial_state Toy.belt_105 1)
    as (_ & _ & _ & _ & _ & H105 & _).
  destruct (@width_warning_iff Toy.disk Toy.default initial_state Toy.no_belt 1)
    as (_ & _ & _ & Hnone & _).
  split.
  - apply H105; [right; reflexivity | vm_compute; reflexivity].
  - apply Hnone. vm_compute. reflexivity.
Defined.

(** C5 as first stated fails: under the default minimum of 100 a width of
    110 is not strictly below 100 x 1.1 = 110, yet the frame raises the
    warning: the product the code compares with is the float just above
    110. *)
Lemma width_110_warns_counterexample :
  min_width_threshold Toy.default = Py.Float (Py.float_of_Z 100)
  /\ @measure_width Toy.disk Toy.default Toy.belt_110 = Some 110
  /\ spec_below_warning_limit 100 110 = false
  /\ Py.mul (min_width_threshold Toy.default) (Py.Float Py.f1_1)
     = Py.Float (S754_finite false (110 * 2 ^ 46 + 1) (-46))
  /\ st_alerts (@process_frame Toy.disk Toy.default initial_state Toy.belt_110 1)
     = [ {| alert_type := "width_warning"; alert_frame := Some 1;
            alert_message := "Belt width below threshold: 110.00px";
            alert_severity := "warning" |} ].
Proof.
  split; [reflexivity|]. split; [vm_compute; reflexivity|].
  split; [reflexivity|]. split; vm_compute; reflexivity.
Defined.

Lemma no_seam_witness :
  exists r,
    @analyze_video Toy.disk Toy.default "t0" "quiet.mp4" 1 = Ok r
    /\ segments r = [ {| segment_id := 1; frame_start := 0; frame_end := 1;
                         widths := [Py.Int 105] |} ].
Proof.
  destruct (@no_seam_single_segment Toy.disk Toy.default "t0" "quiet.mp4" 1
              Toy.quiet) as (r & Hr & Hs).
  - lia.
  - reflexivity.
  - vm_compute. repeat constructor.
  - vm_compute. discriminate.
  - exists r. split; [exact Hr|]. rewrite Hs. vm_compute. reflexivity.
Defined.

(** C2 as first stated fails: in this run no seam shows, one measurement is
    valid and the sampled frames are 1 and 2, yet the segment ends at
    frame 1, not at the last sampled frame. *)
Lemma no_seam_last_sampled_counterexample :
  let samples := @sampled Toy.disk Toy.default 1 0 (@decoded Toy.disk (cap_reads Toy.quiet)) in
  @VideoCapture Toy.disk "quiet.mp4" = Some Toy.quiet
  /\ Forall (eq false) (@seam_signals Toy.disk Toy.default None samples)
  /\ @valid_measurements Toy.disk Toy.default samples = [(1, 105)]
  /\ map fst samples = [1; 2]
  /\ exists r seg,
      @analyze_video Toy.disk Toy.default "t0" "quiet.mp4" 1 = Ok r
      /\ segments r = [seg]
      /\ frame_end seg = 1
      /\ frame_end seg <> last (map fst samples) 0.
Proof.
  intros samples. split; [reflexivity|].
  split; [vm_compute; repeat constructor|].
  split; [vm_compute; reflexivity|].
  split; [vm_compute; reflexivity|].
  eexists. eexists. split; [vm_compute; reflexivity|].
  split; [reflexivity|]. split; [reflexivity|]. vm_compute. discriminate.
Defined.

Lemma seam_closes_witness :
  exists st',
    @video_loop Toy.disk Toy.default 1
      (map Some [Toy.belt_105; Toy.no_belt; Toy.seam_150]) initial_state = Ok st'
    /\ st_segments st'
       = [ {| segment_id := 1; frame_start := 0; frame_end := 3;
              widths := [Py.Int 105; Py.Int 150] |} ]
    /\ st_current st'
       = {| segment_id := 2; frame_start := 3; frame_end := 3; widths := [] |}.
Proof.
  pose (st := @Build_LoopState Toy.disk []
                {| segment_id := 1; frame_start := 0;
                   frame_end := 1; widths := [Py.Int 105] |}
                [width_warning (Some 1) 105] (Some Toy.no_belt) 2).
  destruct (@seam_closes_segment Toy.disk Toy.default "t0" "seamed.mp4" 1
              Toy.seamed [Toy.belt_105; Toy.no_belt] [Toy.belt_110]
              Toy.seam_150 st)
    as (_ & _ & st' & Hrun & Hsegs & Hcur & _).
  - lia.
  - reflexivity.
  - vm_compute. reflexivity.
  - reflexivity.
  - vm_compute. reflexivity.
  - exists st'. split; [exact Hrun|]. split.
    + rewrite Hsegs. vm_compute. reflexivity.
    + rewrite Hcur. vm_compute. reflexivity.
Defined.



(** C6 fails on the code: with a minimum threshold of 0.0 the image whose
    only column above the threshold is column 3 measures a width of 0, a
    present measurement, and [analyze_image] returns no segment for it;
    [analyze_video] on the same frame records the segment. *)
Theorem analyze_image_drops_zero_width :
  let self := Toy.analyzer (Py.Float Py.f0_0) (Py.Float (Py.float_of_Z 2000)) in
  @imread Toy.disk "narrow.png" = Some Toy.narrow
  /\ @measure_width Toy.disk self Toy.narrow = Some 0
  /\ @analyze_image Toy.disk self "t0" "narrow.png"
     = Ok {| source_file := "narrow.png"; total_frames := 1; fps := Py.Int 0;
             segments := []; alerts := []; created_at := "t0" |}
  /\ exists r,
      @analyze_video Toy.disk self "t0" "narrow.mp4" 1 = Ok r
      /\ segments r = [ {| segment_id := 1; frame_start := 0; frame_end := 1;
                           widths := [Py.Int 0] |} ].
Proof.
  intros self. split; [reflexivity|]. split; [vm_compute; reflexivity|].
  split; [vm_compute; reflexivity|].
  eexists. split; vm_compute; reflexivity.
Qed.

Lemma no_empty_segment_witness :
  exists r,
    @analyze_video Toy.disk Toy.default "t0" "seamed.mp4" 1 = Ok r
    /\ length (segments r) = 2%nat
    /\ Forall (fun s => widths s <> []) (segments r).
Proof.
  eexists. split; [vm_compute; reflexivity|]. split; [reflexivity|].
  apply (@no_empty_segment Toy.disk Toy.default "t0" "seamed.mp4" 1).
  left. vm_compute. reflexivity.
Defined.

Lemma segment_ids_sequential_witness :
  exists r,
    @analyze_video Toy.disk Toy.default "t0" "seamed.mp4" 1 = Ok r
    /\ map segment_id (segments r) = [1; 2].
Proof.
  eexists. split; [vm_compute; reflexivity|].
  refine (eq_trans
            (@segment_ids_sequential Toy.disk Toy.default "t0" "seamed.mp4" 1 _ _)
            _).
  - vm_compute. reflexivity.
  - reflexivity.
Defined.

Lemma segment_ranges_ordered_witness :
  exists r,
    @analyze_video Toy.disk Toy.default "t0" "seamed.mp4" 1 = Ok r
    /\ map (fun s => (frame_start s, frame_end s)) (segments r) = [(0, 3); (3, 4)]
    /\ ranges_ordered 0 (segments r) 4.
Proof.
  eexists. split; [vm_compute; reflexivity|]. split; [reflexivity|].
  destruct (@segment_ranges_ordered Toy.disk Toy.default "t0" "seamed.mp4" 1 _
              ltac:(vm_compute; reflexivity)) as (cap & Hcap & H).
  change (@VideoCapture Toy.disk "seamed.mp4") with (Some Toy.seamed) in Hcap.
  injection Hcap as <-. exact H.
Defined.

Lemma reported_widths_within_thresholds_witness :
  exists r,
    @analyze_video Toy.disk Toy.default "t0" "seamed.mp4" 1 = Ok r
    /\ Forall (reports_within Toy.default) (segments r).
Proof.
  eexists. split; [vm_compute; reflexivity|].
  apply (@reported_widths_within_thresholds Toy.disk Toy.default "t0"
           "seamed.mp4" 1).
  vm_compute. reflexivity.
Defined.

Lemma widths_conserved_witness :
  exists r,
    @analyze_video Toy.disk Toy.default "t0" "seamed.mp4" 1 = Ok r
    /\ @valid_measurements Toy.disk Toy.default
         (@sampled Toy.disk Toy.default 1 0 (@decoded Toy.disk (cap_reads Toy.seamed)))
       = [(1, 105); (3, 150); (4, 110)]
    /\ concat (map widths (segments r)) = [Py.Int 105; Py.Int 150; Py.Int 110].
Proof.
  eexists. split; [vm_compute; reflexivity|].
  split; [vm_compute; reflexivity|].
  destruct (@widths_conserved Toy.disk Toy.default "t0" "seamed.mp4" 1 _
              ltac:(vm_compute; reflexivity)) as (cap & Hcap & H).
  change (@VideoCapture Toy.disk "seamed.mp4") with (Some Toy.seamed) in Hcap.
  injection Hcap as <-. refine (eq_trans H _). vm_compute. reflexivity.
Defined.

Lemma alerts_located_witness :
  exists r,
    @analyze_video Toy.disk Toy.default "t0" "seamed.mp4" 1 = Ok r
    /\ alerts r = [width_warning (Some 1) 105; width_warning (Some 4) 110]
    /\ Forall (fun a =>
                 exists F w,
                   a = width_warning (Some F) w
                   /\ below_warning_limit Toy.default w = true
                   /\ Exists (holds F w) (segments r))
              (alerts r).
Proof.
  eexists. split; [vm_compute; reflexivity|].
  split; [vm_compute; reflexivity|].
  apply (@alerts_located Toy.disk Toy.default "t0" "seamed.mp4" 1).
  vm_compute. reflexivity.
Defined.

Lemma alerts_in_frame_order_witness :
  exists r Fs,
    @analyze_video Toy.disk Toy.default "t0" "seamed.mp4" 1 = Ok r
    /\ map alert_frame (alerts r) = map Some Fs
    /\ ascending 0 Fs
    /\ Forall (fun F => 0 < F <= 4) Fs.
Proof.
  destruct (@alerts_in_frame_order Toy.disk Toy.default "t0" "seamed.mp4" 1 _
              ltac:(vm_compute; reflexivity)) as (cap & Fs & Hcap & Hmap & Hasc & Hin).
  change (@VideoCapture Toy.disk "seamed.mp4") with (Some Toy.seamed) in Hcap.
  injection Hcap as <-.
  eexists. exists Fs. split; [vm_compute; reflexivity|].
  split; [exact Hmap|]. split; [exact Hasc|].
  apply (Forall_impl _ (fun F HF => proj2 HF) Hin).
Defined.

Lemma sampled_frame_numbers_witness :
  exists r,
    @analyze_video Toy.disk Toy.default "t0" "seamed.mp4" 2 = Ok r
    /\ r = @finish Toy.disk "t0" "seamed.mp4" Toy.seamed
             (@process_frame Toy.disk Toy.default
                (@process_frame Toy.disk Toy.default initial_state Toy.no_belt 2)
                Toy.belt_110 4)
    /\ map fst (filter (fun s => fst s mod 2 =? 0)
                  (numbered (@decoded Toy.disk (cap_reads Toy.seamed))))
       = [2; 4].
Proof.
  destruct (@sampled_frame_numbers Toy.disk Toy.default "t0" "seamed.mp4" 2
              Toy.seamed ltac:(lia) eq_refl) as [Hrun Hnum].
  eexists. split; [exact Hrun|]. split; [reflexivity | exact Hnum].
Defined.

Lemma no_sampled_frame_witness :
  @analyze_video Toy.disk Toy.default "t0" "quiet.mp4" 3
  = Ok {| source_file := "quiet.mp4"; total_frames := 2;
          fps := Py.Float (Py.float_of_Z 30);
          segments := []; alerts := []; created_at := "t0" |}.
Proof.
  apply (@no_sampled_frame Toy.disk Toy.default "t0" "quiet.mp4" 3 Toy.quiet).
  - reflexivity.
  - right. vm_compute. reflexivity.
Defined.

Lemma measured_width_bounds_witness :
  @measure_width Toy.disk Toy.default Toy.belt_105 = Some 105
  /\ 0 <= 105 < 200.
Proof.
  assert (H : @measure_width Toy.disk Toy.default Toy.belt_105 = Some 105)
    by (vm_compute; reflexivity).
  split; [exact H|].
  exact (proj1 (@measured_width_bounds Toy.disk Toy.default Toy.belt_105 105 H)).
Defined.

Lemma to_dict_of_video_witness :
  exists r rows,
    @analyze_video Toy.disk Toy.default "t0" "seamed.mp4" 1 = Ok r
    /\ lookup "segments" (to_dict r) = Some (VList rows)
    /\ lookup "total_segments" (to_dict r) = Some (VNum (Py.Int 2))
    /\ Forall (row_within Toy.default) rows.
Proof.
  destruct (@to_dict_of_video Toy.disk Toy.default "t0" "seamed.mp4" 1 _
              ltac:(vm_compute; reflexivity)) as (rows & Hrows & _ & _ & Hall).
  eexists. exists rows. split; [vm_compute; reflexivity|].
  split; [exact Hrows|]. split; [reflexivity | exact Hall].
Defined.

Lemma image_alert_has_segment_witness :
  exists r,
    @analyze_image Toy.disk Toy.default "t0" "belt.png" = Ok r
    /\ alerts r = [width_warning None 105]
    /\ (alerts r = []
        \/ exists w,
             alerts r = [width_warning None w]
             /\ segments r = [ {| segment_id := 1; frame_start := 0;
                                  frame_end := 0; widths := [Py.Int w] |} ]
             /\ below_warning_limit Toy.default w = true).
Proof.
  eexists. split; [vm_compute; reflexivity|].
  split; [vm_compute; reflexivity|].
  apply (@image_alert_has_segment Toy.disk Toy.default "t0" "belt.png").
  vm_compute. reflexivity.
Defined.

Lemma analyze_then_get_witness :
  exists store' response fetched,
    @analyze_media Upload.disk Upload.suffix_lower Upload.allowed_text
      Upload.zero_division_text Upload.earlier "Belt.PNG" "20240101_000000" "t0" "t1"
      (Py.float_of_Z 100) (Py.float_of_Z 2000) Py.f0_3 1 None None None None
    = (store', Http_ok response)
    /\ r_source_file response = "Belt.PNG"%string
    /\ get_result store' "t2" "20240101_000000" = Http_ok fetched
    /\ r_source_file fetched = "data/uploads/20240101_000000.png"%string
    /\ r_segments fetched = r_segments response
    /\ r_alerts fetched = r_alerts response.
Proof.
  eexists. eexists.
  destruct (@analyze_then_get Upload.disk Upload.suffix_lower Upload.allowed_text
              Upload.zero_division_text Upload.earlier _ "Belt.PNG" "20240101_000000"
              "t0" "t1" "t2"
              (Py.float_of_Z 100) (Py.float_of_Z 2000) Py.f0_3 1
              None None None None _ ltac:(vm_compute; reflexivity))
    as (Hname & fetched & Hget & Hpath & _ & Hsegs & Halerts & _).
  exists fetched. split; [vm_compute; reflexivity|].
  split; [exact Hname|]. split; [exact Hget|]. split; [exact Hpath|].
  split; [exact Hsegs | exact Halerts].
Defined.

Lemma analyze_media_failure_witness :
  exists store' store'' detail,
    @analyze_media Upload.disk Upload.suffix_lower Upload.allowed_text
      Upload.zero_division_text Upload.earlier "notes.txt" "20240101_000002"
      "t0" "t1" (Py.float_of_Z 100) (Py.float_of_Z 2000) Py.f0_3 1
      None None None None
    = (store', HTTPException 400 detail)
    /\ store' = Upload.earlier
    /\ @analyze_media Upload.disk Upload.suffix_lower Upload.allowed_text
         Upload.zero_division_text Upload.earlier "run.mp4" "20240101_000001"
         "t0" "t1" (Py.float_of_Z 100) (Py.float_of_Z 2000) Py.f0_3 0
         None None None None
       = (store'', HTTPException 500 Upload.zero_division_text)
    /\ store'' = Upload.earlier.
Proof.
  eexists. eexists. eexists.
  refine (conj _ (conj _ (conj _ _))).
  - vm_compute. reflexivity.
  - refine (proj1 (@analyze_media_failure Upload.disk Upload.suffix_lower
                     Upload.allowed_text Upload.zero_division_text
                     Upload.earlier _ "notes.txt" "20240101_000002" "t0" "t1"
                     (Py.float_of_Z 100) (Py.float_of_Z 2000) Py.f0_3 1
                     None None None None 400 _ _)).
    vm_compute. reflexivity.
  - vm_compute. reflexivity.
  - refine (proj1 (@analyze_media_failure Upload.disk Upload.suffix_lower
                     Upload.allowed_text Upload.zero_division_text
                     Upload.earlier _ "run.mp4" "20240101_000001" "t0" "t1"
                     (Py.float_of_Z 100) (Py.float_of_Z 2000) Py.f0_3 0
                     None None None None 500 _ _)).
    vm_compute. reflexivity.
Defined.

Lemma visualization_label_witness :
  @measure_width Toy.disk Toy.default Toy.belt_105 = Some 105
  /\ exists l r,
       0 <= l <= r /\ 105 = r - l
       /\ @get_visualization Toy.disk Upload.frame_height Toy.default Toy.belt_105
          = [line (l, 0) (l, 1) (0, 255, 0) 2;
             line (r, 0) (r, 1) (0, 255, 0) 2;
             line (l, 0) (r, 0) (255, 0, 0) 2;
             putText "Width: 105px" (l, -10) f0_7 (255, 0, 0) 2].
Proof.
  assert (H : @measure_width Toy.disk Toy.default Toy.belt_105 = Some 105)
    by (vm_compute; reflexivity).
  split; [exact H|].
  exact (proj2 (@visualization_label Toy.disk Upload.frame_height Toy.default
                  Toy.belt_105) 105 H).
Defined.
